(** * SMART-on-FHIR authorization: the access decision code of
      [smartAuthorizationHelper] and [smartHandler], embedded and verified.

    The JavaScript sources are embedded shallowly:
    - JSON data (resources, token claims, identities) is the tree type
      [JsVal]; reading a property of [null] or [undefined] is a [TypeError];
    - a function that can throw returns a [result]; the token verifier, which
      talks to a key server or an introspection endpoint, runs in a small
      monad that threads the log of external calls;
    - code that is not part of the two source files (the scope helper, the
      reference matrices, the JWT library, the HTTP client) is a section
      variable of the function that calls it. *)

From Stdlib Require Import List String Ascii ZArith Bool Lia DecimalString.
Import ListNotations.
Open Scope list_scope.
Open Scope string_scope.

Set Implicit Arguments.

(* ================================================================== *)
(** ** Errors and results *)

(** What a [throw] carries. [UnauthorizedError] is the denial of
    fhir-works-on-aws-interface, [TypeError] the runtime error of a property
    read on [null]/[undefined] or of a call of something that is not a
    function, [SyntaxError] what [JSON.parse] throws, [PlainError] a
    [new Error(msg)]. *)
Inductive JsError : Type :=
| UnauthorizedError (msg : string)
| TypeError
| SyntaxError (msg : string)
| PlainError (msg : string).

Inductive result (A : Type) : Type :=
| Ok (a : A)
| Err (e : JsError).

Arguments Ok {A} a.
Arguments Err {A} e.

Definition bind {A B : Type} (r : result A) (k : A -> result B) : result B :=
  match r with
  | Ok a => k a
  | Err e => Err e
  end.

Notation "x <- r ;; k" := (bind r (fun x => k))
  (at level 61, r at next level, right associativity).

Definition is_ok {A : Type} (r : result A) : bool :=
  match r with Ok _ => true | Err _ => false end.

(** [arr.some(f)] where [f] may throw: stops at the first element on which
    [f] is true, and at the first one on which it throws. *)
Fixpoint someM {A : Type} (f : A -> result bool) (l : list A) : result bool :=
  match l with
  | [] => Ok false
  | x :: rest => b <- f x ;; if b then Ok true else someM f rest
  end.

(** [arr.filter(f)] where [f] may throw. *)
Fixpoint filterM {A : Type} (f : A -> result bool) (l : list A) : result (list A) :=
  match l with
  | [] => Ok []
  | x :: rest =>
      b <- f x ;;
      kept <- filterM f rest ;;
      Ok (if b then x :: kept else kept)
  end.

(** [arr.forEach(x => out.push(f(x)))] where [f] may throw. *)
Fixpoint mapM {A B : Type} (f : A -> result B) (l : list A) : result (list B) :=
  match l with
  | [] => Ok []
  | x :: rest =>
      y <- f x ;;
      ys <- mapM f rest ;;
      Ok (y :: ys)
  end.

(* ================================================================== *)
(** ** Strings *)

(** [s.startsWith(p)]. *)
Definition startsWith (s p : string) : bool := String.prefix p s.

(** [ids.includes(s)] on an array of strings. *)
Definition includes (l : list string) (s : string) : bool :=
  existsb (String.eqb s) l.

(** [s.split(c)] for a one-character separator: never empty. *)
Fixpoint split_on (c : ascii) (s : string) : list string :=
  match s with
  | EmptyString => [EmptyString]
  | String a rest =>
      if Ascii.eqb a c then EmptyString :: split_on c rest
      else match split_on c rest with
           | [] => [String a EmptyString]
           | w :: ws => String a w :: ws
           end
  end.

Definition dot : ascii := "."%char.
Definition slash : ascii := "/"%char.

(* ================================================================== *)
(** ** JSON values as JavaScript sees them *)

(** Numbers are [NaN] and the integers that a double holds exactly: the
    code only tests a number for zero and subtracts counts from it. An
    object keeps its fields in insertion order; a key occurs once, and a
    lookup takes the first binding. *)
#[warnings="-register-all"]
Inductive JsVal : Type :=
| JUndefined
| JNull
| JBool (b : bool)
| JNum (z : Z)
| JNaN
| JStr (s : string)
| JArr (items : list JsVal)
| JObj (fields : list (string * JsVal)).

Definition nullish (v : JsVal) : bool :=
  match v with JUndefined | JNull => true | _ => false end.

(** The truthiness test of [if (v)], [v && ...], [!v]. *)
Definition truthy (v : JsVal) : bool :=
  match v with
  | JUndefined | JNull | JNaN => false
  | JBool b => b
  | JNum z => negb (Z.eqb z 0)
  | JStr s => negb (String.eqb s "")
  | JArr _ | JObj _ => true
  end.

Definition is_array (v : JsVal) : bool :=
  match v with JArr _ => true | _ => false end.

Fixpoint lookup_field (k : string) (fields : list (string * JsVal)) : JsVal :=
  match fields with
  | [] => JUndefined
  | (k', v) :: rest => if String.eqb k k' then v else lookup_field k rest
  end.

(** [v[k]] for a field name [k]: a [TypeError] on [null] and [undefined],
    the own field of an object, [undefined] when the object has no such
    field. The names read by this code are FHIR element names and claim
    names, never [length], an index or an inherited method, so a read on an
    array, a string, a number or a boolean gives [undefined]. *)
Definition get_prop (v : JsVal) (k : string) : result JsVal :=
  match v with
  | JUndefined | JNull => Err TypeError
  | JObj fields => Ok (lookup_field k fields)
  | _ => Ok JUndefined
  end.

Fixpoint set_field (k : string) (v : JsVal) (fields : list (string * JsVal))
  : list (string * JsVal) :=
  match fields with
  | [] => [(k, v)]
  | (k', v') :: rest =>
      if String.eqb k k' then (k', v) :: rest else (k', v') :: set_field k v rest
  end.

(** [o.k = v] under "use strict": on an object the field is replaced where
    it stands or appended; on a primitive it is a [TypeError]. *)
Definition set_prop (o : JsVal) (k : string) (v : JsVal) : result JsVal :=
  match o with
  | JObj fields => Ok (JObj (set_field k v fields))
  | _ => Err TypeError
  end.

Definition string_of_Z (z : Z) : string := NilZero.string_of_int (Z.to_int z).

Definition join_with (sep : string) (l : list string) : string :=
  match l with
  | [] => ""
  | x :: rest => fold_left (fun acc y => acc ++ sep ++ y) rest x
  end.

(** [String(v)], as a template literal [`${v}`] or a property key [m[v]]
    computes it. *)
Fixpoint to_string (v : JsVal) : string :=
  match v with
  | JUndefined => "undefined"
  | JNull => "null"
  | JBool true => "true"
  | JBool false => "false"
  | JNum z => string_of_Z z
  | JNaN => "NaN"
  | JStr s => s
  | JArr items =>
      join_with "," (map (fun x => if nullish x then "" else to_string x) items)
  | JObj _ => "[object Object]"
  end.

(** [a === b] between a string and a JSON value. *)
Definition strict_eq_str (s : string) (v : JsVal) : bool :=
  match v with JStr s' => String.eqb s s' | _ => false end.

(* ================================================================== *)
(** ** smartAuthorizationHelper: identities *)

(** [FhirResource] of smartConfig: a parsed reference. *)
Record FhirResource : Type := mkFhirResource {
  hostname : string;
  resourceType : string;
  id : string
}.

Definition GENERIC_ERR_MESSAGE : string := "Invalid access token".

Definition in_range (lo hi c : ascii) : bool :=
  (nat_of_ascii lo <=? nat_of_ascii c)%nat && (nat_of_ascii c <=? nat_of_ascii hi)%nat.

Definition is_upper (c : ascii) : bool := in_range "A" "Z" c.
Definition is_letter (c : ascii) : bool := is_upper c || in_range "a" "z" c.
Definition is_alnum (c : ascii) : bool := is_letter c || in_range "0" "9" c.

(** The class [[A-Za-z0-9\-\\.:%$_/]] of both regular expressions. *)
Definition is_host_char (c : ascii) : bool :=
  is_alnum c
  || existsb (Ascii.eqb c) ["-"; "\"; "."; ":"; "%"; "$"; "_"; "/"]%char.

(** The class [[A-Za-z0-9\-.]] of an id. *)
Definition is_id_char (c : ascii) : bool :=
  is_alnum c || Ascii.eqb c "-" || Ascii.eqb c ".".

Fixpoint string_forall (p : ascii -> bool) (s : string) : bool :=
  match s with
  | EmptyString => true
  | String c rest => p c && string_forall p rest
  end.

(** One or more characters of a class: [[...]+]. *)
Definition some_chars (p : ascii -> bool) (s : string) : bool :=
  negb (String.eqb s "") && string_forall p s.

Definition drop_prefix (p s : string) : string :=
  substring (String.length p) (String.length s - String.length p) s.

(** [(http|https):\/\/([A-Za-z0-9\-\\.:%$_/])+], anchored at both ends. *)
Definition match_hostname (h : string) : bool :=
  (startsWith h "http://" && some_chars is_host_char (drop_prefix "http://" h))
  || (startsWith h "https://" && some_chars is_host_char (drop_prefix "https://" h)).

(** Neither a resource type nor an id holds a slash, so a string matched by
    [^(host/)?Type/id$] is cut at its last two slashes: the captures are
    the last segment, the one before it, and what precedes them. *)
Definition split_reference (s : string) : option (option string * string * string) :=
  match rev (split_on slash s) with
  | i :: t :: [] => Some (None, t, i)
  | i :: t :: before => Some (Some (join_with "/" (rev before)), t, i)
  | _ => None
  end.

Definition is_user_type (t : string) : bool :=
  existsb (String.eqb t) ["Person"; "Practitioner"; "RelatedPerson"; "Patient"].

(** [[A-Z][a-zA-Z]+]. *)
Definition is_resource_type (t : string) : bool :=
  match t with
  | EmptyString => false
  | String c rest => is_upper c && some_chars is_letter rest
  end.

(** [value.match(FHIR_USER_REGEX)] and its named groups. *)
Definition match_FHIR_USER_REGEX (s : string) : option FhirResource :=
  match split_reference s with
  | Some (Some h, t, i) =>
      if match_hostname h && is_user_type t && some_chars is_id_char i
      then Some (mkFhirResource h t i) else None
  | _ => None
  end.

(** [value.match(FHIR_RESOURCE_REGEX)]: the hostname group may be absent. *)
Definition match_FHIR_RESOURCE_REGEX (s : string) : option (option string * string * string) :=
  match split_reference s with
  | Some (h, t, i) =>
      if match h with Some h' => match_hostname h' | None => true end
         && is_resource_type t && some_chars is_id_char i
      then Some (h, t, i) else None
  | None => None
  end.

(** The claim value comes out of a token: calling [.match] on anything but a
    string is a [TypeError]. *)
Definition getFhirUser (fhirUserValue : JsVal) : result FhirResource :=
  match fhirUserValue with
  | JStr s =>
      match match_FHIR_USER_REGEX s with
      | Some r => Ok r
      | None => Err (UnauthorizedError "Requester's identity is in the incorrect format")
      end
  | _ => Err TypeError
  end.

Definition getFhirResource (resourceValue : JsVal) (defaultHostname : string)
  : result FhirResource :=
  match resourceValue with
  | JStr s =>
      match match_FHIR_RESOURCE_REGEX s with
      | Some (h, t, i) =>
          Ok (mkFhirResource (match h with Some h' => h' | None => defaultHostname end) t i)
      | None => Err (UnauthorizedError "Resource is in the incorrect format")
      end
  | _ => Err TypeError
  end.

(** The identity as the object literal [{ hostname, resourceType, id }]. *)
Definition json_of_FhirResource (r : FhirResource) : JsVal :=
  JObj [("hostname", JStr (hostname r));
        ("resourceType", JStr (resourceType r));
        ("id", JStr (id r))].

(* ================================================================== *)
(** ** smartAuthorizationHelper: the reference matcher *)

(** The names every plain object inherits from [Object.prototype]: a read
    [o[k]] of one of them on an object without such a field of its own gives
    a function, or [Object.prototype] itself for [__proto__]. *)
Definition Object_prototype_keys : list string :=
  [ "constructor"; "__defineGetter__"; "__defineSetter__"; "hasOwnProperty";
    "__lookupGetter__"; "__lookupSetter__"; "isPrototypeOf";
    "propertyIsEnumerable"; "toString"; "valueOf"; "__proto__";
    "toLocaleString" ].

(** A reference matrix as the code reads it, the object of a JSON file.
    [rows] are its own fields: source type, then requestor type, then the
    dot-paths where the reference may stand. For a name [s] that the file
    does not hold but the object inherits, [inherited s r] tells whether
    [Object.prototype[s][r]] is anything but a falsy value (a truthy value or
    an accessor that throws): the members of the built-in functions are the
    runtime's. *)
Record ReferenceMatrix : Type := mkReferenceMatrix {
  rows : list (string * list (string * list string));
  inherited : string -> string -> bool
}.

Fixpoint assoc {A : Type} (k : string) (l : list (string * A)) : option A :=
  match l with
  | [] => None
  | (k', v) :: rest => if String.eqb k k' then Some v else assoc k rest
  end.

(** What [possiblePaths] holds when [possiblePaths.some] is called: an array
    of paths, or a value that is not an array. *)
Inductive Selected : Type :=
| Paths (paths : list string)
| NotAnArray.

(** [matrix[s] && matrix[s][r]], or the initial []. Both reads follow the
    prototype chain: a requestor type that a row does not hold but inherits
    selects the inherited member, which is truthy and no array; a source
    type that the matrix does not hold but inherits selects a member of a
    built-in value. *)
Definition possible_paths (matrix : ReferenceMatrix) (s r : string) : Selected :=
  match assoc s (rows matrix) with
  | Some row =>
      match assoc r row with
      | Some paths => Paths paths
      | None => if includes Object_prototype_keys r then NotAnArray else Paths []
      end
  | None =>
      if includes Object_prototype_keys s && inherited matrix s r then NotAnArray
      else Paths []
  end.

(** What one [rootQueue.shift()] pushes on [nextQueue]. *)
Definition expand (seg : string) (tempResource : JsVal) : result (list JsVal) :=
  if truthy tempResource then
    match tempResource with
    | JArr items => mapM (fun x => get_prop x seg) items
    | _ => v <- get_prop tempResource seg ;; Ok [v]
    end
  else Ok [].

(** The [while (rootQueue.length > 0)] loop: [nextQueue] when it ends. *)
Fixpoint drain (seg : string) (rootQueue : list JsVal) : result (list JsVal) :=
  match rootQueue with
  | [] => Ok []
  | tempResource :: rest =>
      pushed <- expand seg tempResource ;;
      more <- drain seg rest ;;
      Ok (pushed ++ more)%list
  end.

(** The [for] loop over [pathComponents[1..]]. *)
Fixpoint walk (segs : list string) (nextQueue : list JsVal) : result (list JsVal) :=
  match segs with
  | [] => Ok nextQueue
  | seg :: rest => q <- drain seg nextQueue ;; walk rest q
  end.

(** [queue.flat()]: one level. *)
Definition flat (queue : list JsVal) : list JsVal :=
  flat_map (fun v => match v with JArr items => items | _ => [v] end) queue.

(** [ids.includes(v)]: only a string equals a string. *)
Definition includes_val (ids : list string) (v : JsVal) : bool :=
  match v with JStr s => includes ids s | _ => false end.

(** [x && x.reference && requestorIds.includes(x.reference)], as a test. *)
Definition leaf_matches (requestorIds : list string) (x : JsVal) : bool :=
  truthy x &&
  match get_prop x "reference" with
  | Ok r => truthy r && includes_val requestorIds r
  | Err _ => false
  end.

(** [nextQueue.flat()] when the [for] loop over the path has ended. *)
Definition path_leaves (sourceResource : JsVal) (path : string) : result (list JsVal) :=
  let pathComponents := split_on dot path in
  first <- get_prop sourceResource (hd "" pathComponents) ;;
  nextQueue <- walk (tl pathComponents) [first] ;;
  Ok (flat nextQueue).

(** The callback of [possiblePaths.some]. *)
Definition path_hits (requestorIds : list string) (sourceResource : JsVal)
    (path : string) : result bool :=
  leaves <- path_leaves sourceResource path ;;
  Ok (existsb (leaf_matches requestorIds) leaves).

Section ReferenceMatcher.

(** The two matrix files under lib/schema, which are data. *)
Variable matrix_v4_0_1 : ReferenceMatrix.
Variable matrix_v3_0_1 : ReferenceMatrix.

Definition select_matrix (fhirVersion : string) : result ReferenceMatrix :=
  if String.eqb fhirVersion "4.0.1" then Ok matrix_v4_0_1
  else if String.eqb fhirVersion "3.0.1" then Ok matrix_v3_0_1
  else Err (PlainError "Unsupported FHIR version detected").

Definition isRequestorReferenced (requestorIds : list string)
    (requestorResourceType : string) (sourceResource : JsVal)
    (fhirVersion : string) : result bool :=
  sourceResourceType <- get_prop sourceResource "resourceType" ;;
  matrix <- select_matrix fhirVersion ;;
  match possible_paths matrix (to_string sourceResourceType) requestorResourceType with
  | Paths possiblePaths => someM (path_hits requestorIds sourceResource) possiblePaths
  | NotAnArray => Err TypeError
  end.

Definition relative_ref (r : FhirResource) : string :=
  resourceType r ++ "/" ++ id r.

Definition absolute_ref (r : FhirResource) : string :=
  hostname r ++ "/" ++ resourceType r ++ "/" ++ id r.

(** [resourceType === sourceResource.resourceType && id === sourceResource.id]. *)
Definition is_same_resource (requestorId : FhirResource) (sourceResource : JsVal)
  : result bool :=
  t <- get_prop sourceResource "resourceType" ;;
  if strict_eq_str (resourceType requestorId) t then
    i <- get_prop sourceResource "id" ;; Ok (strict_eq_str (id requestorId) i)
  else Ok false.

Definition hasReferenceToResource (requestorId : FhirResource)
    (sourceResource : JsVal) (apiUrl fhirVersion : string) : result bool :=
  if negb (String.eqb (hostname requestorId) apiUrl) then
    isRequestorReferenced [absolute_ref requestorId]
      (resourceType requestorId) sourceResource fhirVersion
  else
    same <- is_same_resource requestorId sourceResource ;;
    if same then Ok true
    else isRequestorReferenced [relative_ref requestorId; absolute_ref requestorId]
           (resourceType requestorId) sourceResource fhirVersion.

Definition isFhirUserAdmin (fhirUser : FhirResource)
    (adminAccessTypes : list string) (apiUrl : string) : bool :=
  String.eqb apiUrl (hostname fhirUser)
  && includes adminAccessTypes (resourceType fhirUser).

Definition hasSystemAccess (usableScopes : list string) (resourceType : string) : bool :=
  existsb (fun scope => startsWith scope "system/*"
                        || startsWith scope ("system/" ++ resourceType))
          usableScopes.

(** The value of the [||] chain, read as a condition (its callers only test
    it). An absent identity is [undefined], which is falsy. *)
Definition hasAccessToResource (fhirUserObject patientLaunchContext : option FhirResource)
    (sourceResource : JsVal) (usableScopes adminAccessTypes : list string)
    (apiUrl fhirVersion : string) : result bool :=
  t <- get_prop sourceResource "resourceType" ;;
  if hasSystemAccess usableScopes (to_string t) then Ok true
  else
    byUser <- match fhirUserObject with
              | Some u =>
                  if isFhirUserAdmin u adminAccessTypes apiUrl then Ok true
                  else hasReferenceToResource u sourceResource apiUrl fhirVersion
              | None => Ok false
              end ;;
    if byUser then Ok true
    else match patientLaunchContext with
         | Some p => hasReferenceToResource p sourceResource apiUrl fhirVersion
         | None => Ok false
         end.

End ReferenceMatcher.

(* ================================================================== *)
(** ** smartAuthorizationHelper: token verification *)

(** The expected audience of the configuration: a string or a [RegExp], the
    latter known by its [test]. *)
Inductive Audience : Type :=
| AudString (s : string)
| AudRegExp (test : string -> bool).

(** What [verify] returns, as the JWT library declares it: the claims
    object, or the text of a payload that is not a JSON object. It has read
    fields of the payload, so it never returns [null]. *)
Inductive JwtPayload : Type :=
| PayloadObject (claims : list (string * JsVal))
| PayloadString (text : string).

Definition claims_of (p : JwtPayload) : JsVal :=
  match p with
  | PayloadObject claims => JObj claims
  | PayloadString text => JStr text
  end.

(** [decode(token, { complete: true })] when it is an object. The payload
    is whatever the token's second part holds: for a token of type JWT any
    JSON value, [null] included. *)
Record DecodedJwt : Type := mkDecodedJwt {
  header : JsVal;
  payload : JsVal
}.

Record IntrospectionOptions : Type := mkIntrospectionOptions {
  introspectUrl : string;
  clientId : string;
  clientSecret : string
}.

(** What leaves the process: a key request to the JWKS endpoint, a signature
    check by the JWT library, a POST to the introspection endpoint. *)
Inductive ExternalCall : Type :=
| GetSigningKey (kid : JsVal)
| VerifySignature (token key : string)
| PostIntrospection (url body authorization : string).

(** A computation that may throw and that appends to the log of external
    calls made so far: the [async] functions of the verifier. *)
Definition IO (A : Type) : Type := list ExternalCall -> result A * list ExternalCall.

Definition ret {A : Type} (a : A) : IO A := fun log => (Ok a, log).

Definition throw {A : Type} (e : JsError) : IO A := fun log => (Err e, log).

Definition lift {A : Type} (r : result A) : IO A := fun log => (r, log).

Definition bindIO {A B : Type} (m : IO A) (k : A -> IO B) : IO B :=
  fun log =>
    match m log with
    | (Ok a, log') => k a log'
    | (Err e, log') => (Err e, log')
    end.

(** [try { m } catch (e) { h }]. *)
Definition try_catch {A : Type} (m : IO A) (h : JsError -> IO A) : IO A :=
  fun log =>
    match m log with
    | (Ok a, log') => (Ok a, log')
    | (Err e, log') => h e log'
    end.

(** An external call and the answer the outside world gave. *)
Definition external {A : Type} (c : ExternalCall) (answer : result A) : IO A :=
  fun log => (answer, (log ++ [c])%list).

Notation "x <~ m ;; k" := (bindIO m (fun x => k))
  (at level 61, m at next level, right associativity).

Section TokenVerifier.

(** The jsonwebtoken library, the JWKS client, axios and [Buffer].
    [decode] returns [null] for a token it cannot read, and throws when the
    payload of a token of type JWT is not JSON. *)
Variable jwt_decode : string -> result (option DecodedJwt).
Variable getSigningKeyAsync : JsVal -> result string.
Variable jwt_verify : string -> string -> Audience -> string -> result JwtPayload.
Variable axios_post : string -> string -> string -> result JsVal.
Variable base64 : string -> string.

(** The callback of [audArray.some]. *)
Definition aud_matches (expectedAudValue : Audience) (audience : JsVal) : bool :=
  match expectedAudValue with
  | AudString s => strict_eq_str s audience
  | AudRegExp test => test (to_string audience)
  end.

Definition decodeJwtToken (token : string) (expectedAudValue : Audience)
    (expectedIssValue : string) : result DecodedJwt :=
  decoded <- jwt_decode token ;;
  match decoded with
  | None => Err (UnauthorizedError GENERIC_ERR_MESSAGE)
  | Some decodedAccessToken =>
      aud <- get_prop (payload decodedAccessToken) "aud" ;;
      iss <- get_prop (payload decodedAccessToken) "iss" ;;
      if negb (strict_eq_str expectedIssValue iss) then
        Err (UnauthorizedError GENERIC_ERR_MESSAGE)
      else
        audArray <- (if truthy aud then
                       match aud with
                       | JStr _ => Ok [aud]
                       | JArr items => Ok items
                       | _ => Err TypeError
                       end
                     else Ok []) ;;
        if negb (existsb (aud_matches expectedAudValue) audArray) then
          Err (UnauthorizedError GENERIC_ERR_MESSAGE)
        else Ok decodedAccessToken
  end.

Definition verifyJwtToken (token : string) (expectedAudValue : Audience)
    (expectedIssValue : string) : IO JwtPayload :=
  decodedAccessToken <~ lift (decodeJwtToken token expectedAudValue expectedIssValue) ;;
  kid <~ lift (get_prop (header decodedAccessToken) "kid") ;;
  if negb (truthy kid) then throw (UnauthorizedError GENERIC_ERR_MESSAGE)
  else
    try_catch
      (key <~ external (GetSigningKey kid) (getSigningKeyAsync kid) ;;
       external (VerifySignature token key)
                (jwt_verify token key expectedAudValue expectedIssValue))
      (fun _ => throw (UnauthorizedError GENERIC_ERR_MESSAGE)).

Definition introspectJwtToken (token : string) (expectedAudValue : Audience)
    (expectedIssValue : string) (introspectionOptions : IntrospectionOptions)
  : IO JsVal :=
  decoded <~ lift (decodeJwtToken token expectedAudValue expectedIssValue) ;;
  let decodedTokenPayload := payload decoded in
  let username := clientId introspectionOptions in
  let password := clientSecret introspectionOptions in
  let auth := "Basic " ++ base64 (username ++ ":" ++ password) in
  try_catch
    (response <~ external
                   (PostIntrospection (introspectUrl introspectionOptions)
                                      ("token=" ++ token) auth)
                   (axios_post (introspectUrl introspectionOptions)
                               ("token=" ++ token) auth) ;;
     data <~ lift (get_prop response "data") ;;
     active <~ lift (get_prop data "active") ;;
     if negb (truthy active) then throw (UnauthorizedError GENERIC_ERR_MESSAGE)
     else ret decodedTokenPayload)
    (fun _ => throw (UnauthorizedError GENERIC_ERR_MESSAGE)).

End TokenVerifier.

(* ================================================================== *)
(** ** smartHandler: configuration, identities and requests *)

Record SMARTConfig : Type := mkSMARTConfig {
  version : Z;
  scopeKey : string;
  scopeRule : JsVal;
  expectedAudValue : Audience;
  expectedIssValue : string;
  fhirUserClaimPath : string;
  launchContextPathPrefix : string;
  jwksEndpoint : option string;
  tokenIntrospection : option IntrospectionOptions
}.

Record SMARTHandler : Type := mkSMARTHandler {
  config : SMARTConfig;
  apiUrl : string;
  fhirVersion : string;
  adminAccessTypes : list string;
  bulkDataAccessTypes : list string;
  isUserScopeAllowedForSystemExport : bool
}.

(** The constructor, with the defaults of its optional parameters. *)
Definition SMARTHandler_new (config : SMARTConfig) (apiUrl fhirVersion : string)
  : result SMARTHandler :=
  if negb (Z.eqb (version config) 1) then
    Err (PlainError "Authorization configuration version does not match handler version")
  else Ok (mkSMARTHandler config apiUrl fhirVersion ["Practitioner"] ["Practitioner"] false).

(** [this.jwksClient] is set by the constructor exactly when
    [config.jwksEndpoint && !config.tokenIntrospection]. *)
Definition jwksClient (h : SMARTHandler) : bool :=
  match jwksEndpoint (config h), tokenIntrospection (config h) with
  | Some uri, None => negb (String.eqb uri "")
  | _, _ => false
  end.

(** The identity a verified request carries, as the handler's other methods
    read it. *)
Record UserIdentity : Type := mkUserIdentity {
  sub : JsVal;
  scopes : list string;
  usableScopes : list string;
  fhirUserObject : option FhirResource;
  patientLaunchContext : option FhirResource
}.

Record SearchFilter : Type := mkSearchFilter {
  key : string;
  value : list string;
  comparisonOperator : string;
  logicalOperator : string
}.

Module VerifyRequest.
Record t : Type := mk {
  accessToken : string;
  operation : string;
  resourceType : option string;
  bulkDataAuth : JsVal;
  fhirServiceBaseUrl : option string
}.
End VerifyRequest.

Module BulkJobRequest.
Record t : Type := mk {
  userIdentity : UserIdentity;
  jobOwnerId : string
}.
End BulkJobRequest.

Module SearchFilterRequest.
Record t : Type := mk {
  userIdentity : UserIdentity;
  resourceType : option string;
  fhirServiceBaseUrl : option string
}.
End SearchFilterRequest.

Module BundleEntry.
Record t : Type := mk {
  operation : string;
  resourceType : string;
  resource : JsVal
}.
End BundleEntry.

Module BundleRequest.
Record t : Type := mk {
  userIdentity : UserIdentity;
  requests : list BundleEntry.t;
  fhirServiceBaseUrl : option string
}.
End BundleRequest.

Module ReadResponseRequest.
Record t : Type := mk {
  userIdentity : UserIdentity;
  operation : string;
  readResponse : JsVal;
  fhirServiceBaseUrl : option string
}.
End ReadResponseRequest.

Module WriteRequest.
Record t : Type := mk {
  userIdentity : UserIdentity;
  operation : string;
  resourceBody : JsVal;
  fhirServiceBaseUrl : option string
}.
End WriteRequest.

(** [a ?? b]. *)
Definition nullish_or (a : option string) (b : string) : string :=
  match a with Some s => s | None => b end.

(** A [Set] of strings keeps insertion order and ignores a second [add]. *)
Definition set_add (x : string) (s : list string) : list string :=
  if includes s x then s else (s ++ [x])%list.

Fixpoint has_field (k : string) (fields : list (string * JsVal)) : bool :=
  match fields with
  | [] => false
  | (k', _) :: rest => String.eqb k k' || has_field k rest
  end.

Fixpoint get_path (v : JsVal) (segs : list string) : JsVal :=
  match segs with
  | [] => v
  | s :: rest =>
      match v with
      | JObj fields => get_path (lookup_field s fields) rest
      | _ => JUndefined
      end
  end.

(** lodash [get(object, path)] for a dotted path of field names: a field
    whose own name is the whole path wins, a missing step gives
    [undefined]. *)
Definition lodash_get (object : JsVal) (path : string) : JsVal :=
  match object with
  | JObj fields =>
      if has_field path fields then lookup_field path fields
      else get_path object (split_on dot path)
  | _ => JUndefined
  end.

(** [clone] of the interface package is [JSON.parse(JSON.stringify(x))]: on
    JSON data, a copy. *)
Definition clone (v : JsVal) : JsVal := v.

(** The fields [{ ...v }] copies. *)
Definition spread (v : JsVal) : list (string * JsVal) :=
  match v with JObj fields => fields | _ => [] end.

(** [v.length]. *)
Definition get_length (v : JsVal) : result JsVal :=
  match v with
  | JUndefined | JNull => Err TypeError
  | JArr items => Ok (JNum (Z.of_nat (List.length items)))
  | JStr s => Ok (JNum (Z.of_nat (String.length s)))
  | _ => Ok JUndefined
  end.

(** Up to 2^53 every integer is a double. *)
Definition max_exact : Z := 9007199254740992.

(** The double nearest to the integer [z], ties going to the even
    significand of 53 bits: what an operation on doubles returns when its
    exact result is [z]. The differences this code takes are between a
    double and a count, which cannot overflow. *)
Definition round_double (z : Z) : Z :=
  if (Z.abs z <=? max_exact)%Z then z
  else
    let ulp := (2 ^ (Z.log2 (Z.abs z) - 52))%Z in
    let q := (Z.abs z / ulp)%Z in
    let r := (Z.abs z mod ulp)%Z in
    let q' := if (2 * r <? ulp)%Z then q
              else if (ulp <? 2 * r)%Z then (q + 1)%Z
              else if Z.even q then q else (q + 1)%Z in
    (Z.sgn z * (q' * ulp))%Z.

Definition is_space (c : ascii) : bool :=
  existsb (Ascii.eqb c) [" "; "009"; "010"; "011"; "012"; "013"]%char.

Fixpoint trim_left (s : string) : string :=
  match s with
  | String c rest => if is_space c then trim_left rest else s
  | EmptyString => s
  end.

Fixpoint string_rev_onto (s acc : string) : string :=
  match s with
  | EmptyString => acc
  | String c rest => string_rev_onto rest (String c acc)
  end.

(** [s.trim()], for the white space of ASCII. *)
Definition trim (s : string) : string :=
  string_rev_onto (trim_left (string_rev_onto (trim_left s) "")) "".

Definition digit_of (c : ascii) : option Z :=
  if in_range "0" "9" c then Some (Z.of_nat (nat_of_ascii c) - 48)%Z else None.

(** The value of a run of decimal digits read after [acc]. *)
Fixpoint digits_from (acc : Z) (s : string) : option Z :=
  match s with
  | EmptyString => Some acc
  | String c rest =>
      match digit_of c with
      | Some d => digits_from (10 * acc + d)%Z rest
      | None => None
      end
  end.

(** [ToNumber] of a string: white space around is dropped, the empty text
    is zero, a decimal integer with an optional sign is its value as a
    double. Text that denotes another number (a fraction, an exponent, a
    radix prefix, Infinity or an integer beyond the doubles) denotes none of
    the numbers of [JsVal]; it is read as text that is no number. *)
Definition string_to_number (s : string) : option Z :=
  match trim s with
  | EmptyString => Some 0%Z
  | String c rest =>
      let signed (sign : Z) (digits : string) :=
        match digits with
        | EmptyString => None
        | _ =>
            match digits_from 0 digits with
            | Some n =>
                if (n <? 2 ^ 1024 - 2 ^ 970)%Z then Some (round_double (sign * n))
                else None
            | None => None
            end
        end in
      if Ascii.eqb c "-" then signed (-1)%Z rest
      else if Ascii.eqb c "+" then signed 1%Z rest
      else signed 1%Z (String c rest)
  end.

(** [ToNumber]: [None] is [NaN]. An array goes through its text, an object
    through [[object Object]]. *)
Definition to_number (v : JsVal) : option Z :=
  match v with
  | JNum z => Some z
  | JBool b => Some (if b then 1 else 0)%Z
  | JNull => Some 0%Z
  | JStr s => string_to_number s
  | JArr _ => string_to_number (to_string v)
  | JUndefined | JNaN | JObj _ => None
  end.

(** [a - b], on doubles. *)
Definition js_sub (a b : JsVal) : JsVal :=
  match to_number a, to_number b with
  | Some x, Some y => JNum (round_double (x - y))
  | _, _ => JNaN
  end.

(** [v.filter(f)]: only an array has the method. *)
Definition js_filter (f : JsVal -> result bool) (v : JsVal) : result (list JsVal) :=
  match v with
  | JArr items => filterM f items
  | _ => Err TypeError
  end.

Definition is_truthy_string (s : option string) : bool :=
  match s with Some s' => negb (String.eqb s' "") | None => false end.

(* ================================================================== *)
(** ** smartHandler: the methods *)

Section Handler.

Variable matrix_v4_0_1 : ReferenceMatrix.
Variable matrix_v3_0_1 : ReferenceMatrix.
Variable jwt_decode : string -> result (option DecodedJwt).
Variable getSigningKeyAsync : JsVal -> result string.
Variable jwt_verify : string -> string -> Audience -> string -> result JwtPayload.
Variable axios_post : string -> string -> string -> result JsVal.
Variable base64 : string -> string.

(** smartScopeHelper, which is not among the sources: [getScopes(claim)],
    [filterOutUnusableScope(scopes, scopeRule, operation,
    isUserScopeAllowedForSystemExport, resourceType, bulkDataAuth,
    patientContextClaim, fhirUserClaim)], [isScopeSufficient(scope,
    scopeRule, operation, isUserScopeAllowedForSystemExport, resourceType)]
    and the constant [SEARCH_OPERATIONS]. *)
Variable getScopes : JsVal -> list string.
Variable filterOutUnusableScope :
  list string -> JsVal -> string -> bool -> option string ->
  JsVal -> JsVal -> JsVal -> list string.
Variable isScopeSufficient :
  string -> JsVal -> string -> bool -> option string -> bool.
Variable SEARCH_OPERATIONS : list string.

Let hasAccess := hasAccessToResource matrix_v4_0_1 matrix_v3_0_1.

(** The first statement of [verifyAccessToken]: the configured verifier. *)
Definition verifyToken (h : SMARTHandler) (request : VerifyRequest.t) : IO JsVal :=
  match tokenIntrospection (config h) with
  | Some options =>
      introspectJwtToken jwt_decode axios_post base64
        (VerifyRequest.accessToken request)
        (expectedAudValue (config h)) (expectedIssValue (config h)) options
  | None =>
      if jwksClient h then
        verified <~ verifyJwtToken jwt_decode getSigningKeyAsync jwt_verify
                      (VerifyRequest.accessToken request)
                      (expectedAudValue (config h)) (expectedIssValue (config h)) ;;
        ret (claims_of verified)
      else
        throw (PlainError "Authorization configuration not properly set up. Either 'tokenIntrospection' or 'jwksEndpoint' must be present")
  end.

Definition claimOfUser (h : SMARTHandler) (decodedToken : JsVal) : JsVal :=
  lodash_get decodedToken (fhirUserClaimPath (config h)).

Definition claimOfPatient (h : SMARTHandler) (decodedToken : JsVal) : JsVal :=
  lodash_get decodedToken (launchContextPathPrefix (config h) ++ "patient").

Definition usableScopesOf (h : SMARTHandler) (request : VerifyRequest.t)
    (decodedToken scopeClaim : JsVal) : list string :=
  filterOutUnusableScope (getScopes scopeClaim) (scopeRule (config h))
    (VerifyRequest.operation request) (isUserScopeAllowedForSystemExport h)
    (VerifyRequest.resourceType request) (VerifyRequest.bulkDataAuth request)
    (claimOfPatient h decodedToken) (claimOfUser h decodedToken).

(** The [if (request.bulkDataAuth)] block. *)
Definition checkBulkDataAuth (h : SMARTHandler) (userIdentity fhirUserClaim : JsVal)
    (usableScopes : list string) (fhirServiceBaseUrl : string) : result unit :=
  sub <- get_prop userIdentity "sub" ;;
  if negb (truthy sub) then
    Err (UnauthorizedError "User does not have permission for requested operation")
  else if negb (existsb (fun scope => startsWith scope "system") usableScopes) then
    fhirUser <- getFhirUser fhirUserClaim ;;
    if negb (String.eqb (hostname fhirUser) fhirServiceBaseUrl)
       || negb (includes (bulkDataAccessTypes h) (resourceType fhirUser))
    then Err (UnauthorizedError "User does not have permission for requested operation")
    else Ok tt
  else Ok tt.

(** [verifyAccessToken] after the token is verified. *)
Definition identityOfToken (h : SMARTHandler) (request : VerifyRequest.t)
    (decodedToken : JsVal) : result JsVal :=
  let fhirUserClaim := claimOfUser h decodedToken in
  let patientContextClaim := claimOfPatient h decodedToken in
  let fhirServiceBaseUrl :=
    nullish_or (VerifyRequest.fhirServiceBaseUrl request) (apiUrl h) in
  scopeClaim <- get_prop decodedToken (scopeKey (config h)) ;;
  let scopes := getScopes scopeClaim in
  let usableScopes := usableScopesOf h request decodedToken scopeClaim in
  match usableScopes with
  | [] => Err (UnauthorizedError "access_token does not have permission for requested operation")
  | _ :: _ =>
      let userIdentity := clone decodedToken in
      _ <- (if truthy (VerifyRequest.bulkDataAuth request) then
              checkBulkDataAuth h userIdentity fhirUserClaim usableScopes fhirServiceBaseUrl
            else Ok tt) ;;
      userIdentity <-
        (if truthy fhirUserClaim
            && existsb (fun scope => startsWith scope "user/") usableScopes
         then
           fhirUser <- getFhirUser fhirUserClaim ;;
           set_prop userIdentity "fhirUserObject" (json_of_FhirResource fhirUser)
         else Ok userIdentity) ;;
      userIdentity <-
        (if truthy patientContextClaim
            && existsb (fun scope => startsWith scope "patient/") usableScopes
         then
           patient <- getFhirResource patientContextClaim fhirServiceBaseUrl ;;
           set_prop userIdentity "patientLaunchContext" (json_of_FhirResource patient)
         else Ok userIdentity) ;;
      userIdentity <- set_prop userIdentity "scopes" (JArr (map JStr scopes)) ;;
      set_prop userIdentity "usableScopes" (JArr (map JStr usableScopes))
  end.

Definition verifyAccessToken (h : SMARTHandler) (request : VerifyRequest.t) : IO JsVal :=
  decodedToken <~ verifyToken h request ;;
  lift (identityOfToken h request decodedToken).

Definition isAccessBulkDataJobAllowed (request : BulkJobRequest.t) : result unit :=
  if negb (strict_eq_str (BulkJobRequest.jobOwnerId request)
                         (sub (BulkJobRequest.userIdentity request)))
  then Err (UnauthorizedError "User does not have permission to access this Bulk Data Export job")
  else Ok tt.

(** What one identity adds to the two sets of [getSearchFilterBasedOnIdentity]. *)
Definition addIdentity (fhirServiceBaseUrl : string) (requested : option string)
    (who : FhirResource) (sets : list string * list string)
  : list string * list string :=
  let (references, ids) := sets in
  let references := set_add (absolute_ref who) references in
  let references :=
    if String.eqb (hostname who) fhirServiceBaseUrl
    then set_add (relative_ref who) references else references in
  let ids :=
    if is_truthy_string requested
       && match requested with
          | Some t => String.eqb t (resourceType who)
          | None => false
          end
    then set_add (id who) ids else ids in
  (references, ids).

Definition getSearchFilterBasedOnIdentity (h : SMARTHandler)
    (request : SearchFilterRequest.t) : list SearchFilter :=
  let identity := SearchFilterRequest.userIdentity request in
  let fhirServiceBaseUrl :=
    nullish_or (SearchFilterRequest.fhirServiceBaseUrl request) (apiUrl h) in
  let requested := SearchFilterRequest.resourceType request in
  if hasSystemAccess (usableScopes identity) "" then []
  else if match fhirUserObject identity with
          | Some u => isFhirUserAdmin u (adminAccessTypes h) fhirServiceBaseUrl
          | None => false
          end
  then []
  else
    let sets := ([], []) in
    let sets := match fhirUserObject identity with
                | Some u => addIdentity fhirServiceBaseUrl requested u sets
                | None => sets
                end in
    let sets := match patientLaunchContext identity with
                | Some p => addIdentity fhirServiceBaseUrl requested p sets
                | None => sets
                end in
    let (references, ids) := sets in
    ((if (0 <? List.length references)%nat
      then [mkSearchFilter "_references" references "==" "OR"] else [])
     ++
     (if (0 <? List.length ids)%nat
      then [mkSearchFilter "id" ids "==" "OR"] else []))%list.

Definition isWriteRequestAuthorized (h : SMARTHandler) (request : WriteRequest.t)
  : result unit :=
  let identity := WriteRequest.userIdentity request in
  let fhirServiceBaseUrl :=
    nullish_or (WriteRequest.fhirServiceBaseUrl request) (apiUrl h) in
  allowed <- hasAccess (fhirUserObject identity) (patientLaunchContext identity)
               (WriteRequest.resourceBody request) (usableScopes identity)
               (adminAccessTypes h) fhirServiceBaseUrl (fhirVersion h) ;;
  if allowed then Ok tt
  else Err (UnauthorizedError "User does not have permission for requested operation").

(** The scopes [isBundleRequestAuthorized] works with. *)
Definition bundleUsableScopes (identity : UserIdentity) : list string :=
  filter (fun scope =>
            (match patientLaunchContext identity with Some _ => true | None => false end
             && startsWith scope "patient/")
            || (match fhirUserObject identity with Some _ => true | None => false end
                && startsWith scope "user/")
            || startsWith scope "system/")
         (scopes identity).

Definition isMutating (operation : string) : bool :=
  includes ["create"; "update"; "patch"; "delete"] operation.

(** The request [isBundleRequestAuthorized] hands to
    [isWriteRequestAuthorized] for one entry. *)
Definition writeRequestOfEntry (request : BundleRequest.t) (req : BundleEntry.t)
  : WriteRequest.t :=
  let identity := BundleRequest.userIdentity request in
  WriteRequest.mk
    (mkUserIdentity (sub identity) (scopes identity) (bundleUsableScopes identity)
                    (fhirUserObject identity) (patientLaunchContext identity))
    (BundleEntry.operation req)
    (BundleEntry.resource req)
    (BundleRequest.fhirServiceBaseUrl request).

Definition bundleDenied : JsError :=
  UnauthorizedError "An entry within the Bundle is not authorized".

(** The promises are all created, each already settled, before
    [Promise.all] looks at them; a rejection of any of them is caught and
    replaced by the one denial. *)
Definition isBundleRequestAuthorized (h : SMARTHandler) (request : BundleRequest.t)
  : result unit :=
  let usable := bundleUsableScopes (BundleRequest.userIdentity request) in
  if negb (forallb
             (fun req =>
                existsb (fun scope =>
                           isScopeSufficient scope (scopeRule (config h))
                             (BundleEntry.operation req)
                             (isUserScopeAllowedForSystemExport h)
                             (Some (BundleEntry.resourceType req)))
                        usable)
             (BundleRequest.requests request))
  then Err bundleDenied
  else
    let authWritePromises :=
      map (fun req =>
             if isMutating (BundleEntry.operation req)
             then isWriteRequestAuthorized h (writeRequestOfEntry request req)
             else Ok tt)
          (BundleRequest.requests request) in
    if forallb is_ok authWritePromises then Ok tt else Err bundleDenied.

Definition authorizeAndFilterReadResponse (h : SMARTHandler)
    (request : ReadResponseRequest.t) : result JsVal :=
  let identity := ReadResponseRequest.userIdentity request in
  let fhirServiceBaseUrl :=
    nullish_or (ReadResponseRequest.fhirServiceBaseUrl request) (apiUrl h) in
  let readResponse := ReadResponseRequest.readResponse request in
  let allowed (sourceResource : JsVal) :=
    hasAccess (fhirUserObject identity) (patientLaunchContext identity)
      sourceResource (usableScopes identity) (adminAccessTypes h)
      fhirServiceBaseUrl (fhirVersion h) in
  if includes SEARCH_OPERATIONS (ReadResponseRequest.operation request) then
    entry <- get_prop readResponse "entry" ;;
    entries <- js_filter (fun e => resource <- get_prop e "resource" ;; allowed resource)
                         (if nullish entry then JArr [] else entry) ;;
    total <- get_prop readResponse "total" ;;
    numTotal <-
      (if negb (truthy total) then Ok (JNum (Z.of_nat (List.length entries)))
       else
         entry' <- get_prop readResponse "entry" ;;
         len <- get_length entry' ;;
         Ok (js_sub total (js_sub len (JNum (Z.of_nat (List.length entries)))))) ;;
    Ok (JObj (set_field "total" numTotal
                (set_field "entry" (JArr entries) (spread readResponse))))
  else
    ok <- allowed readResponse ;;
    if ok then Ok readResponse
    else Err (UnauthorizedError "User does not have permission for requested resource").

End Handler.

(* ================================================================== *)
(** ** The specification's side *)

(** The field of a value, [undefined] where there is none: reading along a
    path as the specification describes it, with no notion of failure. *)
Definition field (v : JsVal) (k : string) : JsVal :=
  match v with JObj fields => lookup_field k fields | _ => JUndefined end.

(** [reaches v segs leaf]: descending from [v] one field per segment, every
    element of an array going into the next layer, ends in [leaf]; an array
    left when the segments are consumed gives its elements. *)
Inductive reaches : JsVal -> list string -> JsVal -> Prop :=
| reaches_here v :
    reaches v [] v
| reaches_element items x :
    In x items -> reaches (JArr items) [] x
| reaches_field v seg rest leaf :
    is_array v = false ->
    reaches (field v seg) rest leaf ->
    reaches v (seg :: rest) leaf
| reaches_each items x seg rest leaf :
    In x items ->
    reaches (field x seg) rest leaf ->
    reaches (JArr items) (seg :: rest) leaf.

(** The leaf has a [reference] field whose value is one of the candidates. *)
Definition refers_to (candidates : list string) (leaf : JsVal) : Prop :=
  exists r, field leaf "reference" = JStr r /\ In r candidates.

(** The dot-path, expanded from the source resource, ends in such a leaf. *)
Definition path_matches (candidates : list string) (source : JsVal) (path : string)
  : Prop :=
  exists leaf,
    reaches (field source (hd "" (split_on dot path))) (tl (split_on dot path)) leaf
    /\ refers_to candidates leaf.

(** The matrix entry for the source's type and the requestor's type: the
    paths the file lists for them, none when it lists none. *)
Definition matrix_entry (matrix : ReferenceMatrix) (source : JsVal)
    (requestorType : string) : list string :=
  match assoc (to_string (field source "resourceType")) (rows matrix) with
  | Some row => match assoc requestorType row with Some paths => paths | None => [] end
  | None => []
  end.

(** The lookup of the entry ends on a member inherited from
    [Object.prototype] instead: the requestor's type names one and the row
    of the source's type does not list it, or the source's type names one,
    the file has no row for it, and the built-in value has a member named
    as the requestor's type. *)
Definition inherited_entry (matrix : ReferenceMatrix) (source : JsVal)
    (requestorType : string) : Prop :=
  let sourceType := to_string (field source "resourceType") in
  match assoc sourceType (rows matrix) with
  | Some row => assoc requestorType row = None /\ In requestorType Object_prototype_keys
  | None => In sourceType Object_prototype_keys
            /\ inherited matrix sourceType requestorType = true
  end.

(** The matrix of a supported version. *)
Definition matrix_for (matrix_v4_0_1 matrix_v3_0_1 : ReferenceMatrix)
    (fhirVersion : string) : ReferenceMatrix :=
  if String.eqb fhirVersion "4.0.1" then matrix_v4_0_1 else matrix_v3_0_1.

(** No array anywhere in the value holds [null] or [undefined]. *)
Fixpoint no_null_items (v : JsVal) : bool :=
  match v with
  | JArr items => forallb (fun x => negb (nullish x) && no_null_items x) items
  | JObj fields => forallb (fun kv => no_null_items (snd kv)) fields
  | _ => true
  end.

Definition is_object (v : JsVal) : bool :=
  match v with JObj _ => true | _ => false end.

(** A resource as a FHIR server stores it: an object, no [null] in its
    arrays. *)
Definition plain_resource (v : JsVal) : Prop :=
  is_object v = true /\ no_null_items v = true.

Definition supported (fhirVersion : string) : Prop :=
  fhirVersion = "4.0.1" \/ fhirVersion = "3.0.1".

(** [s] begins with [p]. *)
Definition begins_with (p s : string) : Prop := exists rest, s = p ++ rest.


(** The value has the field. *)
Definition carries (v : JsVal) (k : string) : Prop :=
  exists x, get_prop v k = Ok x /\ x <> JUndefined.

(* ------------------------------------------------------------------ *)
(** *** The scope helper, for examples *)

(** Modelled from the spec: smartScopeHelper is not among the sources. The
    scope grammar [{scopeType}/{resourceType}.{accessType}] with
    [scopeType] one of system, user and patient. *)
Definition spec_parseScope (scope : string) : option (string * string * string) :=
  match split_on slash scope with
  | [scopeType; rest] =>
      match split_on dot rest with
      | [type; access] =>
          if includes ["system"; "user"; "patient"] scopeType
          then Some (scopeType, type, access) else None
      | _ => None
      end
  | _ => None
  end.

(** Modelled from the spec: smartScopeHelper is not among the sources. The
    whitespace-delimited scope claim, split. *)
Definition spec_getScopes (claim : JsVal) : list string :=
  match claim with
  | JStr s => split_on " " s
  | _ => []
  end.

Definition strings_of (v : JsVal) : list string :=
  match v with
  | JArr items => flat_map (fun x => match x with JStr s => [s] | _ => [] end) items
  | _ => []
  end.

(** Modelled from the spec: smartScopeHelper is not among the sources. The
    rule table maps a scope type and an access type to the operations
    allowed; a scope is sufficient when its entry holds the operation and
    its resource type is the requested one or the wildcard. *)
Definition spec_isScopeSufficient (scope : string) (scopeRule : JsVal)
    (operation : string) (isUserScopeAllowedForSystemExport : bool)
    (resourceType : option string) : bool :=
  match spec_parseScope scope with
  | Some (scopeType, type, access) =>
      includes (strings_of (field (field scopeRule scopeType) access)) operation
      && (String.eqb type "*"
          || match resourceType with Some t => String.eqb type t | None => false end)
  | None => false
  end.

(** Modelled from the spec: smartScopeHelper is not among the sources. A
    scope is kept when its type is available (system always, user with a
    caller identity claim, patient with a patient-context claim) and it is
    sufficient for the operation. *)
Definition spec_filterOutUnusableScope (scopes : list string) (scopeRule : JsVal)
    (operation : string) (isUserScopeAllowedForSystemExport : bool)
    (resourceType : option string) (bulkDataAuth patientContext fhirUser : JsVal)
  : list string :=
  filter (fun scope =>
            (startsWith scope "system/"
             || (startsWith scope "user/" && truthy fhirUser)
             || (startsWith scope "patient/" && truthy patientContext))
            && spec_isScopeSufficient scope scopeRule operation
                 isUserScopeAllowedForSystemExport resourceType)
         scopes.

(* ================================================================== *)
(** ** Examples: data the statements below are tried on *)

(** The members of the built-in values of [Object.prototype] as Node.js 18
    has them: those of [Object.prototype] itself behind [__proto__] (whose
    own [__proto__] is [null]), those of the [Object] function behind
    [constructor], and those of a method otherwise, where [name] is a
    non-empty string and [length] the number of parameters, which is zero
    for [toString], [valueOf] and [toLocaleString]. *)
Definition example_inherited (s r : string) : bool :=
  let of_functions :=
    ["arguments"; "caller"; "constructor"; "apply"; "bind"; "call"; "toString"] in
  if String.eqb s "__proto__" then
    includes Object_prototype_keys r && negb (String.eqb r "__proto__")
  else if String.eqb s "constructor" then
    includes ["length"; "name"; "prototype"; "assign"; "create"; "defineProperties";
              "defineProperty"; "entries"; "freeze"; "fromEntries";
              "getOwnPropertyDescriptor"; "getOwnPropertyDescriptors";
              "getOwnPropertyNames"; "getOwnPropertySymbols"; "getPrototypeOf";
              "hasOwn"; "is"; "isExtensible"; "isFrozen"; "isSealed"; "keys";
              "preventExtensions"; "seal"; "setPrototypeOf"; "values"] r
    || includes of_functions r || includes Object_prototype_keys r
  else
    String.eqb r "name"
    || (String.eqb r "length"
        && negb (includes ["toString"; "valueOf"; "toLocaleString"] s))
    || includes of_functions r || includes Object_prototype_keys r.

(** Entries as the R4 matrix has them: where a Patient or a Practitioner
    may be referenced from an Appointment, an Encounter, an Observation. *)
Definition example_matrix : ReferenceMatrix :=
  mkReferenceMatrix
    [ ("Appointment", [ ("Patient", ["participant.actor"]);
                        ("Practitioner", ["participant.actor"]) ]);
      ("Encounter", [ ("Patient", ["subject"]);
                      ("Practitioner", ["participant.individual"]) ]);
      ("Observation", [ ("Patient", ["subject"; "performer"]) ]) ]
    example_inherited.


Definition reference_to (r : string) : JsVal := JObj [("reference", JStr r)].

Definition appointment_of_patient_1 : JsVal :=
  JObj [ ("resourceType", JStr "Appointment");
         ("id", JStr "a1");
         ("participant",
          JArr [ JObj [("actor", reference_to "Practitioner/9")];
                 JObj [("actor", reference_to "Patient/1")] ]) ].

(** The same appointment with a [null] among its participants. *)
Definition appointment_with_null : JsVal :=
  JObj [ ("resourceType", JStr "Appointment");
         ("id", JStr "a2");
         ("participant",
          JArr [ JNull; JObj [("actor", reference_to "Patient/1")] ]) ].

(** The appointment with [null] in place of the participant list, and two
    whose participant is referenced by an absolute URL. *)
Definition appointment_without_participants : JsVal :=
  JObj [ ("resourceType", JStr "Appointment");
         ("id", JStr "a3");
         ("participant", JNull) ].

Definition appointment_by_url : JsVal :=
  JObj [ ("resourceType", JStr "Appointment");
         ("id", JStr "a4");
         ("participant",
          JArr [ JObj [("actor", reference_to "https://other.example.org/Patient/1")] ]) ].

Definition appointment_by_local_url : JsVal :=
  JObj [ ("resourceType", JStr "Appointment");
         ("id", JStr "a5");
         ("participant",
          JArr [ JObj [("actor", reference_to "https://api.example.com/Patient/1")] ]) ].


Definition patient_1_resource : JsVal :=
  JObj [ ("resourceType", JStr "Patient"); ("id", JStr "1") ].

Definition example_api : string := "https://api.example.com".

Definition patient_1 : FhirResource := mkFhirResource example_api "Patient" "1".
Definition practitioner_9 : FhirResource := mkFhirResource example_api "Practitioner" "9".
Definition external_patient_1 : FhirResource :=
  mkFhirResource "https://other.example.org" "Patient" "1".

Definition observation_of_patient_2 : JsVal :=
  JObj [ ("resourceType", JStr "Observation");
         ("id", JStr "o2");
         ("subject", reference_to "Patient/2") ].

Definition operations (names : list string) : JsVal := JArr (map JStr names).

Definition example_scopeRule : JsVal :=
  let reads := operations ["read"; "vread"; "search-type"; "history-instance"] in
  let writes := operations ["create"; "update"; "patch"; "delete"] in
  JObj [ ("patient", JObj [("read", reads); ("write", writes)]);
         ("user", JObj [("read", reads); ("write", writes)]);
         ("system", JObj [("read", reads); ("write", writes)]) ].

Definition example_issuer : string := "https://idp.example.com".

Definition example_config : SMARTConfig :=
  mkSMARTConfig 1 "scp" example_scopeRule (AudString example_api) example_issuer
    "fhirUser" "launch_response_" (Some "https://idp.example.com/keys") None.

Definition example_handler : SMARTHandler :=
  mkSMARTHandler example_config example_api "4.0.1"
    ["Practitioner"] ["Practitioner"] false.

(** The search and history operations of the interface package. *)
Definition example_SEARCH_OPERATIONS : list string :=
  ["search-type"; "search-system"; "history-type"; "history-instance"; "history-system"].

Definition identity_of_patient_1 : UserIdentity :=
  mkUserIdentity (JStr "user-1") ["openid"; "patient/*.write"] ["patient/*.write"]
    None (Some patient_1).

(** Two creations by the patient 1 context: an appointment of that patient,
    an observation on somebody else. *)
Definition example_bundle : BundleRequest.t :=
  BundleRequest.mk identity_of_patient_1
    [ BundleEntry.mk "create" "Appointment" appointment_of_patient_1;
      BundleEntry.mk "create" "Observation" observation_of_patient_2 ]
    None.

(** Claims of three tokens: a patient launch; the same from another
    issuer; and one whose claims hold a field named [fhirUserObject]. *)
Definition claims_of_launch : JwtPayload :=
  PayloadObject [ ("iss", JStr example_issuer);
         ("aud", JStr example_api);
         ("sub", JStr "user-1");
         ("scp", JStr "openid patient/Observation.read");
         ("launch_response_patient", JStr "Patient/1") ].

Definition claims_of_other_issuer : JwtPayload :=
  PayloadObject [ ("iss", JStr "https://idp.example.org");
         ("aud", JStr example_api);
         ("sub", JStr "user-1");
         ("scp", JStr "openid patient/Observation.read");
         ("launch_response_patient", JStr "Patient/1") ].

Definition claims_with_identity_field : JwtPayload :=
  PayloadObject [ ("iss", JStr example_issuer);
         ("aud", JStr example_api);
         ("sub", JStr "user-1");
         ("scp", JStr "openid patient/Observation.read");
         ("launch_response_patient", JStr "Patient/1");
         ("fhirUserObject", json_of_FhirResource practitioner_9) ].

Definition example_header : JsVal :=
  JObj [("alg", JStr "RS256"); ("typ", JStr "JWT"); ("kid", JStr "key-1")].

(** A JWT library, a key server and an introspection endpoint that accept
    the three tokens. *)
(** A token of type JWT whose payload part is the JSON text [null], and one
    whose payload part is text that is not JSON: the header is
    [example_header], the second part decodes from base64 to [null] and to
    ["iss":] cut short. *)
Definition null_payload_token : string :=
  "eyJhbGciOiJSUzI1NiIsInR5cCI6IkpXVCIsImtpZCI6ImtleS0xIn0.bnVsbA.c2ln".

Definition broken_payload_token : string :=
  "eyJhbGciOiJSUzI1NiIsInR5cCI6IkpXVCIsImtpZCI6ImtleS0xIn0.eyJpc3MiOg.c2ln".

Definition example_jwt_decode (token : string) : result (option DecodedJwt) :=
  if String.eqb token "token-launch" then
    Ok (Some (mkDecodedJwt example_header (claims_of claims_of_launch)))
  else if String.eqb token "token-other-issuer" then
    Ok (Some (mkDecodedJwt example_header (claims_of claims_of_other_issuer)))
  else if String.eqb token "token-identity-field" then
    Ok (Some (mkDecodedJwt example_header (claims_of claims_with_identity_field)))
  else if String.eqb token null_payload_token then
    Ok (Some (mkDecodedJwt example_header JNull))
  else if String.eqb token broken_payload_token then
    Err (SyntaxError "Unexpected end of JSON input")
  else Ok None.

Definition example_getSigningKeyAsync (kid : JsVal) : result string :=
  Ok "public-key-1".

Definition example_jwt_verify (token key : string) (audience : Audience)
    (issuer : string) : result JwtPayload :=
  if String.eqb token "token-launch" then Ok claims_of_launch
  else if String.eqb token "token-other-issuer" then Ok claims_of_other_issuer
  else if String.eqb token "token-identity-field" then Ok claims_with_identity_field
  else Err (PlainError "jwt malformed").

Definition example_axios_post (url body authorization : string) : result JsVal :=
  Ok (JObj [("data", JObj [("active", JBool true)])]).

Definition example_base64 (s : string) : string := "dXNlcjpwYXNz".

Definition example_introspection : IntrospectionOptions :=
  mkIntrospectionOptions "https://idp.example.com/introspect" "user" "pass".

Definition read_observation (token : string) : VerifyRequest.t :=
  VerifyRequest.mk token "read" (Some "Observation") JUndefined None.

(** The identity [verifyAccessToken] returns for the third token. *)
Definition identity_with_token_field : JsVal :=
  JObj [ ("iss", JStr example_issuer);
         ("aud", JStr example_api);
         ("sub", JStr "user-1");
         ("scp", JStr "openid patient/Observation.read");
         ("launch_response_patient", JStr "Patient/1");
         ("fhirUserObject", json_of_FhirResource practitioner_9);
         ("patientLaunchContext", json_of_FhirResource patient_1);
         ("scopes", JArr [JStr "openid"; JStr "patient/Observation.read"]);
         ("usableScopes", JArr [JStr "patient/Observation.read"]) ].

(** The identity [verifyAccessToken] returns for the first token. *)
Definition identity_of_launch : JsVal :=
  JObj [ ("iss", JStr example_issuer);
         ("aud", JStr example_api);
         ("sub", JStr "user-1");
         ("scp", JStr "openid patient/Observation.read");
         ("launch_response_patient", JStr "Patient/1");
         ("patientLaunchContext", json_of_FhirResource patient_1);
         ("scopes", JArr [JStr "openid"; JStr "patient/Observation.read"]);
         ("usableScopes", JArr [JStr "patient/Observation.read"]) ].

Definition search_response_without_entry : JsVal :=
  JObj [ ("resourceType", JStr "Bundle"); ("type", JStr "searchset");
         ("total", JNum 3) ].

Definition search_response_without_total : JsVal :=
  JObj [ ("resourceType", JStr "Bundle"); ("type", JStr "searchset") ].

(* ================================================================== *)
(** ** smartHandler: the resource types an operation may touch *)

Module SmartScope.
Record t : Type := mk {
  scopeType : string;
  resourceType : string;
  accessType : string
}.
End SmartScope.

Module AllowedTypesRequest.
Record t : Type := mk {
  userIdentity : UserIdentity;
  operation : string
}.
End AllowedTypesRequest.

(** [[...new Set(l)]]: the first occurrence of each element, in order. *)
Definition dedupe (l : list string) : list string :=
  fold_left (fun s x => set_add x s) l [].

Section AllowedResourceTypes.

(** smartScopeHelper, which is not among the sources:
    [convertScopeToSmartScope(scope)], which throws on a scope that is not a
    SMART scope, and [getValidOperationsForScopeTypeAndAccessType(scopeType,
    accessType, scopeRule)]; and the two lists of base resource types of the
    interface package. *)
Variable convertScopeToSmartScope : string -> result SmartScope.t.
Variable getValidOperationsForScopeTypeAndAccessType :
  string -> string -> JsVal -> result (list string).
Variable BASE_R4_RESOURCES : list string.
Variable BASE_STU3_RESOURCES : list string.

Definition allResourceTypesOf (h : SMARTHandler) : list string :=
  if String.eqb (fhirVersion h) "4.0.1" then BASE_R4_RESOURCES else BASE_STU3_RESOURCES.

(** The body of the [try] for one scope: the scope as a SMART scope and the
    operations its rule allows. *)
Definition scopeCoverage (h : SMARTHandler) (scope : string)
  : result (SmartScope.t * list string) :=
  clinicalSmartScope <- convertScopeToSmartScope scope ;;
  validOperations <- getValidOperationsForScopeTypeAndAccessType
                       (SmartScope.scopeType clinicalSmartScope)
                       (SmartScope.accessType clinicalSmartScope)
                       (scopeRule (config h)) ;;
  Ok (clinicalSmartScope, validOperations).

(** The [for] loop from one scope on: [None] when the loop returns all the
    resource types, else [allowedResources] when it ends. An error thrown
    for a scope is caught and the scope skipped. *)
Fixpoint allowedLoop (h : SMARTHandler) (operation : string)
    (scopes allowedResources : list string) : option (list string) :=
  match scopes with
  | [] => Some allowedResources
  | scope :: rest =>
      match scopeCoverage h scope with
      | Ok (clinicalSmartScope, validOperations) =>
          if includes validOperations operation then
            let scopeResourceType := SmartScope.resourceType clinicalSmartScope in
            if String.eqb scopeResourceType "*" then None
            else if includes (allResourceTypesOf h) scopeResourceType then
              allowedLoop h operation rest (allowedResources ++ [scopeResourceType])%list
            else allowedLoop h operation rest allowedResources
          else allowedLoop h operation rest allowedResources
      | Err _ => allowedLoop h operation rest allowedResources
      end
  end.

Definition getAllowedResourceTypesForOperation (h : SMARTHandler)
    (request : AllowedTypesRequest.t) : list string :=
  match allowedLoop h (AllowedTypesRequest.operation request)
          (scopes (AllowedTypesRequest.userIdentity request)) [] with
  | None => allResourceTypesOf h
  | Some allowedResources => dedupe allowedResources
  end.

End AllowedResourceTypes.

(* ================================================================== *)
(** ** Vocabulary of the further statements *)

Definition no_slash (s : string) : bool :=
  string_forall (fun c => negb (Ascii.eqb c slash)) s.

(** The three captures of [FHIR_USER_REGEX], as the regular expression
    constrains them. *)
Definition user_reference (r : FhirResource) : Prop :=
  match_hostname (hostname r) = true
  /\ is_user_type (resourceType r) = true
  /\ some_chars is_id_char (id r) = true.

(** The captures of [FHIR_RESOURCE_REGEX] when the hostname group took
    part. *)
Definition resource_reference (r : FhirResource) : Prop :=
  match_hostname (hostname r) = true
  /\ is_resource_type (resourceType r) = true
  /\ some_chars is_id_char (id r) = true.

(** The identities an identity record holds, the fhirUser first. *)
Definition identities_of (identity : UserIdentity) : list FhirResource :=
  (match fhirUserObject identity with Some u => [u] | None => [] end
   ++ match patientLaunchContext identity with Some p => [p] | None => [] end)%list.

(** The direct match of [hasReferenceToResource]. *)
Definition is_itself (requestor : FhirResource) (source : JsVal) : Prop :=
  field source "resourceType" = JStr (resourceType requestor)
  /\ field source "id" = JStr (id requestor).

(** The candidate forms [hasReferenceToResource] looks for. *)
Definition candidate_forms (requestor : FhirResource) (serverUrl : string)
  : list string :=
  if String.eqb (hostname requestor) serverUrl
  then [relative_ref requestor; absolute_ref requestor]
  else [absolute_ref requestor].

(** The scope is a SMART scope whose rule allows the operation. *)
Definition covers
    (convertScopeToSmartScope : string -> result SmartScope.t)
    (getValidOperations : string -> string -> JsVal -> result (list string))
    (h : SMARTHandler) (operation scope : string) (smart : SmartScope.t) : Prop :=
  exists validOperations,
    scopeCoverage convertScopeToSmartScope getValidOperations h scope
    = Ok (smart, validOperations)
    /\ In operation validOperations.

(* ================================================================== *)
(** ** Further examples *)

(** A backend service asking for a system export, and a practitioner. *)
Definition claims_of_backend : JwtPayload :=
  PayloadObject [ ("iss", JStr example_issuer);
                  ("aud", JArr [JStr "https://elsewhere.example.com"; JStr example_api]);
                  ("sub", JStr "backend-1");
                  ("scp", JStr "system/*.read") ].

Definition claims_of_practitioner : JwtPayload :=
  PayloadObject [ ("iss", JStr example_issuer);
                  ("aud", JStr example_api);
                  ("sub", JStr "user-9");
                  ("scp", JStr "openid user/*.read");
                  ("fhirUser", JStr "https://api.example.com/Practitioner/9") ].

Definition further_jwt_decode (token : string) : result (option DecodedJwt) :=
  if String.eqb token "token-backend" then
    Ok (Some (mkDecodedJwt example_header (claims_of claims_of_backend)))
  else if String.eqb token "token-practitioner" then
    Ok (Some (mkDecodedJwt example_header (claims_of claims_of_practitioner)))
  else Ok None.

Definition further_jwt_verify (token key : string) (audience : Audience)
    (issuer : string) : result JwtPayload :=
  if String.eqb token "token-backend" then Ok claims_of_backend
  else if String.eqb token "token-practitioner" then Ok claims_of_practitioner
  else Err (PlainError "jwt malformed").

Definition system_export : VerifyRequest.t :=
  VerifyRequest.mk "token-backend" "read" None
    (JObj [("operation", JStr "initiate-export"); ("exportType", JStr "system")])
    None.

Definition identity_of_backend : JsVal :=
  JObj [ ("iss", JStr example_issuer);
         ("aud", JArr [JStr "https://elsewhere.example.com"; JStr example_api]);
         ("sub", JStr "backend-1");
         ("scp", JStr "system/*.read");
         ("scopes", JArr [JStr "system/*.read"]);
         ("usableScopes", JArr [JStr "system/*.read"]) ].

Definition identity_of_practitioner : JsVal :=
  JObj [ ("iss", JStr example_issuer);
         ("aud", JStr example_api);
         ("sub", JStr "user-9");
         ("scp", JStr "openid user/*.read");
         ("fhirUser", JStr "https://api.example.com/Practitioner/9");
         ("fhirUserObject", json_of_FhirResource practitioner_9);
         ("scopes", JArr [JStr "openid"; JStr "user/*.read"]);
         ("usableScopes", JArr [JStr "user/*.read"]) ].

Definition introspecting_handler : SMARTHandler :=
  mkSMARTHandler
    (mkSMARTConfig 1 "scp" example_scopeRule (AudString example_api) example_issuer
       "fhirUser" "launch_response_" (Some "https://idp.example.com/keys")
       (Some example_introspection))
    example_api "4.0.1" ["Practitioner"] ["Practitioner"] false.

Definition identity_of_practitioner_and_patient : UserIdentity :=
  mkUserIdentity (JStr "user-9") ["user/*.read"; "patient/*.read"]
    ["user/*.read"; "patient/*.read"]
    (Some practitioner_9) (Some patient_1).

Definition search_bundle : JsVal :=
  JObj [ ("resourceType", JStr "Bundle");
         ("type", JStr "searchset");
         ("total", JNum 7);
         ("entry", JArr [ JObj [("resource", appointment_of_patient_1)];
                          JObj [("resource", observation_of_patient_2)] ]) ].

(** A scope helper for [getAllowedResourceTypesForOperation], from the
    spec-modelled scope grammar and rule table. *)
Definition further_convertScope (scope : string) : result SmartScope.t :=
  match spec_parseScope scope with
  | Some (scopeType, type, access) => Ok (SmartScope.mk scopeType type access)
  | None => Err (PlainError "not a SmartScope")
  end.

Definition further_validOperations (scopeType accessType : string) (scopeRule : JsVal)
  : result (list string) :=
  Ok (strings_of (field (field scopeRule scopeType) accessType)).

Definition further_base_resources : list string :=
  ["Appointment"; "Encounter"; "Observation"; "Patient"; "Practitioner"].

(* ================================================================== *)
(** ** The embedding on known values *)

Example split_on_dot_path :
  split_on dot "participant.actor" = ["participant"; "actor"]
  /\ split_on dot "subject" = ["subject"]
  /\ split_on dot "" = [""].
Proof. repeat split. Qed.

Example getFhirUser_absolute :
  getFhirUser (JStr "https://api.example.com/Patient/123")
  = Ok (mkFhirResource "https://api.example.com" "Patient" "123").
Proof. reflexivity. Qed.

Example getFhirUser_needs_hostname :
  getFhirUser (JStr "Patient/123")
  = Err (UnauthorizedError "Requester's identity is in the incorrect format")
  /\ getFhirUser (JStr "https://api.example.com/Observation/123")
     = Err (UnauthorizedError "Requester's identity is in the incorrect format")
  /\ getFhirUser JUndefined = Err TypeError.
Proof. repeat split. Qed.

Example getFhirResource_default_hostname :
  getFhirResource (JStr "Observation/o-1") "https://api.example.com"
  = Ok (mkFhirResource "https://api.example.com" "Observation" "o-1")
  /\ getFhirResource (JStr "https://other.example.org/fhir/Observation/o-1")
       "https://api.example.com"
     = Ok (mkFhirResource "https://other.example.org/fhir" "Observation" "o-1")
  /\ getFhirResource (JStr "observation/o-1") "https://api.example.com"
     = Err (UnauthorizedError "Resource is in the incorrect format").
Proof. repeat split. Qed.

Example matcher_on_appointment :
  isRequestorReferenced example_matrix example_matrix ["Patient/1"] "Patient"
    appointment_of_patient_1 "4.0.1" = Ok true
  /\ isRequestorReferenced example_matrix example_matrix ["Patient/2"] "Patient"
       appointment_of_patient_1 "4.0.1" = Ok false
  /\ isRequestorReferenced example_matrix example_matrix ["Patient/1"] "Patient"
       appointment_of_patient_1 "5.0.0"
     = Err (PlainError "Unsupported FHIR version detected").
Proof. repeat split. Qed.

Example filter_search_response :
  authorizeAndFilterReadResponse example_matrix example_matrix
    example_SEARCH_OPERATIONS example_handler
    (ReadResponseRequest.mk identity_of_patient_1 "search-type"
       (JObj [ ("resourceType", JStr "Bundle");
               ("total", JNum 2);
               ("entry", JArr [ JObj [("resource", appointment_of_patient_1)];
                                JObj [("resource", observation_of_patient_2)] ]) ])
       None)
  = Ok (JObj [ ("resourceType", JStr "Bundle");
               ("total", JNum 1);
               ("entry", JArr [ JObj [("resource", appointment_of_patient_1)] ]) ]).
Proof. reflexivity. Qed.

Example subtraction_on_doubles :
  js_sub (JNum 7) (JNum 1) = JNum 6
  /\ js_sub (JNum 9007199254740994) (JNum 1) = JNum 9007199254740992
  /\ js_sub (JNum 9007199254740996) (JNum 1) = JNum 9007199254740996
  /\ js_sub (JStr " 5 ") (JNum 1) = JNum 4
  /\ js_sub (JArr [JNum 5]) (JNum 1) = JNum 4
  /\ js_sub (JStr "five") (JNum 1) = JNaN
  /\ js_sub (JObj []) (JNum 1) = JNaN
  /\ js_sub (JBool true) (JNum 1) = JNum 0.
Proof. repeat split. Qed.

Example matcher_on_inherited_names :
  isRequestorReferenced example_matrix example_matrix ["constructor/1"] "constructor"
    appointment_of_patient_1 "4.0.1" = Err TypeError
  /\ isRequestorReferenced example_matrix example_matrix ["Patient/1"] "Patient"
       (JObj [("resourceType", JStr "constructor")]) "4.0.1" = Ok false
  /\ isRequestorReferenced example_matrix example_matrix ["Patient/1"] "name"
       (JObj [("resourceType", JStr "constructor")]) "4.0.1" = Err TypeError
  /\ isRequestorReferenced example_matrix example_matrix ["Patient/1"] "Patient"
       (JObj [("resourceType", JStr "Medication")]) "4.0.1" = Ok false.
Proof. repeat split. Qed.

(* ================================================================== *)
(** ** Lemmas on strings and on the combinators *)

Lemma prefix_begins_with (p s : string) :
  String.prefix p s = true <-> begins_with p s.
Proof.
  revert s; induction p as [|c p IH]; intros s.
  - split; [intros _; exists s; reflexivity | destruct s; reflexivity].
  - destruct s as [|d s]; simpl.
    + split; [discriminate | intros [rest H]; discriminate].
    + destruct (ascii_dec c d) as [->|Hneq].
      * rewrite IH. split; intros [rest H]; exists rest.
        -- simpl; now rewrite H.
        -- simpl in H; now inversion H.
      * split; [discriminate|].
        intros [rest H]; simpl in H; inversion H; congruence.
Qed.

Lemma startsWith_begins_with (s p : string) :
  startsWith s p = true <-> begins_with p s.
Proof. unfold startsWith; apply prefix_begins_with. Qed.

Lemma includes_In (l : list string) (s : string) :
  includes l s = true <-> In s l.
Proof.
  unfold includes; rewrite existsb_exists; split.
  - intros [x [Hin Heq]]; apply String.eqb_eq in Heq; now subst.
  - intros Hin; exists s; split; [assumption | apply String.eqb_refl].
Qed.

Lemma bind_Ok_inv {A B : Type} (r : result A) (k : A -> result B) (b : B) :
  bind r k = Ok b -> exists a, r = Ok a /\ k a = Ok b.
Proof. destruct r as [a|e]; simpl; intros H; [exists a; auto | discriminate]. Qed.

Lemma hasSystemAccess_spec (usableScopes : list string) (t : string) :
  hasSystemAccess usableScopes t = true <->
  exists scope, In scope usableScopes
                /\ (begins_with "system/*" scope \/ begins_with ("system/" ++ t) scope).
Proof.
  unfold hasSystemAccess; rewrite existsb_exists.
  split; intros [scope [Hin H]]; exists scope; (split; [assumption|]).
  - apply orb_true_iff in H; destruct H as [H|H];
      apply startsWith_begins_with in H; auto.
  - apply orb_true_iff;
      destruct H as [H|H]; apply startsWith_begins_with in H; auto.
Qed.


Lemma begins_with_trans (p q s : string) :
  begins_with p q -> begins_with q s -> begins_with p s.
Proof.
  intros [r1 ->] [r2 ->]; exists (r1 ++ r2).
  induction p; simpl; [reflexivity | now f_equal].
Qed.

(* ================================================================== *)
(** ** System scopes *)

(** C1, as amended: [hasSystemAccess] is true exactly when some usable scope
    begins with [system/*] or with [system/] followed by the resource type;
    so [["system/*"]] gives access to every type and [["system/Patient"]]
    gives none to Observation. *)
Theorem hasSystemAccess_by_prefix :
  (forall (usableScopes : list string) (t : string),
      hasSystemAccess usableScopes t = true <->
      exists scope, In scope usableScopes
                    /\ (begins_with "system/*" scope
                        \/ begins_with ("system/" ++ t) scope))
  /\ (forall t : string, hasSystemAccess ["system/*"] t = true)
  /\ hasSystemAccess ["system/Patient"] "Observation" = false.
Proof.
  split; [exact hasSystemAccess_spec | split; [|reflexivity]].
  intros t; apply hasSystemAccess_spec.
  exists "system/*"; split; [now left | left; exists ""; reflexivity].
Qed.

(** C1, as stated, fails: a scope with an access suffix grants system access
    although no scope is exactly [system/*] or [system/Patient]. *)
Lemma hasSystemAccess_not_exact :
  hasSystemAccess ["system/*.read"] "Patient" = true
  /\ ~ (exists scope, In scope ["system/*.read"]
                      /\ (scope = "system/*" \/ scope = "system/Patient")).
Proof.
  split; [reflexivity|].
  intros [scope [[<-|[]] [H|H]]]; discriminate.
Qed.

(* ================================================================== *)
(** ** Search filters *)

Lemma no_system_scope_no_access (usable : list string) :
  (forall scope, In scope usable -> ~ begins_with "system/" scope) ->
  hasSystemAccess usable "" = false.
Proof.
  intros Hnone.
  destruct (hasSystemAccess usable "") eqn:E; [|reflexivity].
  apply hasSystemAccess_spec in E; destruct E as [scope [Hin H]].
  exfalso; apply (Hnone scope Hin).
  destruct H as [H|H]; [|exact H].
  apply begins_with_trans with (q := "system/*"); [exists "*"; reflexivity | exact H].
Qed.

(** C9: whenever a usable scope begins with [system/], whatever resource
    type it names, [getSearchFilterBasedOnIdentity] returns no filter: the
    system-access test is run with the empty string as resource type and
    compares by prefix. *)
Theorem getSearchFilterBasedOnIdentity_system_scope
    (h : SMARTHandler) (request : SearchFilterRequest.t) :
  (exists scope,
      In scope (usableScopes (SearchFilterRequest.userIdentity request))
      /\ begins_with "system/" scope) ->
  getSearchFilterBasedOnIdentity h request = [].
Proof.
  intros [scope [Hin Hpre]].
  unfold getSearchFilterBasedOnIdentity.
  replace (hasSystemAccess _ "") with true; [reflexivity|].
  symmetry; apply hasSystemAccess_spec.
  exists scope; split; [exact Hin | right; exact Hpre].
Qed.

Lemma getSearchFilterBasedOnIdentity_system_scope_witness :
  (exists scope, In scope ["system/Patient.read"] /\ begins_with "system/" scope)
  /\ getSearchFilterBasedOnIdentity example_handler
       (SearchFilterRequest.mk
          (mkUserIdentity (JStr "client-1") ["system/Patient.read"]
             ["system/Patient.read"] None None)
          (Some "Observation") None)
     = [].
Proof.
  assert (H : exists scope, In scope ["system/Patient.read"]
                            /\ begins_with "system/" scope).
  { exists "system/Patient.read"; split; [left; reflexivity|].
    exists "Patient.read"; reflexivity. }
  split; [exact H|].
  exact (@getSearchFilterBasedOnIdentity_system_scope example_handler
           (SearchFilterRequest.mk
              (mkUserIdentity (JStr "client-1") ["system/Patient.read"]
                 ["system/Patient.read"] None None)
              (Some "Observation") None) H).
Defined.

(** C6: the Patient 123 of https://api.example.com, asking for Patient
    resources on that server with no system scope, no launch context and
    Patient not an admin type, gets the [_references] filter with the
    absolute and the relative form, then the [id] filter. *)
Theorem getSearchFilterBasedOnIdentity_patient_scenario
    (h : SMARTHandler) (baseUrl : option string) (subject : JsVal)
    (allScopes usable : list string) :
  nullish_or baseUrl (apiUrl h) = "https://api.example.com" ->
  includes (adminAccessTypes h) "Patient" = false ->
  (forall scope, In scope usable -> ~ begins_with "system/" scope) ->
  getSearchFilterBasedOnIdentity h
    (SearchFilterRequest.mk
       (mkUserIdentity subject allScopes usable
          (Some (mkFhirResource "https://api.example.com" "Patient" "123")) None)
       (Some "Patient") baseUrl)
  = [ mkSearchFilter "_references"
        ["https://api.example.com/Patient/123"; "Patient/123"] "==" "OR";
      mkSearchFilter "id" ["123"] "==" "OR" ].
Proof.
  intros Hbase Hadmin Hnone.
  unfold getSearchFilterBasedOnIdentity; simpl.
  rewrite (no_system_scope_no_access _ Hnone), Hbase.
  unfold isFhirUserAdmin; simpl; rewrite Hadmin.
  reflexivity.
Qed.

Lemma getSearchFilterBasedOnIdentity_patient_scenario_witness :
  (nullish_or None (apiUrl example_handler) = "https://api.example.com"
   /\ includes (adminAccessTypes example_handler) "Patient" = false
   /\ (forall scope, In scope ["user/*.read"] -> ~ begins_with "system/" scope))
  /\ getSearchFilterBasedOnIdentity example_handler
       (SearchFilterRequest.mk
          (mkUserIdentity (JStr "user-1") ["openid"; "user/*.read"] ["user/*.read"]
             (Some (mkFhirResource "https://api.example.com" "Patient" "123")) None)
          (Some "Patient") None)
     = [ mkSearchFilter "_references"
           ["https://api.example.com/Patient/123"; "Patient/123"] "==" "OR";
         mkSearchFilter "id" ["123"] "==" "OR" ].
Proof.
  assert (H1 : nullish_or None (apiUrl example_handler) = "https://api.example.com")
    by reflexivity.
  assert (H2 : includes (adminAccessTypes example_handler) "Patient" = false)
    by reflexivity.
  assert (H3 : forall scope, In scope ["user/*.read"] -> ~ begins_with "system/" scope).
  { intros scope [<-|[]] [rest H]; discriminate. }
  split; [repeat split; assumption|].
  exact (@getSearchFilterBasedOnIdentity_patient_scenario example_handler None
           (JStr "user-1") ["openid"; "user/*.read"] ["user/*.read"] H1 H2 H3).
Defined.

(* ================================================================== *)
(** ** The reference matcher against the path expansion *)

Lemma get_prop_field (v : JsVal) (k : string) (w : JsVal) :
  get_prop v k = Ok w -> w = field v k.
Proof. destruct v; simpl; intros H; inversion H; reflexivity. Qed.

Lemma get_prop_defined (v : JsVal) (k : string) :
  nullish v = false -> get_prop v k = Ok (field v k).
Proof. destruct v; simpl; intros H; try discriminate; reflexivity. Qed.

Lemma truthy_not_nullish (v : JsVal) : truthy v = true -> nullish v = false.
Proof. destruct v; simpl; intros H; try discriminate; reflexivity. Qed.

Lemma field_of_falsy (v : JsVal) (k : string) :
  truthy v = false -> field v k = JUndefined.
Proof. destruct v; simpl; intros H; try discriminate; reflexivity. Qed.

Lemma reaches_undefined (segs : list string) (leaf : JsVal) :
  reaches JUndefined segs leaf -> leaf = JUndefined.
Proof.
  induction segs as [|seg rest IH]; intros H; inversion H; subst.
  - reflexivity.
  - apply IH; assumption.
Qed.

Lemma refers_to_object (ids : list string) (leaf : JsVal) :
  refers_to ids leaf -> is_object leaf = true.
Proof. intros [r [H _]]; destruct leaf; simpl in H; try discriminate; reflexivity. Qed.

Lemma In_flat (x : JsVal) (queue : list JsVal) :
  In x (flat queue) <->
  exists v, In v queue
            /\ ((exists items, v = JArr items /\ In x items)
                \/ (is_array v = false /\ x = v)).
Proof.
  unfold flat; rewrite in_flat_map; split; intros [v [Hin H]]; exists v; (split; [exact Hin|]).
  - destruct v; simpl in H; try (destruct H as [<-|[]]; right; split; reflexivity).
    left; eexists; split; [reflexivity | exact H].
  - destruct H as [[items [-> H]] | [Harr ->]]; [exact H|].
    destruct v; try discriminate; left; reflexivity.
Qed.

Lemma lookup_field_no_null (k : string) (fields : list (string * JsVal)) :
  forallb (fun kv => no_null_items (snd kv)) fields = true ->
  no_null_items (lookup_field k fields) = true.
Proof.
  induction fields as [|[k' v] rest IH]; simpl; [reflexivity|].
  intros H; apply andb_true_iff in H; destruct H as [Hv Hrest].
  destruct (String.eqb k k'); [exact Hv | apply IH; exact Hrest].
Qed.

Lemma field_no_null (v : JsVal) (k : string) :
  no_null_items v = true -> no_null_items (field v k) = true.
Proof.
  destruct v; simpl; try reflexivity.
  apply lookup_field_no_null.
Qed.

Lemma item_no_null (items : list JsVal) (x : JsVal) :
  no_null_items (JArr items) = true -> In x items ->
  nullish x = false /\ no_null_items x = true.
Proof.
  simpl; rewrite forallb_forall; intros H Hin.
  specialize (H x Hin); apply andb_true_iff in H; destruct H as [H1 H2].
  split; [now apply negb_true_iff in H1 | exact H2].
Qed.

(** What [mapM] returns holds the image of every element, and nothing else. *)
Lemma mapM_In {A B : Type} (f : A -> result B) (l : list A) (ys : list B) :
  mapM f l = Ok ys ->
  forall y, In y ys <-> exists x, In x l /\ f x = Ok y.
Proof.
  revert ys; induction l as [|a l IH]; simpl; intros ys H y.
  - inversion H; subst; simpl; split; [intros [] | intros [x [[] _]]].
  - destruct (f a) as [b|e] eqn:Ea; simpl in H; [|discriminate].
    destruct (mapM f l) as [bs|e] eqn:El; simpl in H; [|discriminate].
    inversion H; subst; simpl; rewrite (IH bs eq_refl y); split.
    + intros [<-|[x [Hin Hx]]]; [exists a; auto | exists x; auto].
    + intros [x [[<-|Hin] Hx]]; [left; congruence | right; exists x; auto].
Qed.

Lemma mapM_total {A B : Type} (f : A -> result B) (l : list A) :
  (forall x, In x l -> exists y, f x = Ok y) -> exists ys, mapM f l = Ok ys.
Proof.
  induction l as [|a l IH]; simpl; intros H; [eexists; reflexivity|].
  destruct (H a (or_introl eq_refl)) as [y Hy]; rewrite Hy; simpl.
  destruct IH as [ys Hys]; [intros x Hin; apply H; right; exact Hin|].
  rewrite Hys; simpl; eexists; reflexivity.
Qed.

Lemma drain_In (seg : string) (queue out : list JsVal) :
  drain seg queue = Ok out ->
  forall w, In w out <->
            exists t pushed, In t queue /\ expand seg t = Ok pushed /\ In w pushed.
Proof.
  revert out; induction queue as [|a queue IH]; simpl; intros out H w.
  - inversion H; subst; simpl; split; [intros [] | intros [t [p [[] _]]]].
  - destruct (expand seg a) as [pushed|e] eqn:Ea; simpl in H; [|discriminate].
    destruct (drain seg queue) as [more|e] eqn:Eq; simpl in H; [|discriminate].
    inversion H; subst; rewrite in_app_iff, (IH more eq_refl w); split.
    + intros [Hin | [t [p [Hin [Hp Hw]]]]].
      * exists a, pushed; auto.
      * exists t, p; auto.
    + intros [t [p [[<-|Hin] [Hp Hw]]]].
      * left; congruence.
      * right; exists t, p; auto.
Qed.

Lemma drain_total (seg : string) (queue : list JsVal) :
  (forall t, In t queue -> exists pushed, expand seg t = Ok pushed) ->
  exists out, drain seg queue = Ok out.
Proof.
  induction queue as [|a queue IH]; simpl; intros H; [eexists; reflexivity|].
  destruct (H a (or_introl eq_refl)) as [p Hp]; rewrite Hp; simpl.
  destruct IH as [out Hout]; [intros t Hin; apply H; right; exact Hin|].
  rewrite Hout; simpl; eexists; reflexivity.
Qed.

(** A value pushed by [expand] is one step of the expansion away. *)
Lemma expand_sound (seg : string) (t : JsVal) (pushed : list JsVal) (w : JsVal) :
  expand seg t = Ok pushed -> In w pushed ->
  forall rest leaf, reaches w rest leaf -> reaches t (seg :: rest) leaf.
Proof.
  unfold expand; intros H Hin rest leaf Hr.
  destruct (truthy t) eqn:Et; [|inversion H; subst; destruct Hin].
  destruct t; simpl in Et, H; try discriminate;
    try (inversion H; subst; destruct Hin as [<-|[]];
         apply reaches_field; [reflexivity | exact Hr]).
  apply (mapM_In _ _ H) in Hin; destruct Hin as [x [Hx Hget]].
  apply get_prop_field in Hget; subst w.
  apply reaches_each with (x := x); assumption.
Qed.

(** On a value without [null] items [expand] does not throw and pushes every
    next step of the expansion, but for steps that stay [undefined]. *)
Lemma expand_complete (seg : string) (t : JsVal) :
  no_null_items t = true ->
  exists pushed,
    expand seg t = Ok pushed
    /\ (forall w, In w pushed -> no_null_items w = true)
    /\ (forall rest leaf, reaches t (seg :: rest) leaf ->
                          leaf = JUndefined
                          \/ exists w, In w pushed /\ reaches w rest leaf).
Proof.
  intros Hwf; unfold expand.
  destruct (truthy t) eqn:Et.
  - destruct (is_array t) eqn:Earr.
    + destruct t; try discriminate.
      destruct (mapM_total (fun x => get_prop x seg) items) as [ys Hys].
      { intros x Hin; exists (field x seg); apply get_prop_defined.
        apply (item_no_null _ _ Hwf Hin). }
      exists ys; split; [exact Hys|]; split.
      * intros w Hw; apply (mapM_In _ _ Hys) in Hw; destruct Hw as [x [Hin Hget]].
        apply get_prop_field in Hget; subst w; apply field_no_null.
        apply (item_no_null _ _ Hwf Hin).
      * intros rest leaf Hr; right; inversion Hr; subst; [discriminate|].
        exists (field x seg); split; [|assumption].
        apply (mapM_In _ _ Hys); exists x; split; [assumption|].
        apply get_prop_defined, (item_no_null _ _ Hwf); assumption.
    + exists [field t seg]; split; [|split].
      * rewrite (get_prop_defined _ _ (truthy_not_nullish _ Et)).
        destruct t; try discriminate; reflexivity.
      * intros w [<-|[]]; apply field_no_null; exact Hwf.
      * intros rest leaf Hr; right; exists (field t seg); split; [now left|].
        inversion Hr; subst; [assumption | discriminate].
  - exists []; split; [reflexivity|]; split; [intros w []|].
    intros rest leaf Hr; left.
    inversion Hr; subst; [|discriminate].
    rewrite (field_of_falsy _ _ Et) in *.
    eapply reaches_undefined; eassumption.
Qed.

Lemma walk_sound (segs : list string) :
  forall queue leaves x,
    walk segs queue = Ok leaves -> In x (flat leaves) ->
    exists v, In v queue /\ reaches v segs x.
Proof.
  induction segs as [|seg rest IH]; simpl; intros queue leaves x H Hx.
  - inversion H; subst; apply In_flat in Hx; destruct Hx as [v [Hin Hv]].
    exists v; split; [exact Hin|].
    destruct Hv as [[items [-> Hitem]] | [_ ->]];
      [apply reaches_element; exact Hitem | apply reaches_here].
  - destruct (drain seg queue) as [q|e] eqn:Eq; simpl in H; [|discriminate].
    destruct (IH q leaves x H Hx) as [w [Hw Hr]].
    apply (drain_In _ _ Eq) in Hw; destruct Hw as [t [pushed [Ht [Hp Hw]]]].
    exists t; split; [exact Ht|].
    apply (expand_sound _ _ Hp Hw); exact Hr.
Qed.

Lemma walk_complete (segs : list string) :
  forall queue,
    (forall v, In v queue -> no_null_items v = true) ->
    exists leaves,
      walk segs queue = Ok leaves
      /\ forall v leaf, In v queue -> reaches v segs leaf ->
                        is_object leaf = true -> In leaf (flat leaves).
Proof.
  induction segs as [|seg rest IH]; simpl; intros queue Hwf.
  - exists queue; split; [reflexivity|].
    intros v leaf Hin Hr Hobj; apply In_flat.
    exists v; split; [exact Hin|].
    inversion Hr; subst.
    + right; split; [destruct leaf; try discriminate; reflexivity | reflexivity].
    + left; eexists; split; [reflexivity | assumption].
  - destruct (drain_total seg queue) as [q Hq].
    { intros t Hin; destruct (expand_complete seg t (Hwf t Hin)) as [p [Hp _]].
      exists p; exact Hp. }
    rewrite Hq; simpl.
    destruct (IH q) as [leaves [Hwalk Hall]].
    { intros w Hw; apply (drain_In _ _ Hq) in Hw.
      destruct Hw as [t [p [Hin [Hp Hw]]]].
      destruct (expand_complete seg t (Hwf t Hin)) as [p' [Hp' [Hwf' _]]].
      rewrite Hp in Hp'; inversion Hp'; subst p'; apply Hwf'; exact Hw. }
    exists leaves; split; [exact Hwalk|].
    intros v leaf Hin Hr Hobj.
    destruct (expand_complete seg v (Hwf v Hin)) as [p [Hp [_ Hnext]]].
    destruct (Hnext rest leaf Hr) as [-> | [w [Hw Hrw]]]; [discriminate|].
    apply (Hall w leaf); [|exact Hrw | exact Hobj].
    apply (drain_In _ _ Hq); exists v, p; auto.
Qed.

Lemma leaf_matches_refers_to (ids : list string) (x : JsVal) :
  leaf_matches ids x = true -> refers_to ids x.
Proof.
  unfold leaf_matches; intros H.
  apply andb_true_iff in H; destruct H as [Hx H].
  rewrite (get_prop_defined _ _ (truthy_not_nullish _ Hx)) in H.
  apply andb_true_iff in H; destruct H as [_ H].
  destruct (field x "reference") as [| | | | |r| |] eqn:Er; simpl in H; try discriminate.
  exists r; split; [exact Er | apply includes_In; exact H].
Qed.

Lemma refers_to_leaf_matches (ids : list string) (x : JsVal) :
  ~ In "" ids -> refers_to ids x -> leaf_matches ids x = true.
Proof.
  intros Hne [r [Hr Hin]]; unfold leaf_matches.
  destruct x; simpl in Hr; try discriminate; simpl.
  rewrite Hr; simpl.
  apply andb_true_iff; split; [|apply includes_In; exact Hin].
  apply negb_true_iff; destruct (String.eqb r "") eqn:E; [|reflexivity].
  apply String.eqb_eq in E; subst; contradiction.
Qed.

Lemma path_leaves_sound (source : JsVal) (path : string) (leaves : list JsVal)
    (x : JsVal) :
  path_leaves source path = Ok leaves -> In x leaves ->
  reaches (field source (hd "" (split_on dot path))) (tl (split_on dot path)) x.
Proof.
  unfold path_leaves; intros H Hx.
  destruct (get_prop source (hd "" (split_on dot path))) as [w|e] eqn:Ew;
    simpl in H; [|discriminate].
  destruct (walk (tl (split_on dot path)) [w]) as [queue|e] eqn:El;
    simpl in H; [|discriminate].
  injection H as <-.
  destruct (walk_sound _ _ _ El Hx) as [v [[<-|[]] Hr]].
  rewrite <- (get_prop_field _ _ Ew); exact Hr.
Qed.

Lemma path_leaves_complete (source : JsVal) (path : string) :
  plain_resource source ->
  exists leaves,
    path_leaves source path = Ok leaves
    /\ forall leaf,
         reaches (field source (hd "" (split_on dot path))) (tl (split_on dot path)) leaf ->
         is_object leaf = true -> In leaf leaves.
Proof.
  intros [Hobj Hwf]; unfold path_leaves.
  assert (Hnn : nullish source = false) by (destruct source; try discriminate; reflexivity).
  rewrite (get_prop_defined _ _ Hnn); simpl.
  destruct (walk_complete (tl (split_on dot path))
              [field source (hd "" (split_on dot path))]) as [queue [Hwalk Hall]].
  { intros v [<-|[]]; apply field_no_null; exact Hwf. }
  rewrite Hwalk; simpl; eexists; split; [reflexivity|].
  intros leaf Hr Hleaf; apply (Hall _ leaf (or_introl eq_refl) Hr Hleaf).
Qed.

Lemma path_hits_sound (ids : list string) (source : JsVal) (path : string) :
  path_hits ids source path = Ok true -> path_matches ids source path.
Proof.
  unfold path_hits, path_matches; intros H.
  destruct (path_leaves source path) as [leaves|e] eqn:El; simpl in H; [|discriminate].
  injection H as Hex; apply existsb_exists in Hex; destruct Hex as [x [Hx Hm]].
  exists x; split; [eapply path_leaves_sound; eassumption |
                    apply leaf_matches_refers_to; exact Hm].
Qed.

Lemma path_hits_complete (ids : list string) (source : JsVal) (path : string) :
  plain_resource source -> ~ In "" ids ->
  exists b, path_hits ids source path = Ok b
            /\ (b = true <-> path_matches ids source path).
Proof.
  intros Hplain Hne.
  destruct (path_leaves_complete path Hplain) as [leaves [Hleaves Hall]].
  unfold path_hits; rewrite Hleaves; simpl; eexists; split; [reflexivity|]; split.
  - intros Hex; apply path_hits_sound; unfold path_hits.
    rewrite Hleaves; simpl; now rewrite Hex.
  - intros [leaf [Hr Href]]; apply existsb_exists; exists leaf; split.
    + apply (Hall leaf Hr), (refers_to_object Href).
    + apply refers_to_leaf_matches; assumption.
Qed.

Lemma someM_true {A : Type} (f : A -> result bool) (l : list A) :
  someM f l = Ok true -> exists x, In x l /\ f x = Ok true.
Proof.
  induction l as [|a l IH]; simpl; intros H; [discriminate|].
  destruct (f a) as [[|]|e] eqn:Ea; simpl in H; try discriminate.
  - exists a; auto.
  - destruct (IH H) as [x [Hin Hx]]; exists x; auto.
Qed.

Lemma someM_decides {A : Type} (f : A -> result bool) (P : A -> Prop) (l : list A) :
  (forall x, In x l -> exists b, f x = Ok b /\ (b = true <-> P x)) ->
  exists b, someM f l = Ok b /\ (b = true <-> exists x, In x l /\ P x).
Proof.
  induction l as [|a l IH]; simpl; intros H.
  - exists false; split; [reflexivity|]; split; [discriminate | intros [x [[] _]]].
  - destruct (H a (or_introl eq_refl)) as [b [Hb HP]]; rewrite Hb; simpl.
    destruct b.
    + exists true; split; [reflexivity|]; split; [|reflexivity].
      intros _; exists a; split; [now left | apply HP; reflexivity].
    + destruct IH as [b' [Hb' HP']]; [intros x Hin; apply H; right; exact Hin|].
      exists b'; split; [exact Hb'|]; rewrite HP'; split.
      * intros [x [Hin Hx]]; exists x; auto.
      * intros [x [[<-|Hin] Hx]]; [apply HP in Hx; discriminate | exists x; auto].
Qed.

Lemma select_matrix_supported (m4 m3 : ReferenceMatrix) (fhirVersion : string) :
  supported fhirVersion ->
  select_matrix m4 m3 fhirVersion = Ok (matrix_for m4 m3 fhirVersion).
Proof. intros [->| ->]; reflexivity. Qed.

(** The lookup selects the entry of the file, unless it ends on an
    inherited member. *)
Lemma possible_paths_entry (matrix : ReferenceMatrix) (source : JsVal)
    (requestorType : string) :
  (inherited_entry matrix source requestorType
   /\ possible_paths matrix (to_string (field source "resourceType")) requestorType
      = NotAnArray)
  \/ (~ inherited_entry matrix source requestorType
      /\ possible_paths matrix (to_string (field source "resourceType")) requestorType
         = Paths (matrix_entry matrix source requestorType)).
Proof.
  unfold inherited_entry, possible_paths, matrix_entry; cbv zeta.
  destruct (assoc (to_string (field source "resourceType")) (rows matrix)) as [row|].
  - destruct (assoc requestorType row) as [paths|].
    + right; split; [intros [H _]; discriminate | reflexivity].
    + destruct (includes Object_prototype_keys requestorType) eqn:E.
      * left; split; [split; [reflexivity | apply includes_In; exact E] | reflexivity].
      * right; split; [|reflexivity].
        intros [_ H]; apply includes_In in H; congruence.
  - destruct (includes Object_prototype_keys (to_string (field source "resourceType")))
      eqn:E; cbn [andb].
    + destruct (inherited matrix (to_string (field source "resourceType"))
                  requestorType) eqn:Ei.
      * left; split; [split; [apply includes_In; exact E | reflexivity] | reflexivity].
      * right; split; [intros [_ H]; discriminate | reflexivity].
    + right; split; [|reflexivity].
      intros [H _]; apply includes_In in H; congruence.
Qed.

Lemma possible_paths_Paths (matrix : ReferenceMatrix) (source : JsVal)
    (requestorType : string) (paths : list string) :
  possible_paths matrix (to_string (field source "resourceType")) requestorType
  = Paths paths ->
  paths = matrix_entry matrix source requestorType.
Proof.
  destruct (possible_paths_entry matrix source requestorType) as [[_ H] | [_ H]];
    rewrite H; intros E; [discriminate | injection E as <-; reflexivity].
Qed.


(** Whenever the matcher returns true, the version is a supported one and
    some path of the matrix entry ends in a leaf that refers to a
    candidate. *)
Lemma isRequestorReferenced_true_inv
    (m4 m3 : ReferenceMatrix) (ids : list string) (requestorType : string)
    (source : JsVal) (fhirVersion : string) :
  isRequestorReferenced m4 m3 ids requestorType source fhirVersion = Ok true ->
  supported fhirVersion
  /\ exists path,
       In path (matrix_entry (matrix_for m4 m3 fhirVersion) source requestorType)
       /\ path_matches ids source path.
Proof.
  unfold isRequestorReferenced; intros H.
  destruct (get_prop source "resourceType") as [t|e] eqn:Et; simpl in H; [|discriminate].
  assert (Hver : supported fhirVersion).
  { unfold select_matrix in H.
    destruct (String.eqb fhirVersion "4.0.1") eqn:E4;
      [left; apply String.eqb_eq; exact E4|].
    destruct (String.eqb fhirVersion "3.0.1") eqn:E3;
      [right; apply String.eqb_eq; exact E3 | discriminate]. }
  split; [exact Hver|].
  rewrite (select_matrix_supported _ _ Hver) in H; simpl in H.
  rewrite (get_prop_field _ _ Et) in H.
  destruct (possible_paths _ _ _) as [paths|] eqn:Ep; [|discriminate].
  apply possible_paths_Paths in Ep; subst paths.
  destruct (someM_true _ _ H) as [path [Hin Hhit]].
  exists path; split; [exact Hin | apply path_hits_sound; exact Hhit].
Qed.

(** On a source resource that is an object with no [null] inside its
    arrays, with candidates that are not the empty string and a lookup that
    stays in the file, the matcher returns a boolean, true exactly when
    some path of the matrix entry, expanded one segment per layer with
    every array flattened into the next layer, ends in a leaf whose
    [reference] is one of the candidates. *)
Lemma isRequestorReferenced_decides
    (m4 m3 : ReferenceMatrix) (ids : list string) (requestorType : string)
    (source : JsVal) (fhirVersion : string) :
  supported fhirVersion -> plain_resource source -> ~ In "" ids ->
  ~ inherited_entry (matrix_for m4 m3 fhirVersion) source requestorType ->
  exists b,
    isRequestorReferenced m4 m3 ids requestorType source fhirVersion = Ok b
    /\ (b = true <->
        exists path,
          In path (matrix_entry (matrix_for m4 m3 fhirVersion) source requestorType)
          /\ path_matches ids source path).
Proof.
  intros Hver Hplain Hne Hown; unfold isRequestorReferenced.
  assert (Hnn : nullish source = false)
    by (destruct Hplain as [Hobj _]; destruct source; try discriminate; reflexivity).
  rewrite (get_prop_defined _ _ Hnn); simpl.
  rewrite (select_matrix_supported _ _ Hver); simpl.
  destruct (possible_paths_entry (matrix_for m4 m3 fhirVersion) source requestorType)
    as [[Hin _] | [_ ->]]; [contradiction|].
  apply someM_decides; intros path _.
  apply path_hits_complete; assumption.
Qed.


(** C2, the failing input: an Appointment whose participant list holds a
    [null] before the participant that refers to Patient 1. The path
    [participant.actor] of the matrix entry ends in a leaf whose reference
    is a candidate, so the claim says true; the matcher throws a
    [TypeError], reading [actor] from the [null] element, and so does the
    write check that calls it. A [null] in place of the list itself, which
    the loop guards against, gives false without an error. *)
Theorem isRequestorReferenced_null_item :
  let candidates := ["Patient/1"; "https://api.example.com/Patient/1"] in
  isRequestorReferenced example_matrix example_matrix candidates "Patient"
    appointment_with_null "4.0.1" = Err TypeError
  /\ In "participant.actor"
        (matrix_entry (matrix_for example_matrix example_matrix "4.0.1")
           appointment_with_null "Patient")
  /\ path_matches candidates appointment_with_null "participant.actor"
  /\ isWriteRequestAuthorized example_matrix example_matrix example_handler
       (WriteRequest.mk identity_of_patient_1 "update" appointment_with_null None)
     = Err TypeError
  /\ isRequestorReferenced example_matrix example_matrix candidates "Patient"
       appointment_without_participants "4.0.1" = Ok false.
Proof.
  cbv zeta; split; [reflexivity|]; split; [left; reflexivity|].
  split; [|split; reflexivity].
  exists (reference_to "Patient/1"); split.
  - apply reaches_each with (x := JObj [("actor", reference_to "Patient/1")]).
    + right; left; reflexivity.
    + apply reaches_here.
  - exists "Patient/1"; split; [reflexivity | left; reflexivity].
Qed.

(* ================================================================== *)
(** ** References to the requestor *)

Lemma strict_eq_str_true (s : string) (v : JsVal) :
  strict_eq_str s v = true <-> v = JStr s.
Proof.
  destruct v; simpl; split; intros H; try discriminate.
  - apply String.eqb_eq in H; now subst.
  - inversion H; apply String.eqb_refl.
Qed.

Lemma is_same_resource_true (requestor : FhirResource) (source : JsVal) :
  is_same_resource requestor source = Ok true <->
  field source "resourceType" = JStr (resourceType requestor)
  /\ field source "id" = JStr (id requestor).
Proof.
  unfold is_same_resource; destruct source; simpl;
    try (split; [discriminate | intros [H _]; discriminate]).
  destruct (strict_eq_str (resourceType requestor) (lookup_field "resourceType" fields)) eqn:Et.
  - apply strict_eq_str_true in Et; rewrite Et; simpl; split.
    + intros H; injection H as Hi; apply strict_eq_str_true in Hi; auto.
    + intros [_ Hi]; apply strict_eq_str_true in Hi; now rewrite Hi.
  - split; [discriminate|].
    intros [Ht _]; apply strict_eq_str_true in Ht; congruence.
Qed.

Lemma leaf_matches_two (a b : string) (x : JsVal) :
  leaf_matches [a; b] x = leaf_matches [a] x || leaf_matches [b] x.
Proof.
  unfold leaf_matches; destruct (truthy x); simpl; [|reflexivity].
  destruct (get_prop x "reference") as [r|e]; [|reflexivity].
  destruct (truthy r); simpl; [|reflexivity].
  destruct r; simpl; try reflexivity.
  unfold includes; simpl.
  destruct (String.eqb s a), (String.eqb s b); reflexivity.
Qed.

Lemma existsb_leaf_matches_two (a b : string) (leaves : list JsVal) :
  existsb (leaf_matches [a; b]) leaves
  = existsb (leaf_matches [a]) leaves || existsb (leaf_matches [b]) leaves.
Proof.
  induction leaves as [|x leaves IH]; simpl; [reflexivity|].
  rewrite IH, leaf_matches_two.
  destruct (leaf_matches [a] x), (leaf_matches [b] x),
    (existsb (leaf_matches [a]) leaves); reflexivity.
Qed.

(** Whether a path throws does not depend on the candidates, so looking for
    two candidates at once finds what looking for either of them finds. *)
Lemma isRequestorReferenced_either (m4 m3 : ReferenceMatrix) (a b : string)
    (requestorType : string) (source : JsVal) (fhirVersion : string) :
  isRequestorReferenced m4 m3 [a; b] requestorType source fhirVersion = Ok true <->
  isRequestorReferenced m4 m3 [a] requestorType source fhirVersion = Ok true
  \/ isRequestorReferenced m4 m3 [b] requestorType source fhirVersion = Ok true.
Proof.
  unfold isRequestorReferenced.
  destruct (get_prop source "resourceType") as [t|e]; simpl;
    [|split; [discriminate | intros [H|H]; discriminate]].
  destruct (select_matrix m4 m3 fhirVersion) as [matrix|e]; simpl;
    [|split; [discriminate | intros [H|H]; discriminate]].
  destruct (possible_paths matrix (to_string t) requestorType) as [paths|];
    [|split; [discriminate | intros [H|H]; discriminate]].
  induction paths as [|path paths IH]; simpl.
  - split; [discriminate | intros [H|H]; discriminate].
  - unfold path_hits at 1 3 5.
    destruct (path_leaves source path) as [leaves|e]; simpl;
      [|split; [discriminate | intros [H|H]; discriminate]].
    rewrite existsb_leaf_matches_two.
    destruct (existsb (leaf_matches [a]) leaves), (existsb (leaf_matches [b]) leaves);
      simpl; try (split; [auto | reflexivity]).
    exact IH.
Qed.

Lemma path_matches_incl (ids ids' : list string) (source : JsVal) (path : string) :
  incl ids ids' -> path_matches ids source path -> path_matches ids' source path.
Proof.
  intros Hincl [leaf [Hr [r [Hf Hin]]]].
  exists leaf; split; [exact Hr | exists r; split; [exact Hf | apply Hincl, Hin]].
Qed.

(** C3: for a requestor whose hostname is not the server's, the result is
    the matcher's on the one candidate [hostname/resourceType/id], so it is
    true only when a path of the matrix entry ends in a reference that is
    exactly that string. For a requestor whose hostname is the server's, it
    is true exactly when the requestor's type and id are the resource's
    own, or the matcher finds [resourceType/id], or the matcher finds
    [hostname/resourceType/id]; and then, but for the direct match, a path
    of the matrix entry ends in a reference that is one of the two
    strings. *)
Theorem hasReferenceToResource_cases
    (m4 m3 : ReferenceMatrix) (requestor : FhirResource) (source : JsVal)
    (serverUrl fhirVersion : string) :
  let type := resourceType requestor in
  let relative := type ++ "/" ++ id requestor in
  let absolute := hostname requestor ++ "/" ++ type ++ "/" ++ id requestor in
  let outcome := hasReferenceToResource m4 m3 requestor source serverUrl fhirVersion in
  let finds := fun form =>
    isRequestorReferenced m4 m3 [form] type source fhirVersion = Ok true in
  let on_a_path := fun forms =>
    exists path,
      In path (matrix_entry (matrix_for m4 m3 fhirVersion) source type)
      /\ path_matches forms source path in
  let is_the_resource :=
    field source "resourceType" = JStr type /\ field source "id" = JStr (id requestor) in
  (hostname requestor <> serverUrl ->
   outcome = isRequestorReferenced m4 m3 [absolute] type source fhirVersion
   /\ (outcome = Ok true -> supported fhirVersion /\ on_a_path [absolute]))
  /\ (hostname requestor = serverUrl ->
      (outcome = Ok true <-> is_the_resource \/ finds relative \/ finds absolute)
      /\ (outcome = Ok true ->
          is_the_resource \/ (supported fhirVersion /\ on_a_path [relative; absolute]))).
Proof.
  cbv zeta; unfold hasReferenceToResource, relative_ref, absolute_ref.
  split; intros Hhost.
  - apply String.eqb_neq in Hhost; rewrite Hhost; simpl.
    split; [reflexivity | apply isRequestorReferenced_true_inv].
  - apply String.eqb_eq in Hhost; rewrite Hhost; simpl.
    rewrite <- is_same_resource_true, <- isRequestorReferenced_either.
    destruct (is_same_resource requestor source) as [[|]|e] eqn:Es; simpl.
    + split; [|intros _; left; reflexivity].
      split; [intros _; left; reflexivity | reflexivity].
    + split; [|intros H; right; apply isRequestorReferenced_true_inv; exact H].
      split; [intros H; right; exact H | intros [H|H]; [discriminate | exact H]].
    + split; [|discriminate].
      split; [discriminate | intros [H|H]; [discriminate|]].
      (* the resource is null or undefined: the matcher throws as well *)
      unfold is_same_resource in Es; unfold isRequestorReferenced in H.
      destruct (get_prop source "resourceType") as [t|e'] eqn:Et; simpl in *;
        [|discriminate].
      destruct (strict_eq_str (resourceType requestor) t); [|discriminate].
      destruct source; simpl in Et, Es; discriminate.
Qed.

Lemma hasReferenceToResource_cases_witness :
  (hostname external_patient_1 <> example_api /\ hostname patient_1 = example_api)
  /\ hasReferenceToResource example_matrix example_matrix external_patient_1
       appointment_by_url example_api "4.0.1" = Ok true
  /\ (exists path,
         In path (matrix_entry (matrix_for example_matrix example_matrix "4.0.1")
                    appointment_by_url "Patient")
         /\ path_matches ["https://other.example.org/Patient/1"] appointment_by_url path)
  /\ hasReferenceToResource example_matrix example_matrix external_patient_1
       appointment_of_patient_1 example_api "4.0.1" = Ok false
  /\ hasReferenceToResource example_matrix example_matrix patient_1
       appointment_of_patient_1 example_api "4.0.1" = Ok true
  /\ hasReferenceToResource example_matrix example_matrix patient_1
       appointment_by_local_url example_api "4.0.1" = Ok true
  /\ hasReferenceToResource example_matrix example_matrix patient_1
       patient_1_resource example_api "4.0.1" = Ok true.
Proof.
  assert (Hother : hostname external_patient_1 <> example_api) by discriminate.
  assert (Hsame : hostname patient_1 = example_api) by reflexivity.
  pose proof (hasReferenceToResource_cases example_matrix example_matrix
                external_patient_1 appointment_by_url example_api "4.0.1") as Hurl.
  pose proof (hasReferenceToResource_cases example_matrix example_matrix
                external_patient_1 appointment_of_patient_1 example_api "4.0.1")
    as Hrelative.
  pose proof (hasReferenceToResource_cases example_matrix example_matrix
                patient_1 appointment_of_patient_1 example_api "4.0.1") as Hlocal.
  pose proof (hasReferenceToResource_cases example_matrix example_matrix
                patient_1 appointment_by_local_url example_api "4.0.1") as Hlocal_url.
  pose proof (hasReferenceToResource_cases example_matrix example_matrix
                patient_1 patient_1_resource example_api "4.0.1") as Hself.
  cbv zeta in Hurl, Hrelative, Hlocal, Hlocal_url, Hself.
  destruct (proj1 Hurl Hother) as [Eurl Surl].
  assert (Turl : hasReferenceToResource example_matrix example_matrix
                   external_patient_1 appointment_by_url example_api "4.0.1" = Ok true)
    by (rewrite Eurl; reflexivity).
  split; [split; assumption|].
  split; [exact Turl|].
  split; [exact (proj2 (Surl Turl))|].
  split; [rewrite (proj1 (proj1 Hrelative Hother)); reflexivity|].
  split; [apply (proj1 (proj2 Hlocal Hsame)); right; left; reflexivity|].
  split; [apply (proj1 (proj2 Hlocal_url Hsame)); right; right; reflexivity|].
  apply (proj1 (proj2 Hself Hsame)); left; split; reflexivity.
Defined.

(* ================================================================== *)
(** ** The access decision *)





(* ================================================================== *)
(** ** Bundles *)

Lemma forallb_is_ok_false {A B : Type} (f : A -> result B) (l : list A) (x : A) :
  In x l -> is_ok (f x) = false -> forallb is_ok (map f l) = false.
Proof.
  intros Hin Hx; induction l as [|a l IH]; simpl; [destruct Hin|].
  destruct Hin as [->|Hin].
  - rewrite Hx; reflexivity.
  - rewrite (IH Hin); apply andb_false_r.
Qed.

(** C5: if one mutating entry of a bundle (create, update, patch or delete)
    fails the write check on its resource, [isBundleRequestAuthorized]
    rejects the bundle with the one denial, whatever the other entries
    are. *)
Theorem isBundleRequestAuthorized_one_failure
    (m4 m3 : ReferenceMatrix)
    (isScopeSufficient : string -> JsVal -> string -> bool -> option string -> bool)
    (h : SMARTHandler) (request : BundleRequest.t) (req : BundleEntry.t) :
  In req (BundleRequest.requests request) ->
  In (BundleEntry.operation req) ["create"; "update"; "patch"; "delete"] ->
  isWriteRequestAuthorized m4 m3 h (writeRequestOfEntry request req) <> Ok tt ->
  isBundleRequestAuthorized m4 m3 isScopeSufficient h request
  = Err (UnauthorizedError "An entry within the Bundle is not authorized").
Proof.
  intros Hin Hop Hfail; unfold isBundleRequestAuthorized.
  destruct (negb (forallb _ (BundleRequest.requests request))); [reflexivity|].
  rewrite forallb_is_ok_false with (x := req); [reflexivity | exact Hin |].
  apply includes_In in Hop; unfold isMutating; rewrite Hop.
  destruct (isWriteRequestAuthorized m4 m3 h (writeRequestOfEntry request req))
    as [[]|e]; [contradiction | reflexivity].
Qed.

Lemma isBundleRequestAuthorized_one_failure_witness :
  (In (BundleEntry.mk "create" "Observation" observation_of_patient_2)
      (BundleRequest.requests example_bundle)
   /\ In "create" ["create"; "update"; "patch"; "delete"]
   /\ isWriteRequestAuthorized example_matrix example_matrix example_handler
        (writeRequestOfEntry example_bundle
           (BundleEntry.mk "create" "Appointment" appointment_of_patient_1)) = Ok tt
   /\ isWriteRequestAuthorized example_matrix example_matrix example_handler
        (writeRequestOfEntry example_bundle
           (BundleEntry.mk "create" "Observation" observation_of_patient_2)) <> Ok tt)
  /\ isBundleRequestAuthorized example_matrix example_matrix spec_isScopeSufficient
       example_handler example_bundle
     = Err (UnauthorizedError "An entry within the Bundle is not authorized").
Proof.
  assert (H1 : In (BundleEntry.mk "create" "Observation" observation_of_patient_2)
                  (BundleRequest.requests example_bundle))
    by (right; left; reflexivity).
  assert (H2 : In (BundleEntry.operation
                     (BundleEntry.mk "create" "Observation" observation_of_patient_2))
                  ["create"; "update"; "patch"; "delete"])
    by (left; reflexivity).
  assert (H3 : isWriteRequestAuthorized example_matrix example_matrix example_handler
                 (writeRequestOfEntry example_bundle
                    (BundleEntry.mk "create" "Observation" observation_of_patient_2))
               <> Ok tt)
    by (vm_compute; discriminate).
  split; [repeat split; [exact H1 | exact H2 | exact H3]|].
  exact (@isBundleRequestAuthorized_one_failure example_matrix example_matrix
           spec_isScopeSufficient example_handler example_bundle _ H1 H2 H3).
Defined.

(** A bundle is authorized exactly when every entry has a sufficient scope
    and every mutating entry passes the write check; the only other outcome
    is the one denial. *)
Lemma isBundleRequestAuthorized_all_or_nothing
    (m4 m3 : ReferenceMatrix)
    (isScopeSufficient : string -> JsVal -> string -> bool -> option string -> bool)
    (h : SMARTHandler) (request : BundleRequest.t) :
  let outcome := isBundleRequestAuthorized m4 m3 isScopeSufficient h request in
  (outcome = Ok tt \/ outcome = Err bundleDenied)
  /\ (outcome = Ok tt <->
      (forall req, In req (BundleRequest.requests request) ->
         exists scope,
           In scope (bundleUsableScopes (BundleRequest.userIdentity request))
           /\ isScopeSufficient scope (scopeRule (config h))
                (BundleEntry.operation req) (isUserScopeAllowedForSystemExport h)
                (Some (BundleEntry.resourceType req)) = true)
      /\ (forall req, In req (BundleRequest.requests request) ->
            isMutating (BundleEntry.operation req) = true ->
            isWriteRequestAuthorized m4 m3 h (writeRequestOfEntry request req) = Ok tt)).
Proof.
  intros outcome; unfold outcome, isBundleRequestAuthorized.
  destruct (forallb _ (BundleRequest.requests request)) eqn:Escopes; simpl.
  - rewrite forallb_forall in Escopes.
    destruct (forallb is_ok _) eqn:Ewrites.
    + split; [left; reflexivity|]; split; [intros _ | reflexivity]; split.
      * intros req Hin; apply existsb_exists, Escopes, Hin.
      * intros req Hin Hmut.
        rewrite forallb_forall in Ewrites.
        specialize (Ewrites _ (in_map _ _ _ Hin)); simpl in Ewrites.
        rewrite Hmut in Ewrites.
        destruct (isWriteRequestAuthorized m4 m3 h (writeRequestOfEntry request req))
          as [[]|e]; [reflexivity | discriminate].
    + split; [right; reflexivity|]; split; [discriminate|].
      intros [_ Hwrites]; exfalso.
      assert (Hall : forallb is_ok
                       (map (fun req =>
                               if isMutating (BundleEntry.operation req)
                               then isWriteRequestAuthorized m4 m3 h
                                      (writeRequestOfEntry request req)
                               else Ok tt)
                            (BundleRequest.requests request)) = true).
      { apply forallb_forall; intros r Hr; apply in_map_iff in Hr.
        destruct Hr as [req [<- Hin]].
        destruct (isMutating (BundleEntry.operation req)) eqn:Hmut; [|reflexivity].
        rewrite (Hwrites req Hin Hmut); reflexivity. }
      congruence.
  - split; [right; reflexivity|]; split; [discriminate|].
    intros [Hscopes _]; exfalso.
    assert (Hall : forallb
                     (fun req =>
                        existsb (fun scope =>
                                   isScopeSufficient scope (scopeRule (config h))
                                     (BundleEntry.operation req)
                                     (isUserScopeAllowedForSystemExport h)
                                     (Some (BundleEntry.resourceType req)))
                                (bundleUsableScopes (BundleRequest.userIdentity request)))
                     (BundleRequest.requests request) = true).
    { apply forallb_forall; intros req Hin; apply existsb_exists, Hscopes, Hin. }
    congruence.
Qed.

(* ================================================================== *)
(** ** Token verification *)

Lemma strict_eq_str_false (s : string) (v : JsVal) :
  v <> JStr s -> strict_eq_str s v = false.
Proof.
  intros H; destruct (strict_eq_str s v) eqn:E; [|reflexivity].
  apply strict_eq_str_true in E; contradiction.
Qed.

Lemma claims_of_not_nullish (p : JwtPayload) : nullish (claims_of p) = false.
Proof. destruct p; reflexivity. Qed.

Lemma nullish_get_prop (v : JsVal) (k : string) :
  nullish v = true -> get_prop v k = Err TypeError.
Proof. destruct v; simpl; intros H; try discriminate; reflexivity. Qed.

(** A token that decodes to a payload other than [null] and whose [iss]
    claim is not the expected issuer is denied with the one opaque Invalid
    access token error: by [decodeJwtToken], and by both verifiers before
    they make any external call. *)
Lemma issuer_mismatch_denied
    (jwt_decode : string -> result (option DecodedJwt))
    (getSigningKeyAsync : JsVal -> result string)
    (jwt_verify : string -> string -> Audience -> string -> result JwtPayload)
    (axios_post : string -> string -> string -> result JsVal)
    (base64 : string -> string)
    (token : string) (expectedAud : Audience) (expectedIss : string)
    (options : IntrospectionOptions)
    (decoded : DecodedJwt) (log : list ExternalCall) :
  jwt_decode token = Ok (Some decoded) ->
  nullish (payload decoded) = false ->
  field (payload decoded) "iss" <> JStr expectedIss ->
  decodeJwtToken jwt_decode token expectedAud expectedIss
  = Err (UnauthorizedError "Invalid access token")
  /\ verifyJwtToken jwt_decode getSigningKeyAsync jwt_verify
       token expectedAud expectedIss log
     = (Err (UnauthorizedError "Invalid access token"), log)
  /\ introspectJwtToken jwt_decode axios_post base64
       token expectedAud expectedIss options log
     = (Err (UnauthorizedError "Invalid access token"), log).
Proof.
  intros Hdec Hnn Hneq.
  assert (Hdenied : decodeJwtToken jwt_decode token expectedAud expectedIss
                    = Err (UnauthorizedError "Invalid access token")).
  { unfold decodeJwtToken; rewrite Hdec; simpl.
    rewrite !(get_prop_defined _ _ Hnn); simpl.
    rewrite (strict_eq_str_false Hneq); reflexivity. }
  split; [exact Hdenied|]; split.
  - unfold verifyJwtToken, bindIO, lift; rewrite Hdenied; reflexivity.
  - unfold introspectJwtToken, bindIO, lift; rewrite Hdenied; reflexivity.
Qed.

(** C8, the failing input: a token of type JWT whose payload part is the
    JSON text [null]. It decodes, and it has no [iss] claim equal to the
    expected issuer, so the claim says it is denied with Invalid access
    token; [decodeJwtToken] throws a [TypeError] instead, taking [aud] and
    [iss] out of [null], and both verifiers, which call it outside their
    [try], let the [TypeError] through. The same token with another payload
    that has no [iss], a string, is denied as the claim says. *)
Theorem decodeJwtToken_null_payload :
  example_jwt_decode null_payload_token
  = Ok (Some (mkDecodedJwt example_header JNull))
  /\ field JNull "iss" <> JStr example_issuer
  /\ decodeJwtToken example_jwt_decode null_payload_token
       (AudString example_api) example_issuer
     = Err TypeError
  /\ verifyJwtToken example_jwt_decode example_getSigningKeyAsync example_jwt_verify
       null_payload_token (AudString example_api) example_issuer []
     = (Err TypeError, [])
  /\ introspectJwtToken example_jwt_decode example_axios_post example_base64
       null_payload_token (AudString example_api) example_issuer
       example_introspection []
     = (Err TypeError, [])
  /\ decodeJwtToken
       (fun _ => Ok (Some (mkDecodedJwt example_header (JStr "null"))))
       null_payload_token (AudString example_api) example_issuer
     = Err (UnauthorizedError "Invalid access token").
Proof. repeat split; discriminate. Qed.

(* ================================================================== *)
(** ** Filtering a read response *)

(** C10: for a search-class operation on a response that has no [entry]
    field, a truthy [total] makes [authorizeAndFilterReadResponse] throw a
    [TypeError], reading the length of the missing list, where it would
    return a filtered bundle or a denial; a [total] that is absent or zero
    takes the guarded branch and gives the empty bundle with total 0. *)
Theorem authorizeAndFilterReadResponse_missing_entry
    (m4 m3 : ReferenceMatrix) (SEARCH_OPERATIONS : list string)
    (h : SMARTHandler) (request : ReadResponseRequest.t) :
  let readResponse := ReadResponseRequest.readResponse request in
  In (ReadResponseRequest.operation request) SEARCH_OPERATIONS ->
  field readResponse "entry" = JUndefined ->
  (truthy (field readResponse "total") = true ->
   authorizeAndFilterReadResponse m4 m3 SEARCH_OPERATIONS h request = Err TypeError)
  /\ (nullish readResponse = false ->
      field readResponse "total" = JUndefined \/ field readResponse "total" = JNum 0 ->
      authorizeAndFilterReadResponse m4 m3 SEARCH_OPERATIONS h request
      = Ok (JObj (set_field "total" (JNum 0)
                    (set_field "entry" (JArr []) (spread readResponse))))).
Proof.
  intros readResponse Hop Hentry; unfold authorizeAndFilterReadResponse.
  apply includes_In in Hop; rewrite Hop; fold readResponse.
  split.
  - intros Htotal.
    assert (Hnn : nullish readResponse = false)
      by (destruct readResponse; simpl in Htotal; try discriminate; reflexivity).
    rewrite !(get_prop_defined _ _ Hnn), Hentry; simpl.
    rewrite Htotal; reflexivity.
  - intros Hnn Htotal.
    rewrite !(get_prop_defined _ _ Hnn), Hentry; simpl.
    destruct Htotal as [-> | ->]; reflexivity.
Qed.

Lemma authorizeAndFilterReadResponse_missing_entry_witness :
  (In "search-type" example_SEARCH_OPERATIONS
   /\ field search_response_without_entry "entry" = JUndefined
   /\ truthy (field search_response_without_entry "total") = true)
  /\ authorizeAndFilterReadResponse example_matrix example_matrix
       example_SEARCH_OPERATIONS example_handler
       (ReadResponseRequest.mk identity_of_patient_1 "search-type"
          search_response_without_entry None)
     = Err TypeError.
Proof.
  assert (H1 : In "search-type" example_SEARCH_OPERATIONS) by (left; reflexivity).
  assert (H2 : field search_response_without_entry "entry" = JUndefined) by reflexivity.
  assert (H3 : truthy (field search_response_without_entry "total") = true)
    by reflexivity.
  split; [repeat split; assumption|].
  exact (proj1 (@authorizeAndFilterReadResponse_missing_entry
                  example_matrix example_matrix example_SEARCH_OPERATIONS
                  example_handler
                  (ReadResponseRequest.mk identity_of_patient_1 "search-type"
                     search_response_without_entry None) H1 H2) H3).
Defined.

(* ================================================================== *)
(** ** The identity of a verified token *)

Lemma lookup_field_set_field_other (k k' : string) (v : JsVal)
    (fields : list (string * JsVal)) :
  k' <> k -> lookup_field k' (set_field k v fields) = lookup_field k' fields.
Proof.
  intros Hneq; induction fields as [|[k0 v0] rest IH]; simpl.
  - apply String.eqb_neq in Hneq; rewrite Hneq; reflexivity.
  - destruct (String.eqb k k0) eqn:E; simpl.
    + apply String.eqb_eq in E; subst k0.
      apply String.eqb_neq in Hneq; rewrite Hneq; reflexivity.
    + destruct (String.eqb k' k0); [reflexivity | exact IH].
Qed.

Lemma set_prop_field_other (o o' : JsVal) (k k' : string) (v : JsVal) :
  set_prop o k v = Ok o' -> k' <> k -> field o' k' = field o k'.
Proof.
  destruct o; simpl; intros H Hneq; try discriminate.
  injection H as <-; simpl; apply lookup_field_set_field_other; exact Hneq.
Qed.

(** One of the two conditional assignments of [verifyAccessToken]. *)
Lemma attach_inv {A : Type} (c : bool) (parse : result A) (json : A -> JsVal)
    (u u' : JsVal) (k : string) :
  (if c then (x <- parse ;; set_prop u k (json x)) else Ok u) = Ok u' ->
  (c = false /\ u' = u) \/ (c = true /\ exists v, set_prop u k v = Ok u').
Proof.
  destruct c; intros H.
  - right; split; [reflexivity|].
    apply bind_Ok_inv in H; destruct H as [x [_ H]]; exists (json x); exact H.
  - left; split; [reflexivity | congruence].
Qed.

Lemma existsb_startsWith (p : string) (l : list string) :
  existsb (fun scope => startsWith scope p) l = true ->
  exists scope, In scope l /\ begins_with p scope.
Proof.
  intros H; apply existsb_exists in H; destruct H as [scope [Hin H]].
  exists scope; split; [exact Hin | apply startsWith_begins_with; exact H].
Qed.

Lemma decodeJwtToken_payload
    (jwt_decode : string -> result (option DecodedJwt)) (token : string)
    (expectedAud : Audience) (expectedIss : string) (decoded : DecodedJwt) :
  decodeJwtToken jwt_decode token expectedAud expectedIss = Ok decoded ->
  nullish (payload decoded) = false.
Proof.
  unfold decodeJwtToken; intros H.
  destruct (jwt_decode token) as [[d|]|e]; simpl in H; try discriminate.
  destruct (nullish (payload d)) eqn:En.
  - rewrite (nullish_get_prop _ _ En) in H; discriminate.
  - destruct (get_prop (payload d) "aud") as [aud|]; simpl in H; [|discriminate].
    destruct (get_prop (payload d) "iss") as [iss|]; simpl in H; [|discriminate].
    destruct (negb (strict_eq_str expectedIss iss)); [discriminate|].
    destruct (if truthy aud then _ else _) as [audArray|]; simpl in H; [|discriminate].
    destruct (negb (existsb _ audArray)); [discriminate|].
    injection H as <-; exact En.
Qed.

(** What a verifier hands to [verifyAccessToken] is never [null] or
    [undefined]: the fields of the payload have been read before. *)
Lemma verifyToken_not_nullish
    (jwt_decode : string -> result (option DecodedJwt))
    (getSigningKeyAsync : JsVal -> result string)
    (jwt_verify : string -> string -> Audience -> string -> result JwtPayload)
    (axios_post : string -> string -> string -> result JsVal)
    (base64 : string -> string)
    (h : SMARTHandler) (request : VerifyRequest.t)
    (log log' : list ExternalCall) (verified : JsVal) :
  verifyToken jwt_decode getSigningKeyAsync jwt_verify axios_post base64
    h request log = (Ok verified, log') ->
  nullish verified = false.
Proof.
  unfold verifyToken.
  destruct (tokenIntrospection (config h)) as [options|].
  - unfold introspectJwtToken, bindIO, lift, try_catch, external, throw, ret.
    destruct (decodeJwtToken jwt_decode _ _ _) as [d|e] eqn:Ed; [|discriminate].
    destruct (axios_post _ _ _) as [response|e]; [|discriminate].
    destruct (get_prop response "data") as [data|e]; [|discriminate].
    destruct (get_prop data "active") as [active|e]; [|discriminate].
    destruct (negb (truthy active)); [discriminate|].
    intros H; injection H as <- _; exact (decodeJwtToken_payload _ _ _ _ Ed).
  - destruct (jwksClient h); [|discriminate].
    unfold bindIO, ret.
    destruct (verifyJwtToken _ _ _ _ _ _ log) as [[p|e] l]; [|discriminate].
    intros H; injection H as <- _; apply claims_of_not_nullish.
Qed.

Lemma identityOfToken_steps
    (getScopes : JsVal -> list string)
    (filterOutUnusableScope :
       list string -> JsVal -> string -> bool -> option string ->
       JsVal -> JsVal -> JsVal -> list string)
    (h : SMARTHandler) (request : VerifyRequest.t)
    (decodedToken scopeClaim identity : JsVal) :
  get_prop decodedToken (scopeKey (config h)) = Ok scopeClaim ->
  identityOfToken getScopes filterOutUnusableScope h request decodedToken
  = Ok identity ->
  let usable :=
    usableScopesOf getScopes filterOutUnusableScope h request decodedToken scopeClaim in
  usable <> []
  /\ exists u1 u2 u3 v3 v4,
       ((truthy (claimOfUser h decodedToken)
         && existsb (fun scope => startsWith scope "user/") usable = false
         /\ u1 = decodedToken)
        \/ (truthy (claimOfUser h decodedToken)
            && existsb (fun scope => startsWith scope "user/") usable = true
            /\ exists v, set_prop decodedToken "fhirUserObject" v = Ok u1))
       /\ ((truthy (claimOfPatient h decodedToken)
            && existsb (fun scope => startsWith scope "patient/") usable = false
            /\ u2 = u1)
           \/ (truthy (claimOfPatient h decodedToken)
               && existsb (fun scope => startsWith scope "patient/") usable = true
               /\ exists v, set_prop u1 "patientLaunchContext" v = Ok u2))
       /\ set_prop u2 "scopes" v3 = Ok u3
       /\ set_prop u3 "usableScopes" v4 = Ok identity.
Proof.
  intros Hscope Hid usable; unfold identityOfToken in Hid.
  rewrite Hscope in Hid; simpl in Hid.
  fold usable in Hid.
  destruct usable as [|s0 rest] eqn:Eusable; [discriminate|].
  split; [discriminate|].
  apply bind_Ok_inv in Hid; destruct Hid as [_ [_ Hid]].
  apply bind_Ok_inv in Hid; destruct Hid as [u1 [H1 Hid]].
  apply bind_Ok_inv in Hid; destruct Hid as [u2 [H2 Hid]].
  apply bind_Ok_inv in Hid; destruct Hid as [u3 [H3 H4]].
  apply attach_inv in H1; apply attach_inv in H2.
  exists u1, u2, u3; do 2 eexists.
  split; [exact H1|]; split; [exact H2|]; split; [exact H3 | exact H4].
Qed.

(** C7, as amended: for a token that passes verification,
    [verifyAccessToken] fails with the denial when no scope is usable; when
    it returns an identity, some scope is usable, and provided the token's
    own claims have no field named [fhirUserObject], the identity carries
    one only if the fhirUser claim is truthy and a usable scope begins with
    [user/]; likewise for [patientLaunchContext], the patient-context claim
    and [patient/]. *)
Theorem verifyAccessToken_identity
    (jwt_decode : string -> result (option DecodedJwt))
    (getSigningKeyAsync : JsVal -> result string)
    (jwt_verify : string -> string -> Audience -> string -> result JwtPayload)
    (axios_post : string -> string -> string -> result JsVal)
    (base64 : string -> string)
    (getScopes : JsVal -> list string)
    (filterOutUnusableScope :
       list string -> JsVal -> string -> bool -> option string ->
       JsVal -> JsVal -> JsVal -> list string)
    (h : SMARTHandler) (request : VerifyRequest.t)
    (log log' : list ExternalCall) (verified : JsVal) :
  verifyToken jwt_decode getSigningKeyAsync jwt_verify axios_post base64
    h request log = (Ok verified, log') ->
  let decodedToken := verified in
  let usable :=
    usableScopesOf getScopes filterOutUnusableScope h request decodedToken
      (field decodedToken (scopeKey (config h))) in
  let outcome :=
    verifyAccessToken jwt_decode getSigningKeyAsync jwt_verify axios_post base64
      getScopes filterOutUnusableScope h request log in
  (usable = [] ->
   outcome
   = (Err (UnauthorizedError
             "access_token does not have permission for requested operation"),
      log'))
  /\ (forall identity,
         outcome = (Ok identity, log') ->
         usable <> []
         /\ (field decodedToken "fhirUserObject" = JUndefined ->
             carries identity "fhirUserObject" ->
             truthy (claimOfUser h decodedToken) = true
             /\ exists scope, In scope usable /\ begins_with "user/" scope)
         /\ (field decodedToken "patientLaunchContext" = JUndefined ->
             carries identity "patientLaunchContext" ->
             truthy (claimOfPatient h decodedToken) = true
             /\ exists scope, In scope usable /\ begins_with "patient/" scope)).
Proof.
  intros Hverified decodedToken usable outcome.
  assert (Hscope : get_prop decodedToken (scopeKey (config h))
                   = Ok (field decodedToken (scopeKey (config h))))
    by (apply get_prop_defined;
        apply (verifyToken_not_nullish _ _ _ _ _ _ _ _ Hverified)).
  unfold outcome, verifyAccessToken, bindIO, lift.
  rewrite Hverified; fold decodedToken; split.
  - intros Hnone; unfold identityOfToken; rewrite Hscope; simpl.
    fold usable; rewrite Hnone; reflexivity.
  - intros identity Hid; injection Hid as Hid.
    destruct (identityOfToken_steps _ _ _ _ _ Hscope Hid)
      as [Hsome [u1 [u2 [u3 [v3 [v4 [H1 [H2 [H3 H4]]]]]]]]].
    fold usable in Hsome, H1, H2.
    split; [exact Hsome|]; split.
    + intros Habsent [x [Hget Hx]].
      apply get_prop_field in Hget; subst x.
      rewrite (set_prop_field_other _ _ H4), (set_prop_field_other _ _ H3) in Hx
        by discriminate.
      assert (Hu2 : field u2 "fhirUserObject" = field u1 "fhirUserObject").
      { destruct H2 as [[_ ->] | [_ [v Hv]]]; [reflexivity|].
        apply (set_prop_field_other _ _ Hv); discriminate. }
      rewrite Hu2 in Hx.
      destruct H1 as [[_ ->] | [Hc _]]; [contradiction|].
      apply andb_true_iff in Hc; destruct Hc as [Hclaim Hs].
      split; [exact Hclaim | apply existsb_startsWith; exact Hs].
    + intros Habsent [x [Hget Hx]].
      apply get_prop_field in Hget; subst x.
      rewrite (set_prop_field_other _ _ H4), (set_prop_field_other _ _ H3) in Hx
        by discriminate.
      destruct H2 as [[_ ->] | [Hc _]].
      * exfalso; apply Hx.
        destruct H1 as [[_ ->] | [_ [v Hv]]]; [exact Habsent|].
        rewrite (set_prop_field_other _ _ Hv); [exact Habsent | discriminate].
      * apply andb_true_iff in Hc; destruct Hc as [Hclaim Hs].
        split; [exact Hclaim | apply existsb_startsWith; exact Hs].
Qed.

Lemma verifyAccessToken_identity_witness :
  (verifyToken example_jwt_decode example_getSigningKeyAsync example_jwt_verify
     example_axios_post example_base64 example_handler
     (read_observation "token-launch") []
   = (Ok (claims_of claims_of_launch),
      [GetSigningKey (JStr "key-1"); VerifySignature "token-launch" "public-key-1"])
   /\ verifyAccessToken example_jwt_decode example_getSigningKeyAsync
        example_jwt_verify example_axios_post example_base64
        spec_getScopes spec_filterOutUnusableScope
        example_handler (read_observation "token-launch") []
      = (Ok identity_of_launch,
         [GetSigningKey (JStr "key-1"); VerifySignature "token-launch" "public-key-1"])
   /\ field (claims_of claims_of_launch) "patientLaunchContext" = JUndefined
   /\ carries identity_of_launch "patientLaunchContext")
  /\ (truthy (claimOfPatient example_handler (claims_of claims_of_launch)) = true
      /\ exists scope,
           In scope (usableScopesOf spec_getScopes spec_filterOutUnusableScope
                       example_handler (read_observation "token-launch")
                       (claims_of claims_of_launch)
                       (JStr "openid patient/Observation.read"))
           /\ begins_with "patient/" scope).
Proof.
  assert (H1 : verifyToken example_jwt_decode example_getSigningKeyAsync
                 example_jwt_verify example_axios_post example_base64 example_handler
                 (read_observation "token-launch") []
               = (Ok (claims_of claims_of_launch),
                  [GetSigningKey (JStr "key-1");
                   VerifySignature "token-launch" "public-key-1"]))
    by reflexivity.
  assert (H3 : verifyAccessToken example_jwt_decode example_getSigningKeyAsync
                 example_jwt_verify example_axios_post example_base64
                 spec_getScopes spec_filterOutUnusableScope
                 example_handler (read_observation "token-launch") []
               = (Ok identity_of_launch,
                  [GetSigningKey (JStr "key-1");
                   VerifySignature "token-launch" "public-key-1"]))
    by reflexivity.
  assert (H4 : field (claims_of claims_of_launch) "patientLaunchContext" = JUndefined)
    by reflexivity.
  assert (H5 : carries identity_of_launch "patientLaunchContext")
    by (eexists; split; [reflexivity | discriminate]).
  split; [repeat split; assumption|].
  exact (proj2 (proj2 (proj2
           (@verifyAccessToken_identity example_jwt_decode example_getSigningKeyAsync
              example_jwt_verify example_axios_post example_base64
              spec_getScopes spec_filterOutUnusableScope
              example_handler (read_observation "token-launch") [] _ _ H1)
           identity_of_launch H3)) H4 H5).
Defined.

(** C7, as stated, fails: a verified token whose claims hold a field named
    [fhirUserObject] gives an identity that carries it, although the token
    has no fhirUser claim and no usable scope begins with [user/]. *)
Lemma verifyAccessToken_carries_token_field :
  verifyAccessToken example_jwt_decode example_getSigningKeyAsync
    example_jwt_verify example_axios_post example_base64
    spec_getScopes spec_filterOutUnusableScope
    example_handler (read_observation "token-identity-field") []
  = (Ok identity_with_token_field,
     [GetSigningKey (JStr "key-1");
      VerifySignature "token-identity-field" "public-key-1"])
  /\ carries identity_with_token_field "fhirUserObject"
  /\ claimOfUser example_handler (claims_of claims_with_identity_field) = JUndefined
  /\ ~ (exists scope, In scope ["patient/Observation.read"]
                      /\ begins_with "user/" scope).
Proof.
  split; [reflexivity|]; split; [|split; [reflexivity|]].
  - eexists; split; [reflexivity | discriminate].
  - intros [scope [[<-|[]] [rest H]]]; discriminate.
Qed.

(* ================================================================== *)
(** ** Parsing references: [getFhirUser] and [getFhirResource] *)

Lemma sapp_assoc (a b c : string) : (a ++ b) ++ c = a ++ b ++ c.
Proof. induction a as [|x a IH]; simpl; [reflexivity | now rewrite IH]. Qed.

Lemma split_on_not_nil (c : ascii) (s : string) : split_on c s <> [].
Proof.
  destruct s as [|a s]; simpl; [discriminate|].
  destruct (Ascii.eqb a c); [discriminate|].
  destruct (split_on c s); discriminate.
Qed.

Lemma split_on_app (c : ascii) (a b : string) :
  split_on c (a ++ String c b) = (split_on c a ++ split_on c b)%list.
Proof.
  induction a as [|x a IH]; simpl.
  - rewrite Ascii.eqb_refl; reflexivity.
  - destruct (Ascii.eqb x c); [now rewrite IH|].
    rewrite IH.
    destruct (split_on c a) as [|w ws] eqn:E; [|reflexivity].
    exfalso; exact (split_on_not_nil _ _ E).
Qed.

Lemma split_on_no_sep (c : ascii) (s : string) :
  string_forall (fun x => negb (Ascii.eqb x c)) s = true -> split_on c s = [s].
Proof.
  induction s as [|x s IH]; simpl; [reflexivity|].
  intros H; apply andb_true_iff in H; destruct H as [Hx Hs].
  apply negb_true_iff in Hx; rewrite Hx, (IH Hs); reflexivity.
Qed.

Lemma join_fold (sep a b : string) (l : list string) :
  fold_left (fun acc y => acc ++ sep ++ y) l (a ++ b)
  = a ++ fold_left (fun acc y => acc ++ sep ++ y) l b.
Proof.
  revert b; induction l as [|y l IH]; intros b; simpl; [reflexivity|].
  rewrite sapp_assoc; apply IH.
Qed.

Lemma join_with_cons (sep x y : string) (l : list string) :
  join_with sep (x :: y :: l) = x ++ sep ++ join_with sep (y :: l).
Proof.
  unfold join_with; simpl.
  rewrite join_fold; f_equal; apply join_fold.
Qed.

Lemma join_with_String (sep : string) (a : ascii) (w : string) (ws : list string) :
  join_with sep (String a w :: ws) = String a (join_with sep (w :: ws)).
Proof.
  unfold join_with.
  change (String a w) with (String a "" ++ w); rewrite join_fold; reflexivity.
Qed.

Lemma join_with_snoc (sep x : string) (l : list string) :
  l <> [] -> join_with sep (l ++ [x]) = join_with sep l ++ sep ++ x.
Proof.
  destruct l as [|y l]; [contradiction|intros _].
  unfold join_with; simpl; rewrite fold_left_app; reflexivity.
Qed.

(** Splitting at a character and joining with it gives the string back. *)
Lemma join_split (c : ascii) (s : string) :
  join_with (String c "") (split_on c s) = s.
Proof.
  induction s as [|a s IH]; simpl; [reflexivity|].
  destruct (Ascii.eqb a c) eqn:E.
  - apply Ascii.eqb_eq in E; subst a.
    destruct (split_on c s) as [|w ws] eqn:Es; [exfalso; exact (split_on_not_nil _ _ Es)|].
    rewrite join_with_cons, IH; reflexivity.
  - destruct (split_on c s) as [|w ws] eqn:Es; [exfalso; exact (split_on_not_nil _ _ Es)|].
    rewrite join_with_String, IH; reflexivity.
Qed.

Lemma split_reference_absolute (h t i : string) :
  no_slash t = true -> no_slash i = true ->
  split_reference (h ++ "/" ++ t ++ "/" ++ i) = Some (Some h, t, i).
Proof.
  intros Ht Hi; unfold split_reference.
  change (h ++ "/" ++ t ++ "/" ++ i) with (h ++ String slash (t ++ String slash i)).
  rewrite !split_on_app, (split_on_no_sep _ _ Ht), (split_on_no_sep _ _ Hi).
  rewrite !rev_app_distr; simpl.
  destruct (rev (split_on slash h)) as [|b bs] eqn:E.
  - exfalso; apply (split_on_not_nil slash h).
    rewrite <- (rev_involutive (split_on slash h)), E; reflexivity.
  - rewrite <- E, rev_involutive.
    change "/" with (String slash ""); rewrite join_split; reflexivity.
Qed.

Lemma split_reference_relative (t i : string) :
  no_slash t = true -> no_slash i = true ->
  split_reference (t ++ "/" ++ i) = Some (None, t, i).
Proof.
  intros Ht Hi; unfold split_reference.
  change (t ++ "/" ++ i) with (t ++ String slash i).
  rewrite split_on_app, (split_on_no_sep _ _ Ht), (split_on_no_sep _ _ Hi).
  reflexivity.
Qed.

Lemma split_reference_inv (s : string) (h : option string) (t i : string) :
  split_reference s = Some (h, t, i) ->
  s = match h with
      | Some h' => h' ++ "/" ++ t ++ "/" ++ i
      | None => t ++ "/" ++ i
      end.
Proof.
  unfold split_reference; intros H.
  assert (Hs : split_on slash s = rev (rev (split_on slash s)))
    by (symmetry; apply rev_involutive).
  destruct (rev (split_on slash s)) as [|i' [|t' before]] eqn:E; try discriminate.
  rewrite <- (join_split slash s), Hs; simpl.
  destruct before as [|b bs]; injection H as <- <- <-.
  - reflexivity.
  - set (front := rev (b :: bs)).
    assert (Hfront : front <> [])
      by (unfold front; simpl; intros Hnil; apply app_eq_nil in Hnil;
          destruct Hnil; discriminate).
    change (rev (b :: bs)) with front.
    change (String slash "") with "/".
    rewrite <- app_assoc.
    change ([t'] ++ [i'])%list with ([t'; i'])%list.
    replace (front ++ [t'; i'])%list with ((front ++ [t']) ++ [i'])%list
      by (rewrite <- app_assoc; reflexivity).
    rewrite join_with_snoc by (intros Hnil; apply app_eq_nil in Hnil;
                               destruct Hnil; discriminate).
    rewrite (join_with_snoc _ _ Hfront), !sapp_assoc; reflexivity.
Qed.

Lemma string_forall_impl (p q : ascii -> bool) (s : string) :
  (forall c, p c = true -> q c = true) ->
  string_forall p s = true -> string_forall q s = true.
Proof.
  intros Hpq; induction s as [|c s IH]; simpl; [reflexivity|].
  intros H; apply andb_true_iff in H; destruct H as [Hc Hs].
  rewrite (Hpq _ Hc), (IH Hs); reflexivity.
Qed.

Lemma class_excludes_slash (p : ascii -> bool) :
  p slash = false -> forall c, p c = true -> negb (Ascii.eqb c slash) = true.
Proof.
  intros Hp c Hc; apply negb_true_iff.
  destruct (Ascii.eqb c slash) eqn:E; [|reflexivity].
  apply Ascii.eqb_eq in E; subst c; congruence.
Qed.

Lemma id_no_slash (i : string) : some_chars is_id_char i = true -> no_slash i = true.
Proof.
  unfold some_chars, no_slash; intros H; apply andb_true_iff in H; destruct H as [_ H].
  revert H; apply string_forall_impl, class_excludes_slash; reflexivity.
Qed.

Lemma resource_type_no_slash (t : string) :
  is_resource_type t = true -> no_slash t = true.
Proof.
  destruct t as [|c t]; simpl; [discriminate|].
  intros H; apply andb_true_iff in H; destruct H as [Hc H].
  unfold some_chars in H; apply andb_true_iff in H; destruct H as [_ H].
  unfold no_slash; simpl; apply andb_true_iff; split.
  - revert Hc; apply class_excludes_slash; reflexivity.
  - revert H; apply string_forall_impl, class_excludes_slash; reflexivity.
Qed.

Lemma user_type_cases (t : string) :
  is_user_type t = true ->
  t = "Person" \/ t = "Practitioner" \/ t = "RelatedPerson" \/ t = "Patient".
Proof.
  unfold is_user_type; simpl; intros H.
  repeat (apply orb_true_iff in H; destruct H as [H|H];
          [apply String.eqb_eq in H; auto|]).
  discriminate.
Qed.

Lemma user_type_is_resource_type (t : string) :
  is_user_type t = true -> is_resource_type t = true.
Proof.
  intros H; destruct (user_type_cases _ H) as [->|[->|[->| ->]]]; reflexivity.
Qed.

Lemma match_FHIR_USER_REGEX_iff (s : string) (r : FhirResource) :
  match_FHIR_USER_REGEX s = Some r <-> s = absolute_ref r /\ user_reference r.
Proof.
  unfold match_FHIR_USER_REGEX, user_reference, absolute_ref; split.
  - intros H.
    destruct (split_reference s) as [[[[h|] t] i]|] eqn:Es; try discriminate.
    destruct (match_hostname h && is_user_type t && some_chars is_id_char i) eqn:Ec;
      [|discriminate].
    injection H as <-; simpl.
    apply andb_true_iff in Ec; destruct Ec as [Ec Hi].
    apply andb_true_iff in Ec; destruct Ec as [Hh Ht].
    split; [exact (split_reference_inv _ Es) | auto].
  - intros [-> [Hh [Ht Hi]]].
    rewrite split_reference_absolute;
      [| apply resource_type_no_slash, user_type_is_resource_type, Ht
       | apply id_no_slash, Hi].
    rewrite Hh, Ht, Hi; destruct r; reflexivity.
Qed.

(** [getFhirUser] accepts exactly the strings [hostname/Type/id] with a
    hostname [http(s)://...], one of the four person-like types and an id,
    and returns those three parts: formatting the result gives the string
    back, and parsing a formatted identity gives the identity back. *)
Theorem getFhirUser_round_trip (s : string) (r : FhirResource) :
  getFhirUser (JStr s) = Ok r <-> s = absolute_ref r /\ user_reference r.
Proof.
  rewrite <- match_FHIR_USER_REGEX_iff; unfold getFhirUser.
  destruct (match_FHIR_USER_REGEX s) as [r'|]; split; intros H;
    try discriminate; congruence.
Qed.

Lemma match_FHIR_RESOURCE_REGEX_iff (s : string) (h : option string) (t i : string) :
  match_FHIR_RESOURCE_REGEX s = Some (h, t, i) <->
  s = match h with
      | Some h' => h' ++ "/" ++ t ++ "/" ++ i
      | None => t ++ "/" ++ i
      end
  /\ match h with Some h' => match_hostname h' = true | None => True end
  /\ is_resource_type t = true
  /\ some_chars is_id_char i = true.
Proof.
  unfold match_FHIR_RESOURCE_REGEX; split.
  - intros H.
    destruct (split_reference s) as [[[h0 t0] i0]|] eqn:Es; [|discriminate].
    destruct (match h0 with Some h' => match_hostname h' | None => true end
              && is_resource_type t0 && some_chars is_id_char i0) eqn:Ec;
      [|discriminate].
    injection H as <- <- <-.
    apply andb_true_iff in Ec; destruct Ec as [Ec Hi].
    apply andb_true_iff in Ec; destruct Ec as [Hh Ht].
    split; [exact (split_reference_inv _ Es)|].
    split; [destruct h0; [exact Hh | exact I] | auto].
  - intros [-> [Hh [Ht Hi]]].
    destruct h as [h'|].
    + rewrite split_reference_absolute;
        [| apply resource_type_no_slash, Ht | apply id_no_slash, Hi].
      rewrite Hh, Ht, Hi; reflexivity.
    + rewrite split_reference_relative;
        [| apply resource_type_no_slash, Ht | apply id_no_slash, Hi].
      rewrite Ht, Hi; reflexivity.
Qed.

(** [getFhirResource] accepts exactly the relative references [Type/id],
    which get the default hostname, and the absolute references
    [hostname/Type/id], which keep their own; the type is any capitalized
    word of two letters or more. *)
Theorem getFhirResource_round_trip (s defaultHostname : string) (r : FhirResource) :
  getFhirResource (JStr s) defaultHostname = Ok r <->
  (s = relative_ref r
   /\ hostname r = defaultHostname
   /\ is_resource_type (resourceType r) = true
   /\ some_chars is_id_char (id r) = true)
  \/ (s = absolute_ref r /\ resource_reference r).
Proof.
  unfold getFhirResource, relative_ref, absolute_ref, resource_reference; split.
  - intros H.
    destruct (match_FHIR_RESOURCE_REGEX s) as [[[h t] i]|] eqn:Em; [|discriminate].
    apply match_FHIR_RESOURCE_REGEX_iff in Em; destruct Em as [Hs [Hh [Ht Hi]]].
    injection H as <-; simpl.
    destruct h as [h'|]; [right | left]; auto.
  - intros [[-> [Hd [Ht Hi]]] | [-> [Hh [Ht Hi]]]].
    + assert (Hm : match_FHIR_RESOURCE_REGEX (resourceType r ++ "/" ++ id r)
                   = Some (None, resourceType r, id r))
        by (apply match_FHIR_RESOURCE_REGEX_iff; auto).
      rewrite Hm; subst; destruct r; reflexivity.
    + assert (Hm : match_FHIR_RESOURCE_REGEX
                     (hostname r ++ "/" ++ resourceType r ++ "/" ++ id r)
                   = Some (Some (hostname r), resourceType r, id r))
        by (apply match_FHIR_RESOURCE_REGEX_iff; auto).
      rewrite Hm; destruct r; reflexivity.
Qed.

(** Whatever [getFhirUser] accepts, [getFhirResource] accepts with the same
    result, whatever the default hostname: the caller grammar is the
    resource grammar with the hostname made mandatory and the type
    restricted. *)
Theorem getFhirUser_then_getFhirResource
    (value : JsVal) (defaultHostname : string) (r : FhirResource) :
  getFhirUser value = Ok r -> getFhirResource value defaultHostname = Ok r.
Proof.
  destruct value as [| | | | |s| |]; try discriminate; unfold getFhirUser; intros H.
  destruct (match_FHIR_USER_REGEX s) as [r'|] eqn:Em; [|discriminate].
  injection H as ->.
  apply match_FHIR_USER_REGEX_iff in Em; destruct Em as [Hs [Hh [Ht Hi]]].
  assert (Hm : match_FHIR_RESOURCE_REGEX s
               = Some (Some (hostname r), resourceType r, id r)).
  { apply match_FHIR_RESOURCE_REGEX_iff.
    split; [exact Hs|]; split; [exact Hh|]; split;
      [apply user_type_is_resource_type, Ht | exact Hi]. }
  unfold getFhirResource; rewrite Hm; destruct r; reflexivity.
Qed.

Lemma getFhirUser_then_getFhirResource_witness :
  getFhirUser (JStr "https://api.example.com/Practitioner/9") = Ok practitioner_9
  /\ getFhirResource (JStr "https://api.example.com/Practitioner/9")
       "https://other.example.org" = Ok practitioner_9.
Proof.
  assert (H : getFhirUser (JStr "https://api.example.com/Practitioner/9")
              = Ok practitioner_9) by reflexivity.
  split; [exact H|].
  exact (@getFhirUser_then_getFhirResource
           (JStr "https://api.example.com/Practitioner/9")
           "https://other.example.org" practitioner_9 H).
Defined.

(* ================================================================== *)
(** ** The access decision, channel by channel *)






(** The system-scope test compares prefixes, so a system scope for a type
    whose name begins with the name of another type counts for that other
    type too, whatever follows it. *)
Theorem hasSystemAccess_longer_type_name
    (usable : list string) (t longer rest : string) :
  begins_with t longer ->
  In ("system/" ++ longer ++ rest) usable ->
  hasSystemAccess usable t = true.
Proof.
  intros [tail ->] Hin; apply hasSystemAccess_spec.
  exists ("system/" ++ (t ++ tail) ++ rest); split; [exact Hin|].
  right; exists (tail ++ rest); simpl; f_equal; f_equal; f_equal; f_equal;
    f_equal; f_equal; f_equal.
  rewrite !sapp_assoc; reflexivity.
Qed.

Lemma hasSystemAccess_longer_type_name_witness :
  (begins_with "Medication" "MedicationRequest"
   /\ In ("system/" ++ "MedicationRequest" ++ ".read") ["system/MedicationRequest.read"])
  /\ hasSystemAccess ["system/MedicationRequest.read"] "Medication" = true.
Proof.
  assert (H1 : begins_with "Medication" "MedicationRequest")
    by (exists "Request"; reflexivity).
  assert (H2 : In ("system/" ++ "MedicationRequest" ++ ".read")
                  ["system/MedicationRequest.read"])
    by (left; reflexivity).
  split; [split; assumption|].
  exact (@hasSystemAccess_longer_type_name ["system/MedicationRequest.read"]
           "Medication" "MedicationRequest" ".read" H1 H2).
Defined.



(** When [hasReferenceToResource] returns true, either the requestor is on
    this server and is the resource itself, or the resource holds, on a
    path of the matrix, a reference in one of the accepted forms: only the
    absolute form for a requestor from another server, the relative or the
    absolute form for one from this server. *)
Theorem hasReferenceToResource_sound
    (m4 m3 : ReferenceMatrix) (requestor : FhirResource) (source : JsVal)
    (serverUrl fhirVersion : string) :
  hasReferenceToResource m4 m3 requestor source serverUrl fhirVersion = Ok true ->
  (hostname requestor = serverUrl /\ is_itself requestor source)
  \/ (supported fhirVersion
      /\ exists path,
           In path (matrix_entry (matrix_for m4 m3 fhirVersion) source
                      (resourceType requestor))
           /\ path_matches (candidate_forms requestor serverUrl) source path).
Proof.
  unfold hasReferenceToResource, candidate_forms, is_itself.
  destruct (String.eqb (hostname requestor) serverUrl) eqn:Eh; simpl.
  - intros H; apply bind_Ok_inv in H; destruct H as [[|] [Hsame H]].
    + left; split; [apply String.eqb_eq; exact Eh|].
      apply is_same_resource_true; exact Hsame.
    + right; apply isRequestorReferenced_true_inv; exact H.
  - intros H; right; apply isRequestorReferenced_true_inv; exact H.
Qed.

Lemma hasReferenceToResource_sound_witness :
  hasReferenceToResource example_matrix example_matrix patient_1
    appointment_of_patient_1 example_api "4.0.1" = Ok true
  /\ ((hostname patient_1 = example_api
       /\ is_itself patient_1 appointment_of_patient_1)
      \/ (supported "4.0.1"
          /\ exists path,
               In path (matrix_entry (matrix_for example_matrix example_matrix "4.0.1")
                          appointment_of_patient_1 (resourceType patient_1))
               /\ path_matches (candidate_forms patient_1 example_api)
                    appointment_of_patient_1 path)).
Proof.
  assert (H : hasReferenceToResource example_matrix example_matrix patient_1
                appointment_of_patient_1 example_api "4.0.1" = Ok true)
    by reflexivity.
  split; [exact H|].
  exact (@hasReferenceToResource_sound example_matrix example_matrix patient_1
           appointment_of_patient_1 example_api "4.0.1" H).
Defined.



(* ================================================================== *)
(** ** The token verifiers *)

Lemma get_prop_cases (v : JsVal) (k : string) :
  (get_prop v k = Err TypeError /\ field v k = JUndefined)
  \/ get_prop v k = Ok (field v k).
Proof. destruct v; simpl; auto. Qed.


Lemma decodeJwtToken_errors
    (jwt_decode : string -> result (option DecodedJwt)) (token : string)
    (expectedAud : Audience) (expectedIss : string) (e : JsError) :
  decodeJwtToken jwt_decode token expectedAud expectedIss = Err e ->
  e = UnauthorizedError "Invalid access token" \/ e = TypeError
  \/ jwt_decode token = Err e.
Proof.
  unfold decodeJwtToken.
  destruct (jwt_decode token) as [[d|]|e0]; simpl;
    [| intros H; injection H as <-; auto | intros H; injection H as <-; auto].
  destruct (nullish (payload d)) eqn:En.
  { rewrite !(nullish_get_prop _ _ En); simpl; intros H; injection H as <-; auto. }
  rewrite !(get_prop_defined _ _ En); simpl.
  destruct (negb (strict_eq_str expectedIss _)); [intros H; injection H as <-; auto|].
  destruct (field (payload d) "aud") as [| |b|z| |s|items|fields]; simpl;
    try (destruct b); try (destruct (negb (z =? 0)%Z)); try (destruct (negb (s =? "")));
    simpl;
    try (destruct (negb _));
    intros H; try discriminate; injection H as <-; auto.
Qed.

(** [verifyJwtToken] returns a payload exactly when the token passes
    [decodeJwtToken], its header has a [kid], the key server gives a key
    for that [kid] and the signature check with that key succeeds; the
    payload is the one the signature check returns, and the two external
    calls were made in that order. *)
Theorem verifyJwtToken_succeeds
    (jwt_decode : string -> result (option DecodedJwt))
    (getSigningKeyAsync : JsVal -> result string)
    (jwt_verify : string -> string -> Audience -> string -> result JwtPayload)
    (token : string) (expectedAud : Audience) (expectedIss : string)
    (log log' : list ExternalCall) (verified : JwtPayload) :
  verifyJwtToken jwt_decode getSigningKeyAsync jwt_verify token expectedAud expectedIss log
  = (Ok verified, log') <->
  exists decoded kid key,
    decodeJwtToken jwt_decode token expectedAud expectedIss = Ok decoded
    /\ get_prop (header decoded) "kid" = Ok kid
    /\ truthy kid = true
    /\ getSigningKeyAsync kid = Ok key
    /\ jwt_verify token key expectedAud expectedIss = Ok verified
    /\ log' = (log ++ [GetSigningKey kid; VerifySignature token key])%list.
Proof.
  unfold verifyJwtToken, bindIO, lift, try_catch, external, throw.
  destruct (decodeJwtToken jwt_decode token expectedAud expectedIss) as [d|e];
    [|split; [discriminate | intros [d [kid [key [H _]]]]; discriminate]].
  destruct (get_prop (header d) "kid") as [kid|e] eqn:Ekid;
    [|split; [discriminate
             | intros [d' [kid [key [Hd [Hk _]]]]]; injection Hd as <-; congruence]].
  destruct (truthy kid) eqn:Et; simpl.
  - destruct (getSigningKeyAsync kid) as [key|e] eqn:Ekey.
    + destruct (jwt_verify token key expectedAud expectedIss) as [p|e] eqn:Ev.
      * split.
        -- intros H; injection H as <- <-.
           exists d, kid, key; repeat split; try assumption.
           rewrite <- app_assoc; reflexivity.
        -- intros [d' [kid' [key' [Hd [Hk [_ [Hkey [Hv ->]]]]]]]].
           injection Hd as <-; rewrite Ekid in Hk; injection Hk as <-.
           rewrite Ekey in Hkey; injection Hkey as <-.
           rewrite Ev in Hv; injection Hv as <-.
           rewrite <- app_assoc; reflexivity.
      * split; [discriminate|].
        intros [d' [kid' [key' [Hd [Hk [_ [Hkey [Hv _]]]]]]]].
        injection Hd as <-; rewrite Ekid in Hk; injection Hk as <-.
        rewrite Ekey in Hkey; injection Hkey as <-; congruence.
    + split; [discriminate|].
      intros [d' [kid' [key' [Hd [Hk [_ [Hkey _]]]]]]].
      injection Hd as <-; rewrite Ekid in Hk; injection Hk as <-; congruence.
  - split; [discriminate|].
    intros [d' [kid' [key' [Hd [Hk [Htruthy _]]]]]].
    injection Hd as <-; rewrite Ekid in Hk; injection Hk as <-; congruence.
Qed.

(** [introspectJwtToken] returns a payload exactly when the token passes
    [decodeJwtToken] and the one POST to the introspection endpoint, with
    the token as form body and the client's Basic credentials, answers with
    a truthy [data.active]; the payload is the decoded one, not anything
    the endpoint sent. *)
Theorem introspectJwtToken_succeeds
    (jwt_decode : string -> result (option DecodedJwt))
    (axios_post : string -> string -> string -> result JsVal)
    (base64 : string -> string)
    (token : string) (expectedAud : Audience) (expectedIss : string)
    (options : IntrospectionOptions)
    (log log' : list ExternalCall) (verified : JsVal) :
  let url := introspectUrl options in
  let body := "token=" ++ token in
  let auth := "Basic " ++ base64 (clientId options ++ ":" ++ clientSecret options) in
  introspectJwtToken jwt_decode axios_post base64 token expectedAud expectedIss
    options log = (Ok verified, log') <->
  exists decoded response,
    decodeJwtToken jwt_decode token expectedAud expectedIss = Ok decoded
    /\ verified = payload decoded
    /\ axios_post url body auth = Ok response
    /\ truthy (field (field response "data") "active") = true
    /\ log' = (log ++ [PostIntrospection url body auth])%list.
Proof.
  intros url body auth.
  unfold introspectJwtToken, bindIO, lift, try_catch, external, throw, ret.
  fold url; fold body; fold auth.
  destruct (decodeJwtToken jwt_decode token expectedAud expectedIss) as [d|e];
    [|split; [discriminate | intros [d [r [H _]]]; discriminate]].
  destruct (axios_post url body auth) as [response|e] eqn:Epost;
    [|split; [discriminate
             | intros [d' [r [Hd [_ [Hr _]]]]]; discriminate]].
  destruct (get_prop_cases response "data") as [[Hdata Hf] | Hdata]; rewrite Hdata.
  { split; [discriminate|].
    intros [d' [r [_ [_ [Hr [Hact _]]]]]]; injection Hr as <-.
    rewrite Hf in Hact; discriminate. }
  destruct (get_prop_cases (field response "data") "active") as [[Hact Hf] | Hact];
    rewrite Hact.
  { split; [discriminate|].
    intros [d' [r [_ [_ [Hr [Ha _]]]]]]; injection Hr as <-.
    rewrite Hf in Ha; discriminate. }
  destruct (truthy (field (field response "data") "active")) eqn:Et; simpl.
  - split.
    + intros H; injection H as <- <-.
      exists d, response; repeat split; assumption.
    + intros [d' [r [Hd [-> [_ [_ ->]]]]]]; injection Hd as <-; reflexivity.
  - split; [discriminate|].
    intros [d' [r [_ [_ [Hr [Ha _]]]]]]; injection Hr as <-; congruence.
Qed.

(** Nothing the key server, the signature check or the introspection
    endpoint throws reaches the caller of a verifier: an error of
    [verifyJwtToken] or of [introspectJwtToken] is the one Invalid access
    token denial, or it was raised before any external call, by the decoder
    itself or as a [TypeError] while reading the decoded token. *)
Theorem verifier_errors_are_opaque
    (jwt_decode : string -> result (option DecodedJwt))
    (getSigningKeyAsync : JsVal -> result string)
    (jwt_verify : string -> string -> Audience -> string -> result JwtPayload)
    (axios_post : string -> string -> string -> result JsVal)
    (base64 : string -> string)
    (token : string) (expectedAud : Audience) (expectedIss : string)
    (options : IntrospectionOptions)
    (log log' : list ExternalCall) (e : JsError) :
  verifyJwtToken jwt_decode getSigningKeyAsync jwt_verify token expectedAud expectedIss log
  = (Err e, log')
  \/ introspectJwtToken jwt_decode axios_post base64 token expectedAud expectedIss
       options log = (Err e, log') ->
  e = UnauthorizedError "Invalid access token"
  \/ (log' = log /\ (e = TypeError \/ jwt_decode token = Err e)).
Proof.
  unfold verifyJwtToken, introspectJwtToken, bindIO, lift, try_catch, external, throw, ret.
  destruct (decodeJwtToken jwt_decode token expectedAud expectedIss) as [d|e0] eqn:Ed.
  - intros [H|H].
    + destruct (get_prop (header d) "kid") as [kid|e1] eqn:Ekid.
      * destruct (negb (truthy kid)); [injection H as <- _; auto|].
        destruct (getSigningKeyAsync kid) as [key|e2];
          [|injection H as <- _; auto].
        destruct (jwt_verify token key expectedAud expectedIss);
          [discriminate | injection H as <- _; auto].
      * injection H as <- <-; right; split; [reflexivity|]; left.
        destruct (header d); simpl in Ekid; congruence.
    + destruct (axios_post _ _ _) as [response|e1]; [|injection H as <- _; auto].
      destruct (get_prop response "data") as [data|e2]; [|injection H as <- _; auto].
      destruct (get_prop data "active") as [active|e3]; [|injection H as <- _; auto].
      destruct (negb (truthy active)); [injection H as <- _; auto | discriminate].
  - intros [H|H]; injection H as <- <-;
      destruct (decodeJwtToken_errors _ _ _ _ Ed) as [->|[->|He]]; auto.
Qed.

Lemma verifier_errors_are_opaque_witness :
  verifyJwtToken example_jwt_decode (fun _ => Err (PlainError "connect ECONNREFUSED"))
    example_jwt_verify "token-launch" (AudString example_api) example_issuer []
  = (Err (UnauthorizedError "Invalid access token"), [GetSigningKey (JStr "key-1")])
  /\ (UnauthorizedError "Invalid access token" = UnauthorizedError "Invalid access token"
      \/ ([GetSigningKey (JStr "key-1")] = []
          /\ (UnauthorizedError "Invalid access token" = TypeError
              \/ example_jwt_decode "token-launch"
                 = Err (UnauthorizedError "Invalid access token")))).
Proof.
  assert (H : verifyJwtToken example_jwt_decode
                (fun _ => Err (PlainError "connect ECONNREFUSED"))
                example_jwt_verify "token-launch" (AudString example_api)
                example_issuer []
              = (Err (UnauthorizedError "Invalid access token"),
                 [GetSigningKey (JStr "key-1")]))
    by reflexivity.
  split; [exact H|].
  exact (@verifier_errors_are_opaque example_jwt_decode
           (fun _ => Err (PlainError "connect ECONNREFUSED"))
           example_jwt_verify example_axios_post example_base64
           "token-launch" (AudString example_api) example_issuer
           example_introspection [] _ _ (or_introl H)).
Defined.

Example verifiers_on_broken_payload :
  verifyJwtToken example_jwt_decode example_getSigningKeyAsync example_jwt_verify
    broken_payload_token (AudString example_api) example_issuer []
  = (Err (SyntaxError "Unexpected end of JSON input"), [])
  /\ introspectJwtToken example_jwt_decode example_axios_post example_base64
       broken_payload_token (AudString example_api) example_issuer
       example_introspection []
     = (Err (SyntaxError "Unexpected end of JSON input"), []).
Proof. split; reflexivity. Qed.

(* ================================================================== *)
(** ** [verifyAccessToken]: what the identity holds *)

Lemma lookup_field_set_field_same (k : string) (v : JsVal)
    (fields : list (string * JsVal)) :
  lookup_field k (set_field k v fields) = v.
Proof.
  induction fields as [|[k0 v0] rest IH]; simpl.
  - rewrite String.eqb_refl; reflexivity.
  - destruct (String.eqb k k0) eqn:E; simpl; rewrite E; [reflexivity | exact IH].
Qed.

Lemma set_prop_field_same (o o' : JsVal) (k : string) (v : JsVal) :
  set_prop o k v = Ok o' -> field o' k = v.
Proof.
  destruct o; simpl; intros H; try discriminate.
  injection H as <-; simpl; apply lookup_field_set_field_same.
Qed.

Lemma begins_with_existsb (p : string) (l : list string) :
  (exists scope, In scope l /\ begins_with p scope) ->
  existsb (fun scope => startsWith scope p) l = true.
Proof.
  intros [scope [Hin H]]; apply existsb_exists; exists scope; split; [exact Hin|].
  apply startsWith_begins_with; exact H.
Qed.

Lemma identityOfToken_inv
    (getScopes : JsVal -> list string)
    (filterOutUnusableScope :
       list string -> JsVal -> string -> bool -> option string ->
       JsVal -> JsVal -> JsVal -> list string)
    (h : SMARTHandler) (request : VerifyRequest.t)
    (decodedToken identity : JsVal) :
  nullish decodedToken = false ->
  identityOfToken getScopes filterOutUnusableScope h request decodedToken
  = Ok identity ->
  let scopeClaim := field decodedToken (scopeKey (config h)) in
  let usable :=
    usableScopesOf getScopes filterOutUnusableScope h request decodedToken scopeClaim in
  let baseUrl := nullish_or (VerifyRequest.fhirServiceBaseUrl request) (apiUrl h) in
  (truthy (VerifyRequest.bulkDataAuth request) = true ->
   checkBulkDataAuth h decodedToken (claimOfUser h decodedToken) usable baseUrl = Ok tt)
  /\ exists u1 u2 u3,
       (if truthy (claimOfUser h decodedToken)
           && existsb (fun scope => startsWith scope "user/") usable
        then fhirUser <- getFhirUser (claimOfUser h decodedToken) ;;
             set_prop decodedToken "fhirUserObject" (json_of_FhirResource fhirUser)
        else Ok decodedToken) = Ok u1
       /\ (if truthy (claimOfPatient h decodedToken)
              && existsb (fun scope => startsWith scope "patient/") usable
           then patient <- getFhirResource (claimOfPatient h decodedToken) baseUrl ;;
                set_prop u1 "patientLaunchContext" (json_of_FhirResource patient)
           else Ok u1) = Ok u2
       /\ set_prop u2 "scopes" (JArr (map JStr (getScopes scopeClaim))) = Ok u3
       /\ set_prop u3 "usableScopes" (JArr (map JStr usable)) = Ok identity.
Proof.
  intros Hnn Hid scopeClaim usable baseUrl; unfold identityOfToken in Hid.
  rewrite (get_prop_defined _ _ Hnn) in Hid; simpl in Hid.
  fold scopeClaim in Hid; fold usable in Hid; fold baseUrl in Hid.
  destruct usable as [|s0 rest] eqn:Eusable; [discriminate|].
  apply bind_Ok_inv in Hid; destruct Hid as [[] [Hbulk Hid]].
  apply bind_Ok_inv in Hid; destruct Hid as [u1 [H1 Hid]].
  apply bind_Ok_inv in Hid; destruct Hid as [u2 [H2 Hid]].
  apply bind_Ok_inv in Hid; destruct Hid as [u3 [H3 H4]].
  split.
  - intros Hb; rewrite Hb in Hbulk; exact Hbulk.
  - exists u1, u2, u3; auto.
Qed.

(** A bulk-data request that [verifyAccessToken] lets through has a token
    with a [sub] claim, and either a usable scope that begins with
    [system], or a fhirUser claim that parses to an identity on the
    request's server whose type is one of the bulk-data types. *)
Theorem verifyAccessToken_bulk_data
    (jwt_decode : string -> result (option DecodedJwt))
    (getSigningKeyAsync : JsVal -> result string)
    (jwt_verify : string -> string -> Audience -> string -> result JwtPayload)
    (axios_post : string -> string -> string -> result JsVal)
    (base64 : string -> string)
    (getScopes : JsVal -> list string)
    (filterOutUnusableScope :
       list string -> JsVal -> string -> bool -> option string ->
       JsVal -> JsVal -> JsVal -> list string)
    (h : SMARTHandler) (request : VerifyRequest.t)
    (log log' : list ExternalCall) (verified identity : JsVal) :
  verifyToken jwt_decode getSigningKeyAsync jwt_verify axios_post base64
    h request log = (Ok verified, log') ->
  truthy (VerifyRequest.bulkDataAuth request) = true ->
  verifyAccessToken jwt_decode getSigningKeyAsync jwt_verify axios_post base64
    getScopes filterOutUnusableScope h request log = (Ok identity, log') ->
  let decodedToken := verified in
  let usable :=
    usableScopesOf getScopes filterOutUnusableScope h request decodedToken
      (field decodedToken (scopeKey (config h))) in
  truthy (field decodedToken "sub") = true
  /\ ((exists scope, In scope usable /\ begins_with "system" scope)
      \/ (exists u,
             getFhirUser (claimOfUser h decodedToken) = Ok u
             /\ hostname u
                = nullish_or (VerifyRequest.fhirServiceBaseUrl request) (apiUrl h)
             /\ In (resourceType u) (bulkDataAccessTypes h))).
Proof.
  intros Hverified Hbulk Hid decodedToken usable.
  unfold verifyAccessToken, bindIO, lift in Hid.
  rewrite Hverified in Hid; injection Hid as Hid.
  pose proof (verifyToken_not_nullish _ _ _ _ _ _ _ _ Hverified) as Hnn.
  destruct (@identityOfToken_inv getScopes filterOutUnusableScope h request
              verified identity Hnn Hid)
    as [Hcheck _].
  specialize (Hcheck Hbulk); fold decodedToken in Hcheck; fold usable in Hcheck.
  unfold checkBulkDataAuth in Hcheck.
  rewrite (get_prop_defined _ _ Hnn) in Hcheck.
  fold decodedToken in Hcheck; simpl in Hcheck.
  destruct (truthy (field decodedToken "sub")); simpl in Hcheck; [|discriminate].
  split; [reflexivity|].
  destruct (existsb (fun scope => startsWith scope "system") usable) eqn:Esys;
    simpl in Hcheck.
  - left; apply existsb_startsWith; exact Esys.
  - right.
    destruct (getFhirUser (claimOfUser h decodedToken)) as [u|e]; simpl in Hcheck;
      [|discriminate].
    exists u; split; [reflexivity|].
    destruct (String.eqb (hostname u) _) eqn:Eh; simpl in Hcheck; [|discriminate].
    destruct (includes (bulkDataAccessTypes h) (resourceType u)) eqn:Et;
      simpl in Hcheck; [|discriminate].
    split; [apply String.eqb_eq; exact Eh | apply includes_In; exact Et].
Qed.

Lemma verifyAccessToken_bulk_data_witness :
  (verifyToken further_jwt_decode example_getSigningKeyAsync further_jwt_verify
     example_axios_post example_base64 example_handler system_export []
   = (Ok (claims_of claims_of_backend),
      [GetSigningKey (JStr "key-1"); VerifySignature "token-backend" "public-key-1"])
   /\ truthy (VerifyRequest.bulkDataAuth system_export) = true
   /\ verifyAccessToken further_jwt_decode example_getSigningKeyAsync further_jwt_verify
        example_axios_post example_base64 spec_getScopes spec_filterOutUnusableScope
        example_handler system_export []
      = (Ok identity_of_backend,
         [GetSigningKey (JStr "key-1"); VerifySignature "token-backend" "public-key-1"]))
  /\ truthy (field (claims_of claims_of_backend) "sub") = true.
Proof.
  assert (H1 : verifyToken further_jwt_decode example_getSigningKeyAsync
                 further_jwt_verify example_axios_post example_base64
                 example_handler system_export []
               = (Ok (claims_of claims_of_backend),
                  [GetSigningKey (JStr "key-1");
                   VerifySignature "token-backend" "public-key-1"]))
    by reflexivity.
  assert (H2 : truthy (VerifyRequest.bulkDataAuth system_export) = true) by reflexivity.
  assert (H3 : verifyAccessToken further_jwt_decode example_getSigningKeyAsync
                 further_jwt_verify example_axios_post example_base64
                 spec_getScopes spec_filterOutUnusableScope
                 example_handler system_export []
               = (Ok identity_of_backend,
                  [GetSigningKey (JStr "key-1");
                   VerifySignature "token-backend" "public-key-1"]))
    by reflexivity.
  split; [repeat split; assumption|].
  exact (proj1 (@verifyAccessToken_bulk_data further_jwt_decode
                  example_getSigningKeyAsync further_jwt_verify example_axios_post
                  example_base64 spec_getScopes spec_filterOutUnusableScope
                  example_handler system_export [] _ _ _ H1 H2 H3)).
Defined.

(** The identity [verifyAccessToken] returns holds all the scopes of the
    token under [scopes] and the usable ones under [usableScopes]; when the
    fhirUser claim is truthy and a usable scope begins with [user/] it
    holds, under [fhirUserObject], the claim as [getFhirUser] parses it,
    and likewise the patient-context claim as [getFhirResource] parses it
    with the request's server as default hostname; every other claim of the
    token is kept as it was. *)
Theorem verifyAccessToken_identity_content
    (jwt_decode : string -> result (option DecodedJwt))
    (getSigningKeyAsync : JsVal -> result string)
    (jwt_verify : string -> string -> Audience -> string -> result JwtPayload)
    (axios_post : string -> string -> string -> result JsVal)
    (base64 : string -> string)
    (getScopes : JsVal -> list string)
    (filterOutUnusableScope :
       list string -> JsVal -> string -> bool -> option string ->
       JsVal -> JsVal -> JsVal -> list string)
    (h : SMARTHandler) (request : VerifyRequest.t)
    (log log' : list ExternalCall) (verified identity : JsVal) :
  verifyToken jwt_decode getSigningKeyAsync jwt_verify axios_post base64
    h request log = (Ok verified, log') ->
  verifyAccessToken jwt_decode getSigningKeyAsync jwt_verify axios_post base64
    getScopes filterOutUnusableScope h request log = (Ok identity, log') ->
  let decodedToken := verified in
  let scopeClaim := field decodedToken (scopeKey (config h)) in
  let usable :=
    usableScopesOf getScopes filterOutUnusableScope h request decodedToken scopeClaim in
  let baseUrl := nullish_or (VerifyRequest.fhirServiceBaseUrl request) (apiUrl h) in
  field identity "scopes" = JArr (map JStr (getScopes scopeClaim))
  /\ field identity "usableScopes" = JArr (map JStr usable)
  /\ (truthy (claimOfUser h decodedToken) = true ->
      (exists scope, In scope usable /\ begins_with "user/" scope) ->
      exists u, getFhirUser (claimOfUser h decodedToken) = Ok u
                /\ field identity "fhirUserObject" = json_of_FhirResource u)
  /\ (truthy (claimOfPatient h decodedToken) = true ->
      (exists scope, In scope usable /\ begins_with "patient/" scope) ->
      exists p, getFhirResource (claimOfPatient h decodedToken) baseUrl = Ok p
                /\ field identity "patientLaunchContext" = json_of_FhirResource p)
  /\ (forall k,
         ~ In k ["fhirUserObject"; "patientLaunchContext"; "scopes"; "usableScopes"] ->
         field identity k = field decodedToken k).
Proof.
  intros Hverified Hid decodedToken scopeClaim usable baseUrl.
  unfold verifyAccessToken, bindIO, lift in Hid.
  rewrite Hverified in Hid; injection Hid as Hid.
  pose proof (verifyToken_not_nullish _ _ _ _ _ _ _ _ Hverified) as Hnn.
  destruct (@identityOfToken_inv getScopes filterOutUnusableScope h request
              verified identity Hnn Hid)
    as [_ [u1 [u2 [u3 [H1 [H2 [H3 H4]]]]]]].
  fold decodedToken in H1, H2, H3, H4; fold scopeClaim in H1, H2, H3, H4.
  fold usable in H1, H2, H4; fold baseUrl in H2.
  assert (Hu1 : forall k, k <> "fhirUserObject" -> field u1 k = field decodedToken k).
  { intros k Hk.
    destruct (truthy (claimOfUser h decodedToken) && _); [|congruence].
    apply bind_Ok_inv in H1; destruct H1 as [u [_ Hset]].
    eapply set_prop_field_other; eassumption. }
  assert (Hu2 : forall k, k <> "patientLaunchContext" -> field u2 k = field u1 k).
  { intros k Hk.
    destruct (truthy (claimOfPatient h decodedToken) && _); [|congruence].
    apply bind_Ok_inv in H2; destruct H2 as [p [_ Hset]].
    eapply set_prop_field_other; eassumption. }
  split; [|split; [|split; [|split]]].
  - rewrite (set_prop_field_other _ _ H4) by discriminate.
    apply (set_prop_field_same _ _ _ H3).
  - apply (set_prop_field_same _ _ _ H4).
  - intros Hclaim Hscope.
    rewrite Hclaim, (begins_with_existsb _ Hscope) in H1; simpl in H1.
    apply bind_Ok_inv in H1; destruct H1 as [u [Hu Hset]].
    exists u; split; [exact Hu|].
    rewrite (set_prop_field_other _ _ H4), (set_prop_field_other _ _ H3),
      Hu2 by discriminate.
    apply (set_prop_field_same _ _ _ Hset).
  - intros Hclaim Hscope.
    rewrite Hclaim, (begins_with_existsb _ Hscope) in H2; simpl in H2.
    apply bind_Ok_inv in H2; destruct H2 as [p [Hp Hset]].
    exists p; split; [exact Hp|].
    rewrite (set_prop_field_other _ _ H4), (set_prop_field_other _ _ H3)
      by discriminate.
    apply (set_prop_field_same _ _ _ Hset).
  - intros k Hk.
    assert (Hk1 : k <> "fhirUserObject") by (intros ->; apply Hk; simpl; auto).
    assert (Hk2 : k <> "patientLaunchContext") by (intros ->; apply Hk; simpl; auto).
    assert (Hk3 : k <> "scopes") by (intros ->; apply Hk; simpl; auto).
    assert (Hk4 : k <> "usableScopes") by (intros ->; apply Hk; simpl; auto).
    rewrite (set_prop_field_other _ _ H4 Hk4), (set_prop_field_other _ _ H3 Hk3),
      (Hu2 _ Hk2), (Hu1 _ Hk1).
    reflexivity.
Qed.

Lemma verifyAccessToken_identity_content_witness :
  (verifyToken further_jwt_decode example_getSigningKeyAsync further_jwt_verify
     example_axios_post example_base64 example_handler
     (read_observation "token-practitioner") []
   = (Ok (claims_of claims_of_practitioner),
      [GetSigningKey (JStr "key-1");
       VerifySignature "token-practitioner" "public-key-1"])
   /\ verifyAccessToken further_jwt_decode example_getSigningKeyAsync further_jwt_verify
        example_axios_post example_base64 spec_getScopes spec_filterOutUnusableScope
        example_handler (read_observation "token-practitioner") []
      = (Ok identity_of_practitioner,
         [GetSigningKey (JStr "key-1");
          VerifySignature "token-practitioner" "public-key-1"]))
  /\ field identity_of_practitioner "scopes"
     = JArr (map JStr (spec_getScopes
                         (field (claims_of claims_of_practitioner)
                            (scopeKey (config example_handler))))).
Proof.
  assert (H1 : verifyToken further_jwt_decode example_getSigningKeyAsync
                 further_jwt_verify example_axios_post example_base64 example_handler
                 (read_observation "token-practitioner") []
               = (Ok (claims_of claims_of_practitioner),
                  [GetSigningKey (JStr "key-1");
                   VerifySignature "token-practitioner" "public-key-1"]))
    by reflexivity.
  assert (H2 : verifyAccessToken further_jwt_decode example_getSigningKeyAsync
                 further_jwt_verify example_axios_post example_base64
                 spec_getScopes spec_filterOutUnusableScope
                 example_handler (read_observation "token-practitioner") []
               = (Ok identity_of_practitioner,
                  [GetSigningKey (JStr "key-1");
                   VerifySignature "token-practitioner" "public-key-1"]))
    by reflexivity.
  split; [split; assumption|].
  exact (proj1 (@verifyAccessToken_identity_content further_jwt_decode
                  example_getSigningKeyAsync further_jwt_verify example_axios_post
                  example_base64 spec_getScopes spec_filterOutUnusableScope
                  example_handler (read_observation "token-practitioner") [] _ _ _
                  H1 H2)).
Defined.

(** The verifier is chosen by the configuration alone. With token
    introspection configured, a JWKS endpoint is never used: the only
    external call [verifyAccessToken]'s verification can make is the one
    POST to the introspection endpoint. With neither introspection nor a
    non-empty JWKS endpoint configured, every request fails with the
    configuration error, and no call is made. *)
Theorem verifyToken_modes
    (jwt_decode : string -> result (option DecodedJwt))
    (getSigningKeyAsync : JsVal -> result string)
    (jwt_verify : string -> string -> Audience -> string -> result JwtPayload)
    (axios_post : string -> string -> string -> result JsVal)
    (base64 : string -> string)
    (h : SMARTHandler) (request : VerifyRequest.t) (log : list ExternalCall) :
  let outcome :=
    verifyToken jwt_decode getSigningKeyAsync jwt_verify axios_post base64
      h request log in
  (forall options, tokenIntrospection (config h) = Some options ->
     let call :=
       PostIntrospection (introspectUrl options)
         ("token=" ++ VerifyRequest.accessToken request)
         ("Basic " ++ base64 (clientId options ++ ":" ++ clientSecret options)) in
     snd outcome = log \/ snd outcome = (log ++ [call])%list)
  /\ (tokenIntrospection (config h) = None ->
      is_truthy_string (jwksEndpoint (config h)) = false ->
      outcome
      = (Err (PlainError "Authorization configuration not properly set up. Either 'tokenIntrospection' or 'jwksEndpoint' must be present"),
         log)).
Proof.
  intros outcome; unfold outcome, verifyToken; split.
  - intros options Hoptions; rewrite Hoptions; cbv zeta.
    unfold introspectJwtToken, bindIO, lift, try_catch, external, throw, ret.
    destruct (decodeJwtToken _ _ _ _); [|left; reflexivity].
    destruct (axios_post _ _ _) as [response|e]; [|right; reflexivity].
    destruct (get_prop response "data") as [data|e]; [|right; reflexivity].
    destruct (get_prop data "active") as [active|e]; [|right; reflexivity].
    destruct (negb (truthy active)); right; reflexivity.
  - intros Hnone Hjwks.
    unfold jwksClient; rewrite Hnone; unfold is_truthy_string in Hjwks.
    destruct (jwksEndpoint (config h)) as [uri|]; [rewrite Hjwks|]; reflexivity.
Qed.

Lemma verifyToken_modes_witness :
  tokenIntrospection (config introspecting_handler) = Some example_introspection
  /\ snd (verifyToken example_jwt_decode example_getSigningKeyAsync example_jwt_verify
            example_axios_post example_base64 introspecting_handler
            (read_observation "token-launch") [])
     = [PostIntrospection "https://idp.example.com/introspect" "token=token-launch"
          "Basic dXNlcjpwYXNz"].
Proof.
  assert (H : tokenIntrospection (config introspecting_handler)
              = Some example_introspection) by reflexivity.
  split; [exact H|].
  destruct (proj1 (@verifyToken_modes example_jwt_decode example_getSigningKeyAsync
                     example_jwt_verify example_axios_post example_base64
                     introspecting_handler (read_observation "token-launch") [])
              example_introspection H) as [Hnone | Hone].
  - discriminate Hnone.
  - exact Hone.
Defined.

(* ================================================================== *)
(** ** Search filters in general *)

Lemma set_add_In (x y : string) (s : list string) :
  In x (set_add y s) <-> x = y \/ In x s.
Proof.
  unfold set_add; destruct (includes s y) eqn:E.
  - apply includes_In in E; split; [auto | intros [->|H]; assumption].
  - rewrite in_app_iff; simpl; split; intros [H|H]; auto.
    + destruct H as [<-|[]]; auto.
Qed.

Lemma set_add_NoDup (y : string) (s : list string) :
  NoDup s -> NoDup (set_add y s).
Proof.
  intros H; unfold set_add; destruct (includes s y) eqn:E; [exact H|].
  assert (Hnot : ~ In y s)
    by (intros Hin; apply includes_In in Hin; congruence).
  clear E; induction s as [|a s IH]; simpl.
  - constructor; [intros [] | constructor].
  - inversion H as [|? ? Ha Hs]; subst; constructor.
    + rewrite in_app_iff; simpl; intros [Hin | [<- | []]]; [contradiction|].
      apply Hnot; left; reflexivity.
    + apply IH; [exact Hs | intros Hin; apply Hnot; right; exact Hin].
Qed.

Lemma addIdentity_spec (baseUrl : string) (requested : option string)
    (who : FhirResource) (references ids : list string) :
  let sets := addIdentity baseUrl requested who (references, ids) in
  (forall x, In x (fst sets) <->
             x = absolute_ref who
             \/ (hostname who = baseUrl /\ x = relative_ref who)
             \/ In x references)
  /\ (forall x, In x (snd sets) <->
                (requested = Some (resourceType who) /\ resourceType who <> ""
                 /\ x = id who)
                \/ In x ids)
  /\ (NoDup references -> NoDup (fst sets))
  /\ (NoDup ids -> NoDup (snd sets)).
Proof.
  unfold addIdentity; simpl.
  destruct (String.eqb (hostname who) baseUrl) eqn:Eh.
  - apply String.eqb_eq in Eh.
    assert (Hid : is_truthy_string requested
                  && match requested with
                     | Some t => String.eqb t (resourceType who)
                     | None => false
                     end = true
                  <-> requested = Some (resourceType who) /\ resourceType who <> "").
    { destruct requested as [t|]; simpl; [|split; [discriminate | intros [H _]; discriminate]].
      rewrite andb_true_iff, negb_true_iff, String.eqb_eq, String.eqb_neq.
      split; [intros [Hne ->]; auto | intros [H Hne]; injection H as ->; auto]. }
    destruct (is_truthy_string requested && _) eqn:Ec; simpl.
    + destruct (proj1 Hid eq_refl) as [Hreq Hne].
      repeat split; try (intros; repeat apply set_add_NoDup; assumption).
      * rewrite !set_add_In; tauto.
      * rewrite !set_add_In; tauto.
      * rewrite set_add_In; tauto.
      * rewrite set_add_In; tauto.
    + repeat split; try (intros; repeat apply set_add_NoDup; assumption); auto.
      * rewrite !set_add_In; tauto.
      * rewrite !set_add_In; tauto.
      * intros [[Hreq [Hne _]] | H]; [|exact H].
        assert (false = true) by (apply Hid; auto); discriminate.
  - apply String.eqb_neq in Eh.
    assert (Hid : is_truthy_string requested
                  && match requested with
                     | Some t => String.eqb t (resourceType who)
                     | None => false
                     end = true
                  <-> requested = Some (resourceType who) /\ resourceType who <> "").
    { destruct requested as [t|]; simpl; [|split; [discriminate | intros [H _]; discriminate]].
      rewrite andb_true_iff, negb_true_iff, String.eqb_eq, String.eqb_neq.
      split; [intros [Hne ->]; auto | intros [H Hne]; injection H as ->; auto]. }
    destruct (is_truthy_string requested && _) eqn:Ec; simpl.
    + destruct (proj1 Hid eq_refl) as [Hreq Hne].
      repeat split; try (intros; repeat apply set_add_NoDup; assumption).
      * rewrite !set_add_In; tauto.
      * rewrite !set_add_In; tauto.
      * rewrite set_add_In; tauto.
      * rewrite set_add_In; tauto.
    + repeat split; try (intros; repeat apply set_add_NoDup; assumption); auto.
      * rewrite !set_add_In; tauto.
      * rewrite !set_add_In; tauto.
      * intros [[Hreq [Hne _]] | H]; [|exact H].
        assert (false = true) by (apply Hid; auto); discriminate.
Qed.

(** Without a system scope and without an admin fhirUser,
    [getSearchFilterBasedOnIdentity] gives at most two filters, the
    [_references] one before the [id] one, each left out when it would be
    empty and neither with a value twice. The references are, for each
    identity present, its absolute form and, when it is on the request's
    server, its relative form; the ids are those of the identities whose
    type is the requested type. *)
Theorem getSearchFilterBasedOnIdentity_restricts
    (h : SMARTHandler) (request : SearchFilterRequest.t) :
  let identity := SearchFilterRequest.userIdentity request in
  let baseUrl := nullish_or (SearchFilterRequest.fhirServiceBaseUrl request) (apiUrl h) in
  let requested := SearchFilterRequest.resourceType request in
  hasSystemAccess (usableScopes identity) "" = false ->
  (forall u, fhirUserObject identity = Some u ->
             isFhirUserAdmin u (adminAccessTypes h) baseUrl = false) ->
  exists references ids,
    getSearchFilterBasedOnIdentity h request
    = (match references with
       | [] => []
       | _ :: _ => [mkSearchFilter "_references" references "==" "OR"]
       end
       ++ match ids with
          | [] => []
          | _ :: _ => [mkSearchFilter "id" ids "==" "OR"]
          end)%list
    /\ NoDup references /\ NoDup ids
    /\ (forall x, In x references <->
                  exists who, In who (identities_of identity)
                              /\ (x = absolute_ref who
                                  \/ (hostname who = baseUrl /\ x = relative_ref who)))
    /\ (forall x, In x ids <->
                  exists who, In who (identities_of identity)
                              /\ requested = Some (resourceType who)
                              /\ resourceType who <> ""
                              /\ x = id who).
Proof.
  intros identity baseUrl requested Hsys Hadmin.
  unfold getSearchFilterBasedOnIdentity.
  fold identity; fold baseUrl; fold requested; rewrite Hsys.
  unfold identities_of.
  destruct (fhirUserObject identity) as [u|] eqn:Eu;
    [rewrite (Hadmin u eq_refl)|];
    destruct (patientLaunchContext identity) as [p|] eqn:Ep.
  - pose proof (addIdentity_spec baseUrl requested u [] []) as Su.
    destruct (addIdentity baseUrl requested u ([], [])) as [r1 i1]; simpl in Su.
    destruct Su as [Sr1 [Si1 [Nr1 Ni1]]].
    pose proof (addIdentity_spec baseUrl requested p r1 i1) as Sp.
    destruct (addIdentity baseUrl requested p (r1, i1)) as [r2 i2]; simpl in Sp.
    destruct Sp as [Sr2 [Si2 [Nr2 Ni2]]].
    exists r2, i2; split; [destruct r2, i2; reflexivity|].
    split; [apply Nr2, Nr1; constructor|].
    split; [apply Ni2, Ni1; constructor|]; split; intros x.
    + rewrite Sr2, Sr1; simpl; split.
      * intros [H | [H | [H | [H | []]]]];
          [exists p | exists p | exists u | exists u]; auto.
      * intros [who [[<- | [<- | []]] H]]; tauto.
    + rewrite Si2, Si1; simpl; split.
      * intros [H | [H | []]]; [exists p | exists u]; tauto.
      * intros [who [[<- | [<- | []]] H]]; tauto.
  - pose proof (addIdentity_spec baseUrl requested u [] []) as Su.
    destruct (addIdentity baseUrl requested u ([], [])) as [r1 i1]; simpl in Su.
    destruct Su as [Sr1 [Si1 [Nr1 Ni1]]].
    exists r1, i1; split; [destruct r1, i1; reflexivity|].
    split; [apply Nr1; constructor|].
    split; [apply Ni1; constructor|]; split; intros x.
    + rewrite Sr1; simpl; split.
      * intros [H | [H | []]]; exists u; auto.
      * intros [who [[<- | []] H]]; tauto.
    + rewrite Si1; simpl; split.
      * intros [H | []]; exists u; tauto.
      * intros [who [[<- | []] H]]; tauto.
  - pose proof (addIdentity_spec baseUrl requested p [] []) as Sp.
    destruct (addIdentity baseUrl requested p ([], [])) as [r1 i1]; simpl in Sp.
    destruct Sp as [Sr1 [Si1 [Nr1 Ni1]]].
    exists r1, i1; split; [destruct r1, i1; reflexivity|].
    split; [apply Nr1; constructor|].
    split; [apply Ni1; constructor|]; split; intros x.
    + rewrite Sr1; simpl; split.
      * intros [H | [H | []]]; exists p; auto.
      * intros [who [[<- | []] H]]; tauto.
    + rewrite Si1; simpl; split.
      * intros [H | []]; exists p; tauto.
      * intros [who [[<- | []] H]]; tauto.
  - exists [], []; split; [reflexivity|].
    split; [constructor|]; split; [constructor|]; split; intros x; simpl;
      (split; [intros [] | intros [who [[] _]]]).
Qed.

Lemma getSearchFilterBasedOnIdentity_restricts_witness :
  (hasSystemAccess (usableScopes identity_of_practitioner_and_patient) "" = false
   /\ forall u, fhirUserObject identity_of_practitioner_and_patient = Some u ->
                isFhirUserAdmin u ["Organization"] example_api = false)
  /\ getSearchFilterBasedOnIdentity
       (mkSMARTHandler example_config example_api "4.0.1" ["Organization"]
          ["Practitioner"] false)
       (SearchFilterRequest.mk identity_of_practitioner_and_patient
          (Some "Patient") None)
     = [ mkSearchFilter "_references"
           [ "https://api.example.com/Practitioner/9"; "Practitioner/9";
             "https://api.example.com/Patient/1"; "Patient/1" ] "==" "OR";
         mkSearchFilter "id" ["1"] "==" "OR" ].
Proof.
  assert (H1 : hasSystemAccess (usableScopes identity_of_practitioner_and_patient) ""
               = false) by reflexivity.
  assert (H2 : forall u, fhirUserObject identity_of_practitioner_and_patient = Some u ->
                         isFhirUserAdmin u ["Organization"] example_api = false)
    by (intros u Hu; injection Hu as <-; reflexivity).
  split; [split; assumption|].
  destruct (@getSearchFilterBasedOnIdentity_restricts
              (mkSMARTHandler example_config example_api "4.0.1" ["Organization"]
                 ["Practitioner"] false)
              (SearchFilterRequest.mk identity_of_practitioner_and_patient
                 (Some "Patient") None) H1 H2) as [references [ids _]].
  reflexivity.
Defined.

Lemma addIdentity_references (baseUrl : string) (requested : option string)
    (who : FhirResource) (sets : list string * list string) :
  fst (addIdentity baseUrl requested who sets) <> [].
Proof.
  destruct sets as [references ids].
  destruct (addIdentity_spec baseUrl requested who references ids) as [Hrefs _].
  intros Hnil; rewrite Hnil in Hrefs.
  exact (proj2 (Hrefs (absolute_ref who)) (or_introl eq_refl)).
Qed.

(** [getSearchFilterBasedOnIdentity] puts no restriction on a search in
    exactly three cases: a usable scope that begins with [system/], a
    fhirUser that is an admin on the request's server, and an identity that
    holds neither a fhirUser nor a patient context. *)
Theorem getSearchFilterBasedOnIdentity_unrestricted
    (h : SMARTHandler) (request : SearchFilterRequest.t) :
  let identity := SearchFilterRequest.userIdentity request in
  let baseUrl := nullish_or (SearchFilterRequest.fhirServiceBaseUrl request) (apiUrl h) in
  getSearchFilterBasedOnIdentity h request = [] <->
  (exists scope, In scope (usableScopes identity) /\ begins_with "system/" scope)
  \/ (exists u, fhirUserObject identity = Some u
                /\ isFhirUserAdmin u (adminAccessTypes h) baseUrl = true)
  \/ identities_of identity = [].
Proof.
  intros identity baseUrl.
  destruct (hasSystemAccess (usableScopes identity) "") eqn:Esys.
  { assert (Hscope : exists scope, In scope (usableScopes identity)
                                   /\ begins_with "system/" scope).
    { apply hasSystemAccess_spec in Esys; destruct Esys as [scope [Hin [H|H]]];
        exists scope; (split; [exact Hin|]);
        [apply begins_with_trans with (q := "system/*");
           [exists "*"; reflexivity | exact H]
        | exact H]. }
    split; [intros _; left; exact Hscope|].
    intros _; unfold getSearchFilterBasedOnIdentity; fold identity; rewrite Esys.
    reflexivity. }
  assert (Hnoscope : ~ exists scope, In scope (usableScopes identity)
                                     /\ begins_with "system/" scope).
  { intros [scope [Hin H]].
    assert (hasSystemAccess (usableScopes identity) "" = true)
      by (apply hasSystemAccess_spec; exists scope; split; [exact Hin | right; exact H]).
    congruence. }
  destruct (match fhirUserObject identity with
            | Some u => isFhirUserAdmin u (adminAccessTypes h) baseUrl
            | None => false
            end) eqn:Eadmin.
  { split.
    - intros _; right; left.
      destruct (fhirUserObject identity) as [u|]; [exists u; auto | discriminate].
    - intros _; unfold getSearchFilterBasedOnIdentity.
      fold identity; fold baseUrl; rewrite Esys, Eadmin; reflexivity. }
  assert (Hnoadmin : forall u, fhirUserObject identity = Some u ->
                               isFhirUserAdmin u (adminAccessTypes h) baseUrl = false).
  { intros u Hu; rewrite Hu in Eadmin; exact Eadmin. }
  assert (Hrhs : (exists scope, In scope (usableScopes identity)
                                /\ begins_with "system/" scope)
                 \/ (exists u, fhirUserObject identity = Some u
                               /\ isFhirUserAdmin u (adminAccessTypes h) baseUrl = true)
                 \/ identities_of identity = []
                 <-> identities_of identity = []).
  { split; [|auto].
    intros [H | [[u [Hu Ha]] | H]];
      [contradiction | rewrite (Hnoadmin u Hu) in Ha; discriminate | exact H]. }
  rewrite Hrhs; clear Hrhs.
  unfold getSearchFilterBasedOnIdentity.
  fold identity; fold baseUrl; rewrite Esys, Eadmin.
  unfold identities_of.
  destruct (fhirUserObject identity) as [u|];
    destruct (patientLaunchContext identity) as [p|]; cbv beta iota zeta;
    try (split; reflexivity).
  - pose proof (addIdentity_references baseUrl
                  (SearchFilterRequest.resourceType request) p
                  (addIdentity baseUrl (SearchFilterRequest.resourceType request)
                     u ([], []))) as Hne.
    destruct (addIdentity baseUrl _ p _) as [[|x references] ids];
      [exfalso; apply Hne; reflexivity|].
    split; discriminate.
  - pose proof (addIdentity_references baseUrl
                  (SearchFilterRequest.resourceType request) u ([], [])) as Hne.
    destruct (addIdentity baseUrl _ u _) as [[|x references] ids];
      [exfalso; apply Hne; reflexivity|].
    split; discriminate.
  - pose proof (addIdentity_references baseUrl
                  (SearchFilterRequest.resourceType request) p ([], [])) as Hne.
    destruct (addIdentity baseUrl _ p _) as [[|x references] ids];
      [exfalso; apply Hne; reflexivity|].
    split; discriminate.
Qed.

(* ================================================================== *)
(** ** Reads and writes *)

Lemma filterM_Ok {A : Type} (f : A -> result bool) (l kept : list A) :
  filterM f l = Ok kept ->
  kept = filter (fun x => match f x with Ok true => true | _ => false end) l
  /\ forall x, In x l -> exists b, f x = Ok b.
Proof.
  revert kept; induction l as [|a l IH]; simpl; intros kept H.
  - injection H as <-; split; [reflexivity | intros x []].
  - destruct (f a) as [b|e] eqn:Ea; simpl in H; [|discriminate].
    destruct (filterM f l) as [kept'|e] eqn:El; simpl in H; [|discriminate].
    destruct (IH kept' eq_refl) as [Hkept Hall].
    injection H as <-; split.
    + destruct b; rewrite Hkept; reflexivity.
    + intros x [<-|Hin]; [exists b; exact Ea | apply Hall; exact Hin].
Qed.

Lemma filterM_Err {A : Type} (f : A -> result bool) (l : list A) (x : A) (e : JsError) :
  In x l -> f x = Err e -> exists e', filterM f l = Err e'.
Proof.
  intros Hin Hx; induction l as [|a l IH]; simpl; [destruct Hin|].
  destruct Hin as [->|Hin].
  - rewrite Hx; simpl; eexists; reflexivity.
  - destruct (f a); simpl; [|eexists; reflexivity].
    destruct (IH Hin) as [e' ->]; simpl; eexists; reflexivity.
Qed.

Lemma round_double_exact (z : Z) :
  (- max_exact <= z <= max_exact)%Z -> round_double z = z.
Proof.
  intros H; unfold round_double.
  destruct (Z.abs z <=? max_exact)%Z eqn:E; [reflexivity|].
  apply Z.leb_gt in E; lia.
Qed.

(** A search response comes back with exactly the entries whose resource
    the identity has access to, in their order, every entry having been
    checked without error; a reported total that is a non-zero number is
    lowered by the number of entries dropped, as long as the lowered total
    is an integer that a double holds exactly (at most 2^53 in size; the
    entries are an array, of fewer than 2^32 items); a total that is absent
    or zero becomes the number of entries kept; every other field of the
    response is kept as it was. *)
Theorem authorizeAndFilterReadResponse_search
    (m4 m3 : ReferenceMatrix) (SEARCH_OPERATIONS : list string)
    (h : SMARTHandler) (request : ReadResponseRequest.t)
    (items : list JsVal) (out : JsVal) :
  let identity := ReadResponseRequest.userIdentity request in
  let readResponse := ReadResponseRequest.readResponse request in
  let baseUrl := nullish_or (ReadResponseRequest.fhirServiceBaseUrl request) (apiUrl h) in
  let check := fun entry =>
    resource <- get_prop entry "resource" ;;
    hasAccessToResource m4 m3 (fhirUserObject identity) (patientLaunchContext identity)
      resource (usableScopes identity) (adminAccessTypes h) baseUrl (fhirVersion h) in
  In (ReadResponseRequest.operation request) SEARCH_OPERATIONS ->
  field readResponse "entry" = JArr items ->
  authorizeAndFilterReadResponse m4 m3 SEARCH_OPERATIONS h request = Ok out ->
  exists kept,
    kept = filter (fun entry => match check entry with Ok true => true | _ => false end)
             items
    /\ (forall entry, In entry items -> exists b, check entry = Ok b)
    /\ field out "entry" = JArr kept
    /\ (forall z, field readResponse "total" = JNum z -> z <> 0%Z ->
          let dropped := (Z.of_nat (List.length items) - Z.of_nat (List.length kept))%Z in
          (Z.of_nat (List.length items) < 2 ^ 32)%Z ->
          (- 2 ^ 53 <= z - dropped <= 2 ^ 53)%Z ->
          field out "total" = JNum (z - dropped))
    /\ (field readResponse "total" = JUndefined \/ field readResponse "total" = JNum 0 ->
        field out "total" = JNum (Z.of_nat (List.length kept)))
    /\ (forall k, k <> "entry" -> k <> "total" -> field out k = field readResponse k).
Proof.
  intros identity readResponse baseUrl check Hop Hentry H.
  unfold authorizeAndFilterReadResponse in H.
  apply includes_In in Hop; rewrite Hop in H.
  fold identity in H; fold readResponse in H; fold baseUrl in H.
  assert (Hobj : exists fields, readResponse = JObj fields)
    by (destruct readResponse; simpl in Hentry; try discriminate; eexists; reflexivity).
  destruct Hobj as [fields Hfields].
  assert (Hnn : nullish readResponse = false) by (rewrite Hfields; reflexivity).
  rewrite !(get_prop_defined _ _ Hnn), Hentry in H; simpl in H.
  fold check in H.
  destruct (filterM check items) as [kept|e] eqn:Ekept; simpl in H; [|discriminate].
  destruct (filterM_Ok _ _ Ekept) as [Hkept Hall].
  exists kept; split; [exact Hkept|]; split; [exact Hall|].
  assert (Hout : forall total,
             out = JObj (set_field "total" total
                           (set_field "entry" (JArr kept) (spread readResponse))) ->
             field out "entry" = JArr kept
             /\ field out "total" = total
             /\ (forall k, k <> "entry" -> k <> "total" -> field out k = field readResponse k)).
  { intros total ->; rewrite Hfields; simpl; split; [|split].
    - rewrite lookup_field_set_field_other by discriminate.
      apply lookup_field_set_field_same.
    - apply lookup_field_set_field_same.
    - intros k Hk1 Hk2.
      rewrite !lookup_field_set_field_other by assumption; reflexivity. }
  destruct (truthy (field readResponse "total")) eqn:Etotal; simpl in H;
    injection H as H; symmetry in H; destruct (Hout _ H) as [He [Ht Hk]].
  - split; [exact He|]; split; [|split; [|exact Hk]].
    + intros z Hz _ dropped Hlen Hfits; rewrite Ht, Hz.
      assert (Hkept_le : (List.length kept <= List.length items)%nat)
        by (rewrite Hkept; apply filter_length_le).
      unfold js_sub; simpl.
      fold dropped.
      assert (Hdropped : (- max_exact <= dropped <= max_exact)%Z)
        by (unfold dropped, max_exact; change (2 ^ 32)%Z with 4294967296%Z in Hlen; lia).
      rewrite (round_double_exact Hdropped).
      change (2 ^ 53)%Z with max_exact in Hfits.
      rewrite (round_double_exact Hfits).
      reflexivity.
    + intros [Hz|Hz]; rewrite Hz in Etotal; discriminate.
  - split; [exact He|]; split; [|split; [|exact Hk]].
    + intros z Hz Hne; rewrite Hz in Etotal; simpl in Etotal.
      apply negb_false_iff, Z.eqb_eq in Etotal; contradiction.
    + intros _; exact Ht.
Qed.

Lemma authorizeAndFilterReadResponse_search_witness :
  (In "search-type" example_SEARCH_OPERATIONS
   /\ field search_bundle "entry"
      = JArr [ JObj [("resource", appointment_of_patient_1)];
               JObj [("resource", observation_of_patient_2)] ]
   /\ authorizeAndFilterReadResponse example_matrix example_matrix
        example_SEARCH_OPERATIONS example_handler
        (ReadResponseRequest.mk identity_of_patient_1 "search-type" search_bundle None)
      = Ok (JObj [ ("resourceType", JStr "Bundle");
                   ("type", JStr "searchset");
                   ("total", JNum 6);
                   ("entry", JArr [ JObj [("resource", appointment_of_patient_1)] ]) ]))
  /\ exists kept,
       field (JObj [ ("resourceType", JStr "Bundle");
                     ("type", JStr "searchset");
                     ("total", JNum 6);
                     ("entry", JArr [ JObj [("resource", appointment_of_patient_1)] ]) ])
         "entry" = JArr kept
       /\ field (JObj [ ("resourceType", JStr "Bundle");
                        ("type", JStr "searchset");
                        ("total", JNum 6);
                        ("entry",
                         JArr [ JObj [("resource", appointment_of_patient_1)] ]) ])
            "total" = JNum (7 - (2 - Z.of_nat (List.length kept))).
Proof.
  assert (H1 : In "search-type" example_SEARCH_OPERATIONS) by (left; reflexivity).
  assert (H2 : field search_bundle "entry"
               = JArr [ JObj [("resource", appointment_of_patient_1)];
                        JObj [("resource", observation_of_patient_2)] ])
    by reflexivity.
  assert (H3 : authorizeAndFilterReadResponse example_matrix example_matrix
                 example_SEARCH_OPERATIONS example_handler
                 (ReadResponseRequest.mk identity_of_patient_1 "search-type"
                    search_bundle None)
               = Ok (JObj [ ("resourceType", JStr "Bundle");
                            ("type", JStr "searchset");
                            ("total", JNum 6);
                            ("entry",
                             JArr [ JObj [("resource", appointment_of_patient_1)] ]) ]))
    by reflexivity.
  split; [repeat split; assumption|].
  destruct (@authorizeAndFilterReadResponse_search example_matrix example_matrix
              example_SEARCH_OPERATIONS example_handler
              (ReadResponseRequest.mk identity_of_patient_1 "search-type"
                 search_bundle None) _ _ H1 H2 H3)
    as [kept [Hkept [_ [Hentry [Htotal _]]]]].
  exists kept; split; [exact Hentry|].
  apply (Htotal 7%Z eq_refl); [discriminate | reflexivity |].
  rewrite Hkept; vm_compute; split; discriminate.
Defined.

(** One entry whose check throws (an entry that is [null], an entry without
    a resource, a resource on which the matcher throws) makes the whole
    search response fail: no filtered bundle is returned. *)
Theorem authorizeAndFilterReadResponse_search_error
    (m4 m3 : ReferenceMatrix) (SEARCH_OPERATIONS : list string)
    (h : SMARTHandler) (request : ReadResponseRequest.t)
    (items : list JsVal) (entry : JsVal) (e : JsError) :
  let identity := ReadResponseRequest.userIdentity request in
  let readResponse := ReadResponseRequest.readResponse request in
  let baseUrl := nullish_or (ReadResponseRequest.fhirServiceBaseUrl request) (apiUrl h) in
  In (ReadResponseRequest.operation request) SEARCH_OPERATIONS ->
  field readResponse "entry" = JArr items ->
  In entry items ->
  (resource <- get_prop entry "resource" ;;
   hasAccessToResource m4 m3 (fhirUserObject identity) (patientLaunchContext identity)
     resource (usableScopes identity) (adminAccessTypes h) baseUrl (fhirVersion h))
  = Err e ->
  exists e', authorizeAndFilterReadResponse m4 m3 SEARCH_OPERATIONS h request = Err e'.
Proof.
  intros identity readResponse baseUrl Hop Hentry Hin Hcheck.
  unfold authorizeAndFilterReadResponse.
  apply includes_In in Hop; rewrite Hop.
  fold identity; fold readResponse; fold baseUrl.
  assert (Hnn : nullish readResponse = false)
    by (destruct readResponse; simpl in Hentry; try discriminate; reflexivity).
  rewrite !(get_prop_defined _ _ Hnn), Hentry; simpl.
  set (check := fun entry : JsVal =>
         resource <- get_prop entry "resource" ;;
         hasAccessToResource m4 m3 (fhirUserObject identity)
           (patientLaunchContext identity) resource (usableScopes identity)
           (adminAccessTypes h) baseUrl (fhirVersion h)) in *.
  destruct (@filterM_Err _ check items entry e Hin Hcheck) as [e' He'].
  rewrite He'; exists e'; reflexivity.
Qed.

Lemma authorizeAndFilterReadResponse_search_error_witness :
  (In "search-type" example_SEARCH_OPERATIONS
   /\ In (JObj [("fullUrl", JStr "urn:uuid:1")])
        [ JObj [("resource", appointment_of_patient_1)];
          JObj [("fullUrl", JStr "urn:uuid:1")] ])
  /\ exists e',
       authorizeAndFilterReadResponse example_matrix example_matrix
         example_SEARCH_OPERATIONS example_handler
         (ReadResponseRequest.mk identity_of_patient_1 "search-type"
            (JObj [ ("resourceType", JStr "Bundle");
                    ("entry", JArr [ JObj [("resource", appointment_of_patient_1)];
                                     JObj [("fullUrl", JStr "urn:uuid:1")] ]) ])
            None)
       = Err e'.
Proof.
  assert (H1 : In "search-type" example_SEARCH_OPERATIONS) by (left; reflexivity).
  assert (H3 : In (JObj [("fullUrl", JStr "urn:uuid:1")])
                  [ JObj [("resource", appointment_of_patient_1)];
                    JObj [("fullUrl", JStr "urn:uuid:1")] ])
    by (right; left; reflexivity).
  split; [split; assumption|].
  exact (@authorizeAndFilterReadResponse_search_error example_matrix example_matrix
           example_SEARCH_OPERATIONS example_handler
           (ReadResponseRequest.mk identity_of_patient_1 "search-type"
              (JObj [ ("resourceType", JStr "Bundle");
                      ("entry", JArr [ JObj [("resource", appointment_of_patient_1)];
                                       JObj [("fullUrl", JStr "urn:uuid:1")] ]) ])
              None)
           _ _ TypeError H1 eq_refl H3 eq_refl).
Defined.

(** Outside the search operations, reading and writing are decided alike:
    [authorizeAndFilterReadResponse] returns a response exactly when
    [isWriteRequestAuthorized] accepts the same resource for the same
    identity and server, and what it returns is the response itself,
    unchanged. *)
Theorem read_and_write_agree
    (m4 m3 : ReferenceMatrix) (SEARCH_OPERATIONS : list string)
    (h : SMARTHandler) (identity : UserIdentity)
    (readOperation writeOperation : string) (resource : JsVal)
    (baseUrl : option string) :
  ~ In readOperation SEARCH_OPERATIONS ->
  let read :=
    authorizeAndFilterReadResponse m4 m3 SEARCH_OPERATIONS h
      (ReadResponseRequest.mk identity readOperation resource baseUrl) in
  let write :=
    isWriteRequestAuthorized m4 m3 h
      (WriteRequest.mk identity writeOperation resource baseUrl) in
  (forall out, read = Ok out -> out = resource)
  /\ (read = Ok resource <-> write = Ok tt)
  /\ (forall e, read = Err e -> exists e', write = Err e').
Proof.
  intros Hop read write.
  assert (Hnot : includes SEARCH_OPERATIONS readOperation = false).
  { destruct (includes SEARCH_OPERATIONS readOperation) eqn:E; [|reflexivity].
    apply includes_In in E; contradiction. }
  unfold read, write, authorizeAndFilterReadResponse, isWriteRequestAuthorized; simpl.
  rewrite Hnot.
  destruct (hasAccessToResource m4 m3 _ _ resource _ _ _ _) as [[|]|e]; simpl.
  - split; [intros out H; injection H as <-; reflexivity|].
    split; [split; reflexivity | intros e H; discriminate].
  - split; [intros out H; discriminate|].
    split; [split; discriminate | intros e _; eexists; reflexivity].
  - split; [intros out H; discriminate|].
    split; [split; discriminate | intros e' _; eexists; reflexivity].
Qed.

Lemma read_and_write_agree_witness :
  ~ In "read" example_SEARCH_OPERATIONS
  /\ (authorizeAndFilterReadResponse example_matrix example_matrix
        example_SEARCH_OPERATIONS example_handler
        (ReadResponseRequest.mk identity_of_patient_1 "read"
           appointment_of_patient_1 None)
      = Ok appointment_of_patient_1
      <-> isWriteRequestAuthorized example_matrix example_matrix example_handler
            (WriteRequest.mk identity_of_patient_1 "update"
               appointment_of_patient_1 None)
          = Ok tt).
Proof.
  assert (H : ~ In "read" example_SEARCH_OPERATIONS).
  { simpl; intros [H|[H|[H|[H|[H|[]]]]]]; discriminate. }
  split; [exact H|].
  exact (proj1 (proj2 (@read_and_write_agree example_matrix example_matrix
                         example_SEARCH_OPERATIONS example_handler
                         identity_of_patient_1 "read" "update"
                         appointment_of_patient_1 None H))).
Defined.

(** A resource that is [null] or [undefined] is never a denial on its own:
    the write check and the read check of a single resource throw a
    [TypeError], whatever the identity and its scopes; inside a bundle the
    same write is caught and becomes the bundle's denial. *)
Theorem null_resource_outcomes
    (m4 m3 : ReferenceMatrix) (SEARCH_OPERATIONS : list string)
    (isScopeSufficient : string -> JsVal -> string -> bool -> option string -> bool)
    (h : SMARTHandler) (identity : UserIdentity) (operation : string)
    (resource : JsVal) (baseUrl : option string) :
  nullish resource = true ->
  isWriteRequestAuthorized m4 m3 h (WriteRequest.mk identity operation resource baseUrl)
  = Err TypeError
  /\ (~ In operation SEARCH_OPERATIONS ->
      authorizeAndFilterReadResponse m4 m3 SEARCH_OPERATIONS h
        (ReadResponseRequest.mk identity operation resource baseUrl)
      = Err TypeError)
  /\ (In operation SEARCH_OPERATIONS ->
      authorizeAndFilterReadResponse m4 m3 SEARCH_OPERATIONS h
        (ReadResponseRequest.mk identity operation resource baseUrl)
      = Err TypeError)
  /\ (forall resourceType requests,
         In (BundleEntry.mk operation resourceType resource) requests ->
         In operation ["create"; "update"; "patch"; "delete"] ->
         isBundleRequestAuthorized m4 m3 isScopeSufficient h
           (BundleRequest.mk identity requests baseUrl)
         = Err (UnauthorizedError "An entry within the Bundle is not authorized")).
Proof.
  intros Hnull.
  assert (Haccess : forall fu pc usable admins api ver,
             hasAccessToResource m4 m3 fu pc resource usable admins api ver
             = Err TypeError).
  { intros; unfold hasAccessToResource; rewrite (nullish_get_prop _ _ Hnull); reflexivity. }
  split; [|split; [|split]].
  - unfold isWriteRequestAuthorized; simpl; rewrite Haccess; reflexivity.
  - intros Hop.
    assert (Hnot : includes SEARCH_OPERATIONS operation = false).
    { destruct (includes SEARCH_OPERATIONS operation) eqn:E; [|reflexivity].
      apply includes_In in E; contradiction. }
    unfold authorizeAndFilterReadResponse; simpl; rewrite Hnot, Haccess; reflexivity.
  - intros Hop; apply includes_In in Hop.
    unfold authorizeAndFilterReadResponse; simpl.
    rewrite Hop, (nullish_get_prop _ _ Hnull); reflexivity.
  - intros resourceType requests Hin Hmut.
    unfold isBundleRequestAuthorized; simpl.
    destruct (negb (forallb _ requests)); [reflexivity|].
    rewrite forallb_is_ok_false
      with (x := BundleEntry.mk operation resourceType resource);
      [reflexivity | exact Hin |].
    simpl; apply includes_In in Hmut; unfold isMutating; rewrite Hmut.
    unfold isWriteRequestAuthorized; simpl; rewrite Haccess; reflexivity.
Qed.

Lemma null_resource_outcomes_witness :
  nullish JNull = true
  /\ isWriteRequestAuthorized example_matrix example_matrix example_handler
       (WriteRequest.mk identity_of_patient_1 "create" JNull None)
     = Err TypeError.
Proof.
  assert (H : nullish JNull = true) by reflexivity.
  split; [exact H|].
  exact (proj1 (@null_resource_outcomes example_matrix example_matrix
                  example_SEARCH_OPERATIONS spec_isScopeSufficient example_handler
                  identity_of_patient_1 "create" JNull None H)).
Defined.

(* ================================================================== *)
(** ** The resource types an operation may touch *)

Lemma dedupe_fold (l acc : list string) :
  (forall x, In x (fold_left (fun s y => set_add y s) l acc) <-> In x acc \/ In x l)
  /\ (NoDup acc -> NoDup (fold_left (fun s y => set_add y s) l acc)).
Proof.
  revert acc; induction l as [|a l IH]; intros acc; simpl.
  - split; [intros x; tauto | trivial].
  - destruct (IH (set_add a acc)) as [Hin Hnd]; split.
    + intros x; rewrite Hin, set_add_In; simpl; intuition (subst; auto).
    + intros H; apply Hnd, set_add_NoDup, H.
Qed.

Lemma dedupe_In (l : list string) (x : string) : In x (dedupe l) <-> In x l.
Proof. unfold dedupe; rewrite (proj1 (dedupe_fold l [])); simpl; tauto. Qed.

Lemma dedupe_NoDup (l : list string) : NoDup (dedupe l).
Proof. apply (proj2 (dedupe_fold l [])); constructor. Qed.

Lemma allowedLoop_spec
    (convert : string -> result SmartScope.t)
    (validOps : string -> string -> JsVal -> result (list string))
    (r4 stu3 : list string) (h : SMARTHandler) (operation : string)
    (scopes : list string) :
  forall allowed,
    match allowedLoop convert validOps r4 stu3 h operation scopes allowed with
    | None =>
        exists scope smart,
          In scope scopes /\ covers convert validOps h operation scope smart
          /\ SmartScope.resourceType smart = "*"
    | Some out =>
        (forall scope smart,
            In scope scopes -> covers convert validOps h operation scope smart ->
            SmartScope.resourceType smart <> "*")
        /\ forall t,
             In t out <->
             In t allowed
             \/ (In t (allResourceTypesOf r4 stu3 h)
                 /\ exists scope smart,
                      In scope scopes /\ covers convert validOps h operation scope smart
                      /\ SmartScope.resourceType smart = t)
    end.
Proof.
  induction scopes as [|scope rest IH]; intros allowed; simpl.
  - split; [intros scope smart [] | intros t; split; [auto|]].
    intros [H | [_ [scope [smart [[] _]]]]]; exact H.
  - (* what the tail contributes, whatever this scope does *)
    assert (Hskip : (forall smart, ~ covers convert validOps h operation scope smart) ->
              match allowedLoop convert validOps r4 stu3 h operation rest allowed with
              | None =>
                  exists scope0 smart,
                    (scope = scope0 \/ In scope0 rest)
                    /\ covers convert validOps h operation scope0 smart
                    /\ SmartScope.resourceType smart = "*"
              | Some out =>
                  (forall scope0 smart,
                      scope = scope0 \/ In scope0 rest ->
                      covers convert validOps h operation scope0 smart ->
                      SmartScope.resourceType smart <> "*")
                  /\ forall t,
                       In t out <->
                       In t allowed
                       \/ (In t (allResourceTypesOf r4 stu3 h)
                           /\ exists scope0 smart,
                                (scope = scope0 \/ In scope0 rest)
                                /\ covers convert validOps h operation scope0 smart
                                /\ SmartScope.resourceType smart = t)
              end).
    { intros Hnot; specialize (IH allowed).
      destruct (allowedLoop convert validOps r4 stu3 h operation rest allowed) as [out|].
      - destruct IH as [Hstar Hin]; split.
        + intros scope0 smart [<-|H0] Hc; [exfalso; exact (Hnot _ Hc) | eauto].
        + intros t; rewrite Hin; split.
          * intros [H | [Ht [scope0 [smart [H0 H]]]]]; [auto|].
            right; split; [exact Ht|]; exists scope0, smart; auto.
          * intros [H | [Ht [scope0 [smart [[<-|H0] [Hc H]]]]]]; [auto | |].
            -- exfalso; exact (Hnot _ Hc).
            -- right; split; [exact Ht|]; exists scope0, smart; auto.
      - destruct IH as [scope0 [smart [H0 H]]]; exists scope0, smart; auto. }
    destruct (scopeCoverage convert validOps h scope) as [[smart ops]|e] eqn:Ecov.
    + destruct (includes ops operation) eqn:Eop.
      * assert (Hcov : covers convert validOps h operation scope smart)
          by (exists ops; split; [exact Ecov | apply includes_In; exact Eop]).
        assert (Hone : forall smart', covers convert validOps h operation scope smart' ->
                                      smart' = smart).
        { intros smart' [ops' [H' _]]; rewrite Ecov in H'; congruence. }
        destruct (String.eqb (SmartScope.resourceType smart) "*") eqn:Estar.
        -- apply String.eqb_eq in Estar; exists scope, smart; auto.
        -- apply String.eqb_neq in Estar.
           destruct (includes (allResourceTypesOf r4 stu3 h)
                       (SmartScope.resourceType smart)) eqn:Eall.
           ++ apply includes_In in Eall.
              specialize (IH (allowed ++ [SmartScope.resourceType smart])%list).
              destruct (allowedLoop convert validOps r4 stu3 h operation rest _)
                as [out|].
              ** destruct IH as [Hstar Hin]; split.
                 --- intros scope0 smart0 [<-|H0] Hc;
                       [rewrite (Hone _ Hc); exact Estar | eauto].
                 --- intros t; rewrite Hin, in_app_iff; simpl; split.
                     +++ intros [[H | [<- | []]] | [Ht [scope0 [smart0 [H0 H]]]]];
                           [auto | | ].
                         *** right; split; [exact Eall|]; exists scope, smart; auto.
                         *** right; split; [exact Ht|]; exists scope0, smart0; auto.
                     +++ intros [H | [Ht [scope0 [smart0 [[<-|H0] [Hc H]]]]]];
                           [auto | |].
                         *** rewrite (Hone _ Hc) in H; auto.
                         *** right; split; [exact Ht|]; exists scope0, smart0; auto.
              ** destruct IH as [scope0 [smart0 [H0 H]]]; exists scope0, smart0; auto.
           ++ specialize (IH allowed).
              destruct (allowedLoop convert validOps r4 stu3 h operation rest allowed)
                as [out|].
              ** destruct IH as [Hstar Hin]; split.
                 --- intros scope0 smart0 [<-|H0] Hc;
                       [rewrite (Hone _ Hc); exact Estar | eauto].
                 --- intros t; rewrite Hin; split.
                     +++ intros [H | [Ht [scope0 [smart0 [H0 H]]]]]; [auto|].
                         right; split; [exact Ht|]; exists scope0, smart0; auto.
                     +++ intros [H | [Ht [scope0 [smart0 [[<-|H0] [Hc H]]]]]];
                           [auto | |].
                         *** exfalso; rewrite (Hone _ Hc) in H; subst t.
                             apply includes_In in Ht; congruence.
                         *** right; split; [exact Ht|]; exists scope0, smart0; auto.
              ** destruct IH as [scope0 [smart0 [H0 H]]]; exists scope0, smart0; auto.
      * apply Hskip; intros smart' [ops' [H' Hin']].
        rewrite Ecov in H'; injection H' as <- <-.
        apply includes_In in Hin'; congruence.
    + apply Hskip; intros smart' [ops' [H' _]]; rewrite Ecov in H'; discriminate.
Qed.

(** A resource type is among those [getAllowedResourceTypesForOperation]
    returns exactly when it is a base resource type of the handler's FHIR
    version and some scope of the identity is a SMART scope whose rule
    allows the operation and whose resource type is that type or the
    wildcard. A scope that is not a SMART scope, or whose rule lookup
    throws, has no effect. *)
Theorem getAllowedResourceTypesForOperation_membership
    (convert : string -> result SmartScope.t)
    (validOps : string -> string -> JsVal -> result (list string))
    (r4 stu3 : list string) (h : SMARTHandler) (request : AllowedTypesRequest.t)
    (t : string) :
  In t (getAllowedResourceTypesForOperation convert validOps r4 stu3 h request) <->
  In t (allResourceTypesOf r4 stu3 h)
  /\ exists scope smart,
       In scope (scopes (AllowedTypesRequest.userIdentity request))
       /\ covers convert validOps h (AllowedTypesRequest.operation request) scope smart
       /\ (SmartScope.resourceType smart = "*" \/ SmartScope.resourceType smart = t).
Proof.
  unfold getAllowedResourceTypesForOperation.
  pose proof (allowedLoop_spec convert validOps r4 stu3 h
                (AllowedTypesRequest.operation request)
                (scopes (AllowedTypesRequest.userIdentity request)) []) as Hloop.
  destruct (allowedLoop convert validOps r4 stu3 h _ _ []) as [out|].
  - destruct Hloop as [Hstar Hin]; rewrite dedupe_In, Hin; simpl; split.
    + intros [[] | [Ht [scope [smart [Hs [Hc Hr]]]]]].
      split; [exact Ht|]; exists scope, smart; auto.
    + intros [Ht [scope [smart [Hs [Hc [Hr|Hr]]]]]].
      * exfalso; exact (Hstar _ _ Hs Hc Hr).
      * right; split; [exact Ht|]; exists scope, smart; auto.
  - destruct Hloop as [scope [smart [Hs [Hc Hr]]]]; split.
    + intros Ht; split; [exact Ht|]; exists scope, smart; auto.
    + intros [Ht _]; exact Ht.
Qed.

(** When a scope of the identity covers the operation with the wildcard
    resource type, [getAllowedResourceTypesForOperation] returns the list
    of base resource types itself; when none does, what it returns holds no
    type twice. *)
Theorem getAllowedResourceTypesForOperation_shape
    (convert : string -> result SmartScope.t)
    (validOps : string -> string -> JsVal -> result (list string))
    (r4 stu3 : list string) (h : SMARTHandler) (request : AllowedTypesRequest.t) :
  let wildcard :=
    exists scope smart,
      In scope (scopes (AllowedTypesRequest.userIdentity request))
      /\ covers convert validOps h (AllowedTypesRequest.operation request) scope smart
      /\ SmartScope.resourceType smart = "*" in
  (wildcard ->
   getAllowedResourceTypesForOperation convert validOps r4 stu3 h request
   = allResourceTypesOf r4 stu3 h)
  /\ (~ wildcard ->
      NoDup (getAllowedResourceTypesForOperation convert validOps r4 stu3 h request)).
Proof.
  intros wildcard; unfold wildcard, getAllowedResourceTypesForOperation.
  pose proof (allowedLoop_spec convert validOps r4 stu3 h
                (AllowedTypesRequest.operation request)
                (scopes (AllowedTypesRequest.userIdentity request)) []) as Hloop.
  destruct (allowedLoop convert validOps r4 stu3 h _ _ []) as [out|].
  - destruct Hloop as [Hstar _]; split.
    + intros [scope [smart [Hs [Hc Hr]]]]; exfalso; exact (Hstar _ _ Hs Hc Hr).
    + intros _; apply dedupe_NoDup.
  - split; [reflexivity | intros Hnot; exfalso; exact (Hnot Hloop)].
Qed.

Lemma getAllowedResourceTypesForOperation_shape_witness :
  (exists scope smart,
      In scope ["openid"; "patient/Observation.read"; "user/*.read"]
      /\ covers further_convertScope further_validOperations example_handler
           "read" scope smart
      /\ SmartScope.resourceType smart = "*")
  /\ getAllowedResourceTypesForOperation further_convertScope further_validOperations
       further_base_resources [] example_handler
       (AllowedTypesRequest.mk
          (mkUserIdentity (JStr "user-9")
             ["openid"; "patient/Observation.read"; "user/*.read"] [] None None)
          "read")
     = further_base_resources.
Proof.
  assert (H : exists scope smart,
             In scope ["openid"; "patient/Observation.read"; "user/*.read"]
             /\ covers further_convertScope further_validOperations example_handler
                  "read" scope smart
             /\ SmartScope.resourceType smart = "*").
  { exists "user/*.read", (SmartScope.mk "user" "*" "read").
    split; [right; right; left; reflexivity|].
    split; [|reflexivity].
    eexists; split; [reflexivity | left; reflexivity]. }
  split; [exact H|].
  exact (proj1 (@getAllowedResourceTypesForOperation_shape further_convertScope
                  further_validOperations further_base_resources [] example_handler
                  (AllowedTypesRequest.mk
                     (mkUserIdentity (JStr "user-9")
                        ["openid"; "patient/Observation.read"; "user/*.read"] []
                        None None)
                     "read")) H).
Defined.
